(** * Weather data pipeline: extract, load, transform

    A shallow embedding of [extract.py], [load.py], [transform.py] and the
    driver of [main.py], and the properties of the pipeline that the
    specification states about them.

    Conventions of the embedding.
    - Python objects (parsed JSON documents, datetimes) are values of [value].
    - A Python [float] and an SQLite [REAL] are represented by the rational
      number they denote, and sums, means and differences are computed
      exactly where the program rounds each operation to the nearest double:
      a computed mean or difference is the program's up to that rounding
      (the mean of three records at 15.27 is 15.27 here and
      15.270000000000001 in the program).  Comparisons with the thresholds
      and equalities between stored cells are not affected.  [NULL] is
      [SNull]; a column of a frame read back from a table is a float column
      with [NaN] for its missing cells when it holds a number, and a column
      of [None] when it holds none ([item]).
    - A datetime is the number of microseconds since the epoch of the naive
      local calendar; the ISO text the [sqlite3] adapter writes for it is
      represented by that number ([STime]).
    - The pipeline works on one database file ([config.DATABASE_PATH]); the
      [db_path] arguments of the Python functions are therefore implicit.
    - A table is a list of rows and a row an association list from column
      names to cells, as [SELECT *] and a pandas frame present them.
    - Code that may raise lives in a state-and-exception monad over [world].
    - What the environment decides is read from a [host]: the time zone and
      the clock, the provider's answers, whether python-dotenv is installed,
      the case mapping of [str.lower] and whether the file system lets a
      directory or a file be created. *)

From Stdlib Require Import List ZArith QArith Qreduction Qround Qabs Bool String Ascii.
From Stdlib Require Import DecimalString Lia Lqa Permutation.
Import ListNotations.

Local Open Scope string_scope.
Local Open Scope list_scope.
Local Open Scope Z_scope.

Set Implicit Arguments.
Set Warnings "-register-all".

(* ================================================================= *)
(** ** Python values and exceptions *)

Inductive exn : Type :=
| AttributeError | IndexError | KeyError | TypeError | ValueError
| OverflowError | ProgrammingError | OperationalError | DatabaseError
| JSONDecodeError | FileNotFoundError | RequestException.

Inductive result (A : Type) : Type :=
| Ok (a : A)
| Raise (e : exn).
Arguments Ok {A} a.
Arguments Raise {A} e.

Inductive value : Type :=
| VNone
| VBool (b : bool)
| VInt (z : Z)
| VFloat (q : Q)
| VStr (s : string)
| VList (l : list value)
| VDict (items : list (string * value))
| VDatetime (t : Z).

(** First binding of a key in an association list (dict items, row columns). *)
Fixpoint assoc {A : Type} (k : string) (l : list (string * A)) : option A :=
  match l with
  | [] => None
  | (k', v) :: rest => if String.eqb k k' then Some v else assoc k rest
  end.

(** [d[k] = v] on dict items: overwrite in place, or append a new key. *)
Fixpoint assoc_set {A : Type} (k : string) (v : A) (l : list (string * A))
  : list (string * A) :=
  match l with
  | [] => [(k, v)]
  | (k', v') :: rest =>
      if String.eqb k k' then (k, v) :: rest else (k', v') :: assoc_set k v rest
  end.

Module Py.

Definition bind {A B : Type} (m : result A) (f : A -> result B) : result B :=
  match m with
  | Ok a => f a
  | Raise e => Raise e
  end.

(** [obj.get(key, default)]: only dicts have [get]. *)
Definition get (obj : value) (key : string) (default : value) : result value :=
  match obj with
  | VDict items =>
      match assoc key items with
      | Some v => Ok v
      | None => Ok default
      end
  | _ => Raise AttributeError
  end.

(** [obj[0]]. *)
Definition item0 (obj : value) : result value :=
  match obj with
  | VList [] => Raise IndexError
  | VList (x :: _) => Ok x
  | VStr EmptyString => Raise IndexError
  | VStr (String c _) => Ok (VStr (String c EmptyString))
  | VDict _ => Raise KeyError
  | _ => Raise TypeError
  end.

(** [obj.items()]. *)
Definition items (obj : value) : result (list (string * value)) :=
  match obj with
  | VDict kv => Ok kv
  | _ => Raise AttributeError
  end.

(** The elements of [for x in obj]: a dict yields its keys and a string
    its characters; [None], numbers and datetimes are not iterable. *)
Definition iter (obj : value) : result (list value) :=
  match obj with
  | VList l => Ok l
  | VDict kv => Ok (map (fun p => VStr (fst p)) kv)
  | VStr s => Ok (map (fun c => VStr (String c EmptyString)) (list_ascii_of_string s))
  | _ => Raise TypeError
  end.

(** [obj[key] = v]: dicts only. *)
Definition setitem (obj : value) (key : string) (v : value) : result value :=
  match obj with
  | VDict kv => Ok (VDict (assoc_set key v kv))
  | _ => Raise TypeError
  end.

(** Truth value of an object, as tested by [if obj:]. *)
Definition truthy (obj : value) : bool :=
  match obj with
  | VNone => false
  | VBool b => b
  | VInt z => negb (z =? 0)
  | VFloat q => negb (Qeq_bool q 0)
  | VStr s => negb (String.eqb s "")
  | VList l => match l with [] => false | _ => true end
  | VDict kv => match kv with [] => false | _ => true end
  | VDatetime _ => true
  end.

End Py.

Declare Scope py_scope.
Delimit Scope py_scope with py.
Notation "x <- m ;; k" := (Py.bind m (fun x => k))
  (at level 61, m at next level, right associativity) : py_scope.

(** Round to the nearest integer, ties to the even one. *)
Definition round_half_even (q : Q) : Z :=
  let f := Qfloor q in
  match Qcompare (q - inject_Z f) (1 # 2) with
  | Lt => f
  | Gt => f + 1
  | Eq => if Z.even f then f else f + 1
  end.

(* ================================================================= *)
(** ** The relational store *)

Inductive sqlval : Type :=
| SNull
| SNum (q : Q)
| SText (s : string)
| STime (t : Z).

Definition row : Type := list (string * sqlval).
Definition table : Type := list row.
Definition database : Type := list (string * table).

(** [row['col']]; a column the row does not have reads as NULL. *)
Definition col (r : row) (c : string) : sqlval :=
  match assoc c r with
  | Some v => v
  | None => SNull
  end.

Definition int64_min : Z := - 2 ^ 63.
Definition int64_max : Z := 2 ^ 63 - 1.

(** What [sqlite3] stores for a Python object passed as a statement
    parameter.  Lists and dicts cannot be bound ([sqlite3.ProgrammingError],
    [InterfaceError] before Python 3.11); an [int] must fit 64 bits. *)
Definition adapt (v : value) : result sqlval :=
  match v with
  | VNone => Ok SNull
  | VBool b => Ok (SNum (if b then 1 else 0))
  | VInt z =>
      if (int64_min <=? z) && (z <=? int64_max)
      then Ok (SNum (inject_Z z)) else Raise OverflowError
  | VFloat q => Ok (SNum (Qred q))
  | VStr s => Ok (SText s)
  | VDatetime t => Ok (STime t)
  | VList _ | VDict _ => Raise ProgrammingError
  end.

Fixpoint adapt_all (vs : list value) : result (list sqlval) :=
  match vs with
  | [] => Ok []
  | v :: rest =>
      (x <- adapt v ;; xs <- adapt_all rest ;; Ok (x :: xs))%py
  end.

(** [CREATE TABLE IF NOT EXISTS name]. *)
Definition create_table_if_not_exists (name : string) (db : database) : database :=
  match assoc name db with
  | Some _ => db
  | None => db ++ [(name, [])]
  end.

(** [INSERT INTO name (columns) VALUES (?, ...)] on a table whose [id] is
    [INTEGER PRIMARY KEY AUTOINCREMENT].  Rows are never deleted, so the next
    id is one more than the number of rows. *)
Definition insert_into (name : string) (columns : list string)
  (params : list value) (db : database) : result database :=
  match assoc name db with
  | None => Raise OperationalError
  | Some rows =>
      (vals <- adapt_all params ;;
       let id := SNum (inject_Z (Z.of_nat (S (List.length rows)))) in
       Ok (assoc_set name (rows ++ [("id", id) :: combine columns vals]) db))%py
  end.

(* ================================================================= *)
(** ** The world the pipeline runs in *)

(** What a file of the raw store holds, as [json.load] sees it. *)
Inductive file : Type :=
| NotJson
| Json (doc : value).

Inductive log_entry : Type :=
| Info (msg : string) (arg : value)
| Warning (msg : string)
| Error (msg : string) (arg : value) (e : exn).

(** Operations on the derived tables, in the order they were issued. *)
Inductive sql_op : Type :=
| CreateTable (name : string)
| InsertRows (name : string) (n : nat).

Record world : Type := mkWorld {
  api_key_env : option string;          (* os.getenv('OPENWEATHERMAP_API_KEY') *)
  files : list (string * file);         (* raw_data/ and other files *)
  db : option database;                 (* None: the database file is absent *)
  clock : nat;                          (* how often the clock was read *)
  log : list log_entry;
  trace : list sql_op
}.

Definition M (A : Type) : Type := world -> result A * world.

Module St.

Definition ret {A : Type} (a : A) : M A := fun w => (Ok a, w).

Definition bind {A B : Type} (m : M A) (f : A -> M B) : M B :=
  fun w =>
    match m w with
    | (Ok a, w') => f a w'
    | (Raise e, w') => (Raise e, w')
    end.

Definition raise {A : Type} (e : exn) : M A := fun w => (Raise e, w).

Definition lift {A : Type} (r : result A) : M A := fun w => (r, w).

(** [try: body  except Exception as e: handler e]. *)
Definition try_except {A : Type} (body : M A) (handler : exn -> M A) : M A :=
  fun w =>
    match body w with
    | (Ok a, w') => (Ok a, w')
    | (Raise e, w') => handler e w'
    end.

(** [for x in xs: body x]. *)
Fixpoint for_each {A : Type} (xs : list A) (body : A -> M unit) : M unit :=
  match xs with
  | [] => ret tt
  | x :: rest => bind (body x) (fun _ => for_each rest body)
  end.

Definition logger (e : log_entry) : M unit :=
  fun w => (Ok tt, mkWorld (api_key_env w) (files w) (db w) (clock w)
                           (log w ++ [e]) (trace w)).

Definition tick : M nat :=
  fun w => (Ok (clock w), mkWorld (api_key_env w) (files w) (db w)
                                  (S (clock w)) (log w) (trace w)).

Definition set_db (d : database) : M unit :=
  fun w => (Ok tt, mkWorld (api_key_env w) (files w) (Some d) (clock w)
                           (log w) (trace w)).

Definition set_files (fs : list (string * file)) : M unit :=
  fun w => (Ok tt, mkWorld (api_key_env w) fs (db w) (clock w)
                           (log w) (trace w)).

Definition record_op (o : sql_op) : M unit :=
  fun w => (Ok tt, mkWorld (api_key_env w) (files w) (db w) (clock w)
                           (log w) (trace w ++ [o])).

End St.

Declare Scope st_scope.
Delimit Scope st_scope with st.
Notation "x <- m ;; k" := (St.bind m (fun x => k))
  (at level 61, m at next level, right associativity) : st_scope.
Notation "m ;;; k" := (St.bind m (fun _ => k))
  (at level 61, right associativity) : st_scope.

(** The tables of the database file; an absent file has none. *)
Definition tables (w : world) : database :=
  match db w with
  | Some d => d
  | None => []
  end.

(** [sqlite3.connect(db_path)]: creates the file when it is absent and
    hands out the committed content, on which the connection then works. *)
Definition sqlite3_connect : M database :=
  fun w => St.bind (St.set_db (tables w)) (fun _ => St.ret (tables w)) w.

(** [conn.commit()]: the connection's work becomes the file's content. *)
Definition commit (conn : database) : M unit := St.set_db conn.

(** [conn.rollback()] and [conn.close()]: pending work lives in the
    connection only, so discarding it leaves the file as it is. *)
Definition rollback : M unit := St.ret tt.
Definition close : M unit := St.ret tt.

(** [with open(file_path) as f: json.load(f)]. *)
Definition open_json_load (file_path : value) : M value :=
  match file_path with
  | VStr p =>
      fun w =>
        match assoc p (files w) with
        | None => (Raise FileNotFoundError, w)
        | Some NotJson => (Raise JSONDecodeError, w)
        | Some (Json doc) => (Ok doc, w)
        end
  | _ => St.raise TypeError
  end.

(** The host: time zone, wall clock, the weather provider, the installed
    packages, the Unicode case mapping and the file system. *)
Inductive http_body : Type :=
| BodyNotJson
| BodyJson (doc : value).

Inductive http_result : Type :=
| ConnectionFailed
| Response (status : Z) (body : http_body).

Record host : Type := mkHost {
  utcoffset : Z -> Z;           (* seconds east of UTC at a POSIX second *)
  wall : nat -> Z;              (* the n-th reading of the local clock *)
  isoformat : Z -> string;      (* datetime.isoformat() *)
  strftime : Z -> string;       (* strftime('%Y%m%d_%H%M%S') *)
  http_get : string -> string -> string -> http_result;  (* url, q, appid *)
  dotenv_installed : bool;      (* [from dotenv import load_dotenv] succeeds *)
  lower : string -> string;     (* str.lower() *)
  makedirs : string -> option exn;   (* what os.makedirs(p, exist_ok=True) raises *)
  open_w : string -> option exn      (* what open(p, 'w') raises *)
}.

(* ================================================================= *)
(** ** load.py *)

Module Load.
Section WithHost.

Variable h : host.

Local Open Scope st_scope.

(** Bounds of [datetime]: 0001-01-01 00:00:00 and 9999-12-31 23:59:59.999999,
    in microseconds. *)
Definition min_datetime : Z := -62135596800000000.
Definition max_datetime : Z := 253402300799999999.

Definition posix_micros (v : value) : option Z :=
  match v with
  | VInt z => Some (z * 1000000)
  | VBool b => Some (if b then 1000000 else 0)
  | VFloat q => Some (round_half_even (q * inject_Z 1000000))
  | _ => None
  end.

(** [datetime.fromtimestamp(v)]: local naive time of a POSIX timestamp. *)
Definition fromtimestamp (v : value) : result value :=
  match posix_micros v with
  | None => Raise TypeError
  | Some us =>
      let local := us + 1000000 * utcoffset h (us / 1000000) in
      if (min_datetime <=? local) && (local <=? max_datetime)
      then Ok (VDatetime local)
    else Raise ValueError   (* or OverflowError, OSError: all are caught alike *)
  end.

(** [datetime.now()]. *)
Definition datetime_now : M value :=
  n <- St.tick ;; St.ret (VDatetime (wall h n)).

Definition current_weather_columns : list string :=
  ["city_id"; "city_name"; "country"; "latitude"; "longitude";
   "weather_main"; "weather_description"; "temperature"; "feels_like";
   "temp_min"; "temp_max"; "pressure"; "humidity"; "wind_speed";
   "wind_direction"; "cloudiness"; "rain_1h"; "snow_1h";
   "timestamp"; "sunrise"; "sunset"; "retrieved_at"].

Definition forecast_columns : list string :=
  ["city_id"; "city_name"; "country"; "forecast_time";
   "weather_main"; "weather_description"; "temperature"; "feels_like";
   "temp_min"; "temp_max"; "pressure"; "humidity"; "wind_speed";
   "wind_direction"; "cloudiness"; "rain_3h"; "snow_3h"; "retrieved_at"].

Definition raw_data_files_columns : list string :=
  ["file_path"; "data_type"; "city"; "timestamp"].

Definition init_database : M unit :=
  conn <- sqlite3_connect ;;
  let conn := create_table_if_not_exists "current_weather" conn in
  let conn := create_table_if_not_exists "forecast" conn in
  let conn := create_table_if_not_exists "raw_data_files" conn in
  commit conn ;;;
  close ;;;
  St.logger (Info "Database initialized at {db_path}" VNone).

(** [data.get(block, {}).get(key, default)]. *)
Definition get_in (data : value) (block key : string) (default : value)
  : result value :=
  (b <- Py.get data block (VDict []) ;; Py.get b key default)%py.

(** [data.get('weather', [{}])[0].get(key)]. *)
Definition weather0 (data : value) (key : string) : result value :=
  (ws <- Py.get data "weather" (VList [VDict []]) ;;
   w <- Py.item0 ws ;;
   Py.get w key VNone)%py.

(** The values [load_current_weather] extracts from a document, in the
    order of the INSERT statement. *)
Definition current_weather_values (data : value) : result (list value) :=
  (retrieved_at <- Py.get data "retrieved_at" VNone ;;
   city_id <- Py.get data "id" VNone ;;
   city_name <- Py.get data "name" VNone ;;
   country <- get_in data "sys" "country" VNone ;;
   latitude <- get_in data "coord" "lat" VNone ;;
   longitude <- get_in data "coord" "lon" VNone ;;
   weather_main <- weather0 data "main" ;;
   weather_description <- weather0 data "description" ;;
   temperature <- get_in data "main" "temp" VNone ;;
   feels_like <- get_in data "main" "feels_like" VNone ;;
   temp_min <- get_in data "main" "temp_min" VNone ;;
   temp_max <- get_in data "main" "temp_max" VNone ;;
   pressure <- get_in data "main" "pressure" VNone ;;
   humidity <- get_in data "main" "humidity" VNone ;;
   wind_speed <- get_in data "wind" "speed" VNone ;;
   wind_direction <- get_in data "wind" "deg" VNone ;;
   cloudiness <- get_in data "clouds" "all" VNone ;;
   rain_1h <- get_in data "rain" "1h" (VInt 0) ;;
   snow_1h <- get_in data "snow" "1h" (VInt 0) ;;
   dt <- Py.get data "dt" (VInt 0) ;;
   timestamp <- fromtimestamp dt ;;
   sr <- get_in data "sys" "sunrise" (VInt 0) ;;
   sunrise <- fromtimestamp sr ;;
   ss <- get_in data "sys" "sunset" (VInt 0) ;;
   sunset <- fromtimestamp ss ;;
   Ok [city_id; city_name; country; latitude; longitude;
       weather_main; weather_description; temperature; feels_like;
       temp_min; temp_max; pressure; humidity; wind_speed;
       wind_direction; cloudiness; rain_1h; snow_1h;
       timestamp; sunrise; sunset; retrieved_at])%py.

Definition load_current_weather (file_path : value) : M unit :=
  data <- open_json_load file_path ;;
  conn <- sqlite3_connect ;;
  St.try_except
    (vals <- St.lift (current_weather_values data) ;;
     conn <- St.lift (insert_into "current_weather" current_weather_columns
                                  vals conn) ;;
     let city_name := nth 1 vals VNone in
     now <- datetime_now ;;
     conn <- St.lift (insert_into "raw_data_files" raw_data_files_columns
                        [file_path; VStr "current"; city_name; now] conn) ;;
     commit conn ;;;
     St.logger (Info "Loaded current weather data for {city_name} into database" city_name))
    (fun e =>
       St.logger (Error "Error loading data from {file_path}: {e}" file_path e) ;;;
       rollback) ;;;
  close.

(** The values of one entry of the forecast list. *)
Definition forecast_values (retrieved_at city_id city_name country : value)
  (forecast : value) : result (list value) :=
  (dt <- Py.get forecast "dt" (VInt 0) ;;
   forecast_time <- fromtimestamp dt ;;
   weather_main <- weather0 forecast "main" ;;
   weather_description <- weather0 forecast "description" ;;
   temperature <- get_in forecast "main" "temp" VNone ;;
   feels_like <- get_in forecast "main" "feels_like" VNone ;;
   temp_min <- get_in forecast "main" "temp_min" VNone ;;
   temp_max <- get_in forecast "main" "temp_max" VNone ;;
   pressure <- get_in forecast "main" "pressure" VNone ;;
   humidity <- get_in forecast "main" "humidity" VNone ;;
   wind_speed <- get_in forecast "wind" "speed" VNone ;;
   wind_direction <- get_in forecast "wind" "deg" VNone ;;
   cloudiness <- get_in forecast "clouds" "all" VNone ;;
   rain_3h <- get_in forecast "rain" "3h" (VInt 0) ;;
   snow_3h <- get_in forecast "snow" "3h" (VInt 0) ;;
   Ok [city_id; city_name; country; forecast_time;
       weather_main; weather_description; temperature; feels_like;
       temp_min; temp_max; pressure; humidity; wind_speed;
       wind_direction; cloudiness; rain_3h; snow_3h; retrieved_at])%py.

(** The loop over the forecast list: one INSERT per entry. *)
Fixpoint insert_forecasts (retrieved_at city_id city_name country : value)
  (entries : list value) (conn : database) : result database :=
  match entries with
  | [] => Ok conn
  | forecast :: rest =>
      (vals <- forecast_values retrieved_at city_id city_name country forecast ;;
       conn <- insert_into "forecast" forecast_columns vals conn ;;
       insert_forecasts retrieved_at city_id city_name country rest conn)%py
  end.

Definition load_forecast_data (file_path : value) : M unit :=
  data <- open_json_load file_path ;;
  conn <- sqlite3_connect ;;
  St.try_except
    (retrieved_at <- St.lift (Py.get data "retrieved_at" VNone) ;;
     city_data <- St.lift (Py.get data "city" (VDict [])) ;;
     city_id <- St.lift (Py.get city_data "id" VNone) ;;
     city_name <- St.lift (Py.get city_data "name" VNone) ;;
     country <- St.lift (Py.get city_data "country" VNone) ;;
     entries <- St.lift (l <- Py.get data "list" (VList []) ;; Py.iter l)%py ;;
     conn <- St.lift (insert_forecasts retrieved_at city_id city_name country
                                       entries conn) ;;
     now <- datetime_now ;;
     conn <- St.lift (insert_into "raw_data_files" raw_data_files_columns
                        [file_path; VStr "forecast"; city_name; now] conn) ;;
     commit conn ;;;
     St.logger (Info "Loaded forecast data for {city_name} into database" city_name))
    (fun e =>
       St.logger (Error "Error loading forecast data from {file_path}: {e}" file_path e) ;;;
       rollback) ;;;
  close.

(** [os.path.exists(db_path)]. *)
Definition os_path_exists_db : M bool :=
  fun w => (Ok (match db w with Some _ => true | None => false end), w).

Definition load_data_files (results : value) : M unit :=
  present <- os_path_exists_db ;;
  (if present then St.ret tt else init_database) ;;;
  current <- St.lift (c <- Py.get results "current" (VDict []) ;; Py.items c)%py ;;
  St.for_each current (fun city_file => load_current_weather (snd city_file)) ;;;
  forecast <- St.lift (f <- Py.get results "forecast" (VDict []) ;; Py.items f)%py ;;
  St.for_each forecast (fun city_file => load_forecast_data (snd city_file)).

End WithHost.
End Load.

(* ================================================================= *)
(** ** Columns as pandas and SQL read them *)

(** The number in a numeric cell.  NULL reads as NaN ([None]); text in a
    numeric column is outside the provider's schema and reads as missing
    here, where pandas refuses to compare it: the statements about the
    comparisons of a row take the cells to be numbers or NULL
    ([numeric_cells], [numeric_column]). *)
Definition num (v : sqlval) : option Q :=
  match v with
  | SNum q => Some q
  | _ => None
  end.

(** [column < q] and [column > q], cell by cell, as the comparison of a
    whole column with a number computes them: a missing cell, NaN or
    [None], compares false. *)
Definition lt_num (v : sqlval) (q : Q) : bool :=
  match num v with
  | Some x => negb (Qle_bool q x)
  | None => false
  end.

Definition gt_num (v : sqlval) (q : Q) : bool :=
  match num v with
  | Some x => negb (Qle_bool x q)
  | None => false
  end.

(** Equal SQL values have equal normal forms. *)
Definition norm (v : sqlval) : sqlval :=
  match v with
  | SNum q => SNum (Qred q)
  | _ => v
  end.

Definition Q_eq_dec (a b : Q) : {a = b} + {a <> b}.
Proof. decide equality; [apply Pos.eq_dec | apply Z.eq_dec]. Defined.

Definition sqlval_eq_dec (a b : sqlval) : {a = b} + {a <> b}.
Proof.
  decide equality;
    [apply Q_eq_dec | apply string_dec | apply Z.eq_dec].
Defined.

Definition key_eq_dec (a b : list sqlval) : {a = b} + {a <> b} :=
  list_eq_dec sqlval_eq_dec a b.

Definition same (a b : sqlval) : bool :=
  if sqlval_eq_dec (norm a) (norm b) then true else false.

(** The order of [ORDER BY]: NULL first, then numbers, then text. *)
Definition rank (v : sqlval) : Z :=
  match v with
  | SNull => 0
  | SNum _ => 1
  | STime _ => 2
  | SText _ => 3
  end.

Definition sql_compare (a b : sqlval) : comparison :=
  match a, b with
  | SNum x, SNum y => Qcompare x y
  | STime x, STime y => Z.compare x y
  | SText x, SText y => String.compare x y
  | _, _ => Z.compare (rank a) (rank b)
  end.

(** Compare two rows on a list of columns, the first column first. *)
Fixpoint row_compare (by_cols : list string) (a b : row) : comparison :=
  match by_cols with
  | [] => Eq
  | c :: rest =>
      match sql_compare (col a c) (col b c) with
      | Eq => row_compare rest a b
      | o => o
      end
  end.

Fixpoint insert_sorted (by_cols : list string) (r : row) (rows : list row)
  : list row :=
  match rows with
  | [] => [r]
  | x :: rest =>
      match row_compare by_cols r x with
      | Lt => r :: x :: rest
      | _ => x :: insert_sorted by_cols r rest
      end
  end.

(** [ORDER BY by_cols]. *)
Definition order_by (by_cols : list string) (rows : list row) : list row :=
  fold_left (fun acc r => insert_sorted by_cols r acc) rows [].

Definition micros_per_day : Z := 86400000000.

(** SQL [date(t)]: the day of a timestamp, kept as its midnight. *)
Definition sql_date (v : sqlval) : sqlval :=
  match v with
  | STime t => STime (t - t mod micros_per_day)
  | _ => SNull
  end.

Definition numbers (cells : list sqlval) : list Q :=
  flat_map (fun v => match num v with Some q => [q] | None => [] end) cells.

Definition Qsum (xs : list Q) : Q := fold_right Qplus 0%Q xs.

(** Mean of the numbers of a column; NaN/NULL cells are skipped, and the
    mean of none is NULL. *)
Definition mean (cells : list sqlval) : sqlval :=
  match numbers cells with
  | [] => SNull
  | xs => SNum (Qred (Qsum xs / inject_Z (Z.of_nat (List.length xs))))
  end.

Definition Qmin (a b : Q) : Q := if Qle_bool a b then a else b.
Definition Qmax (a b : Q) : Q := if Qle_bool a b then b else a.

Definition minimum (cells : list sqlval) : sqlval :=
  match numbers cells with
  | [] => SNull
  | x :: xs => SNum (Qred (fold_left Qmin xs x))
  end.

Definition maximum (cells : list sqlval) : sqlval :=
  match numbers cells with
  | [] => SNull
  | x :: xs => SNum (Qred (fold_left Qmax xs x))
  end.

(** [a - b] on two cells; NaN when either is. *)
Definition minus (a b : sqlval) : sqlval :=
  match num a, num b with
  | Some x, Some y => SNum (Qred (x - y))
  | _, _ => SNull
  end.

Definition column (c : string) (rows : list row) : list sqlval :=
  map (fun r => col r c) rows.

(** [df[[c1; c2; ...]]]. *)
Definition project (cols : list string) (r : row) : row :=
  map (fun c => (c, col r c)) cols.

(** The [:.1f] format of a number: rounded half-even to one decimal. *)
Definition string_of_nonneg (z : Z) : string :=
  NilZero.string_of_uint (N.to_uint (Z.to_N z)).

Definition format_1f (q : Q) : string :=
  let tenths := round_half_even (Qabs q * inject_Z 10)%Q in
  ((if Qle_bool 0 q then "" else "-")
   ++ string_of_nonneg (tenths / 10) ++ "." ++ string_of_nonneg (tenths mod 10))%string.

Definition format_cell_1f (v : sqlval) : string :=
  match num v with
  | Some q => format_1f q
  | None => "nan"
  end.

(** What [row[c]] is in a loop over the rows of a frame.  A column of the
    query result that holds no number at all is a column of objects, whose
    missing cells are [None]; in a column that holds a number they are NaN. *)
Inductive cell : Type :=
| CNone
| CNaN
| CNum (q : Q).

Definition holds_number (c : string) (df : list row) : bool :=
  existsb (fun r => match num (col r c) with Some _ => true | None => false end) df.

Definition item (df : list row) (r : row) (c : string) : cell :=
  match num (col r c) with
  | Some q => CNum q
  | None => if holds_number c df then CNaN else CNone
  end.

(** [x < q] and [x > q] on one cell: NaN compares false, [None] cannot be
    compared with a number. *)
Definition cell_lt (x : cell) (q : Q) : result bool :=
  match x with
  | CNum a => Ok (negb (Qle_bool q a))
  | CNaN => Ok false
  | CNone => Raise TypeError
  end.

Definition cell_gt (x : cell) (q : Q) : result bool :=
  match x with
  | CNum a => Ok (negb (Qle_bool a q))
  | CNaN => Ok false
  | CNone => Raise TypeError
  end.

(** [f"{x:.1f}"]. *)
Definition cell_format_1f (x : cell) : result string :=
  match x with
  | CNum a => Ok (format_1f a)
  | CNaN => Ok "nan"
  | CNone => Raise TypeError
  end.

(* ================================================================= *)
(** ** transform.py *)

Module Transform.

Local Open Scope st_scope.

(** [SELECT * FROM name] through [pd.read_sql_query]. *)
Definition select_all (name : string) (conn : database) : result (list row) :=
  match assoc name conn with
  | Some rows => Ok rows
  | None => Raise DatabaseError
  end.

Definition get_forecast_data : M (list row) :=
  conn <- sqlite3_connect ;;
  rows <- St.lift (select_all "forecast" conn) ;;
  close ;;;
  St.ret (order_by ["city_name"; "forecast_time"] rows).

(** [GROUP BY]: the distinct keys, each with the rows that have it. *)
Definition has_key (key : row -> list sqlval) (k : list sqlval) (r : row) : bool :=
  if key_eq_dec (key r) k then true else false.

Definition group_by (key : row -> list sqlval) (rows : list row)
  : list (list sqlval * list row) :=
  map (fun k => (k, filter (has_key key k) rows))
      (nodup key_eq_dec (map key rows)).

(** [GROUP BY city_name, country, date(forecast_time)]. *)
Definition daily_key (r : row) : list sqlval :=
  [norm (col r "city_name"); norm (col r "country");
   sql_date (col r "forecast_time")].

Definition daily_row (g : list sqlval * list row) : row :=
  [("city_name", nth 0 (fst g) SNull);
   ("country", nth 1 (fst g) SNull);
   ("date", nth 2 (fst g) SNull);
   ("avg_temp", mean (column "temperature" (snd g)));
   ("min_temp", minimum (column "temperature" (snd g)));
   ("max_temp", maximum (column "temperature" (snd g)));
   ("avg_humidity", mean (column "humidity" (snd g)));
   ("avg_wind_speed", mean (column "wind_speed" (snd g)))].

Definition calculate_daily_aggregates : M (list row) :=
  conn <- sqlite3_connect ;;
  rows <- St.lift (select_all "forecast" conn) ;;
  close ;;;
  St.ret (order_by ["city_name"; "date"]
                   (map daily_row (group_by daily_key rows))).

(** [groupby('city_name')['temperature'].mean().reset_index()], renamed:
    one row per city name; rows whose city name is NULL form no group. *)
Definition city_key (r : row) : list sqlval := [norm (col r "city_name")].

Definition is_null (v : sqlval) : bool :=
  match v with
  | SNull => true
  | _ => false
  end.

Definition city_avg_temp (forecast_df : list row) : list row :=
  map (fun g => [("city_name", nth 0 (fst g) SNull);
                 ("city_avg_temp", mean (column "temperature" (snd g)))])
      (filter (fun g => negb (is_null (nth 0 (fst g) SNull)))
              (group_by city_key forecast_df)).

(** [pd.merge(left, right, on='city_name')]: inner join in the order of
    the left rows; the right frame brings the column [city_avg_temp]. *)
Definition merge_on_city_name (left right : list row) : list row :=
  flat_map
    (fun l =>
       map (fun r => assoc_set "city_avg_temp" (col r "city_avg_temp") l)
           (filter (fun r => same (col l "city_name") (col r "city_name")) right))
    left.

Definition calculate_temperature_anomalies : M (list row) :=
  forecast_df <- get_forecast_data ;;
  let city_avg_temp := city_avg_temp forecast_df in
  let merged_df := merge_on_city_name forecast_df city_avg_temp in
  let merged_df :=
    map (fun r => assoc_set "temp_anomaly"
                    (minus (col r "temperature") (col r "city_avg_temp")) r)
        merged_df in
  St.ret (map (project ["city_name"; "country"; "forecast_time";
                        "temperature"; "city_avg_temp"; "temp_anomaly"])
              merged_df).

Definition extreme_conditions (r : row) : bool :=
  lt_num (col r "temperature") (-10 # 1)
  || gt_num (col r "temperature") (40 # 1)
  || gt_num (col r "wind_speed") (20 # 1)
  || gt_num (col r "rain_3h") (10 # 1)
  || gt_num (col r "snow_3h") (10 # 1).

(** [if test: event_descriptions.append(f"{label}: {x:.1f}{unit}")]. *)
Definition append_if (test : bool) (label : string) (x : cell) (unit : string)
  (event_descriptions : list string) : result (list string) :=
  if test then
    (s <- cell_format_1f x ;;
     Ok (event_descriptions ++ [(label ++ ": " ++ s ++ unit)%string]))%py
  else Ok event_descriptions.

(** The body of the loop over the extreme rows; [df] is the frame the rows
    are taken from. *)
Definition event_descriptions (df : list row) (r : row) : result (list string) :=
  (let ds := [] in
   cold <- cell_lt (item df r "temperature") (-10 # 1) ;;
   ds <- append_if cold "Extreme cold" (item df r "temperature") "°C" ds ;;
   heat <- cell_gt (item df r "temperature") (40 # 1) ;;
   ds <- append_if heat "Extreme heat" (item df r "temperature") "°C" ds ;;
   wind <- cell_gt (item df r "wind_speed") (20 # 1) ;;
   ds <- append_if wind "Strong winds" (item df r "wind_speed") " m/s" ds ;;
   rain <- cell_gt (item df r "rain_3h") (10 # 1) ;;
   ds <- append_if rain "Heavy rain" (item df r "rain_3h") " mm/3h" ds ;;
   snow <- cell_gt (item df r "snow_3h") (10 # 1) ;;
   ds <- append_if snow "Heavy snow" (item df r "snow_3h") " mm/3h" ds ;;
   Ok ds)%py.

(** The loop: one description per extreme row, in their order. *)
Fixpoint conditions (df : list row) (extreme_events : list row)
  : result (list string) :=
  match extreme_events with
  | [] => Ok []
  | r :: rest =>
      (ds <- event_descriptions df r ;;
       cs <- conditions df rest ;;
       Ok (String.concat "; " ds :: cs))%py
  end.

Definition find_extreme_weather_events : M (list row) :=
  forecast_df <- get_forecast_data ;;
  let extreme_events := filter extreme_conditions forecast_df in
  conditions <- St.lift (conditions forecast_df extreme_events) ;;
  St.ret (map (fun rc => assoc_set "event_description" (SText (snd rc)) (fst rc))
              (combine extreme_events conditions)).

(** [df.to_sql(table_name, conn, index=False)] and its [if_exists='append']
    form; pandas commits the statement. *)
Definition to_sql (df : list row) (table_name : string) (append : bool)
  (conn : database) : M unit :=
  match assoc table_name conn with
  | None =>
      St.record_op (CreateTable table_name) ;;;
      St.record_op (InsertRows table_name (List.length df)) ;;;
      commit (conn ++ [(table_name, df)])
  | Some rows =>
      if append then
        St.record_op (InsertRows table_name (List.length df)) ;;;
        commit (assoc_set table_name (rows ++ df) conn)
      else St.raise ValueError
  end.

Definition store_transformed_data (df : list row) (table_name : string) : M unit :=
  conn <- sqlite3_connect ;;
  match assoc table_name conn with
  | None =>
      St.logger (Info "Creating table {table_name}" (VStr table_name)) ;;;
      to_sql df table_name false conn
  | Some _ =>
      to_sql df table_name true conn
  end ;;;
  close ;;;
  St.logger (Info "Stored transformed data in table {table_name}" (VStr table_name)).

Definition run_transformations : M unit :=
  St.logger (Info "Starting data transformations" VNone) ;;;
  St.try_except
    (daily_agg <- calculate_daily_aggregates ;;
     store_transformed_data daily_agg "daily_aggregates" ;;;
     temp_anomalies <- calculate_temperature_anomalies ;;
     store_transformed_data temp_anomalies "temperature_anomalies" ;;;
     extreme_events <- find_extreme_weather_events ;;
     match extreme_events with
     | [] => St.ret tt
     | _ => store_transformed_data extreme_events "extreme_weather_events"
     end ;;;
     St.logger (Info "Data transformations completed successfully" VNone))
    (fun e =>
       St.logger (Error "Error during data transformations: {e}" VNone e) ;;;
       St.raise e).

End Transform.

(* ================================================================= *)
(** ** extract.py *)

Module Extract.
Section WithHost.

Variable h : host.

Local Open Scope st_scope.

(** [os.getenv('OPENWEATHERMAP_API_KEY')]: the variable of the environment,
    which [load_dotenv] has completed from the [.env] file when
    python-dotenv is installed. *)
Definition os_getenv_api_key : M (option string) :=
  fun w => (Ok (api_key_env w), w).

Definition load_api_key : M string :=
  (if dotenv_installed h then St.ret tt
   else St.logger (Warning "python-dotenv not installed. Assuming API key is set in environment variables.")) ;;;
  api_key <- os_getenv_api_key ;;
  match api_key with
  | Some k => if String.eqb k "" then St.raise ValueError else St.ret k
  | None => St.raise ValueError
  end.

(** The request both fetch functions make.  A connection error, an HTTP
    error status and a body that is not JSON are [RequestException]s: they
    are logged and the function returns [None]. *)
Definition fetch (base_url : string) (fetching failure : string)
  (city api_key : string) : M value :=
  St.logger (Info fetching (VStr city)) ;;;
  match http_get h base_url city api_key with
  | ConnectionFailed =>
      St.logger (Error failure (VStr city) RequestException) ;;;
      St.ret VNone
  | Response status body =>
      if (400 <=? status) && (status <? 600) then
        St.logger (Error failure (VStr city) RequestException) ;;;
        St.ret VNone
      else
        match body with
        | BodyNotJson =>
            St.logger (Error failure (VStr city) RequestException) ;;;
            St.ret VNone
        | BodyJson data =>
            now <- Load.datetime_now h ;;
            let stamp := match now with
                         | VDatetime t => VStr (isoformat h t)
                         | _ => VNone
                         end in
            St.lift (Py.setitem data "retrieved_at" stamp)
        end
  end.

Definition get_current_weather (city api_key : string) : M value :=
  fetch "https://api.openweathermap.org/data/2.5/weather"
        "Fetching current weather data for {city}"
        "Error fetching data for {city}: {e}" city api_key.

Definition get_forecast (city api_key : string) : M value :=
  fetch "https://api.openweathermap.org/data/2.5/forecast"
        "Fetching forecast data for {city}"
        "Error fetching forecast for {city}: {e}" city api_key.

(** [city.split(',')[0]]. *)
Fixpoint before_comma (s : string) : string :=
  match s with
  | EmptyString => EmptyString
  | String c rest =>
      if Ascii.eqb c "," then EmptyString else String c (before_comma rest)
  end.

(** [s.replace(' ', '_')]. *)
Fixpoint replace_spaces (s : string) : string :=
  match s with
  | EmptyString => EmptyString
  | String c rest =>
      String (if Ascii.eqb c " " then "_"%char else c) (replace_spaces rest)
  end.

(** [city.split(',')[0].lower().replace(' ', '_')]. *)
Definition clean (city : string) : string :=
  replace_spaces (lower h (before_comma city)).

(** [os.makedirs(path, exist_ok=True)]. *)
Definition os_makedirs (path : string) : M unit :=
  fun w =>
    match makedirs h path with
    | Some e => (Raise e, w)
    | None => (Ok tt, w)
    end.

(** [with open(filename, 'w') as f: json.dump(data, f, indent=2)]. *)
Definition open_json_dump (filename : string) (data : value) : M unit :=
  fun w =>
    match open_w h filename with
    | Some e => (Raise e, w)
    | None => St.set_files (assoc_set filename (Json data) (files w)) w
    end.

Definition save_raw_data (data : value) (data_type city : string) : M string :=
  os_makedirs "raw_data" ;;;
  let city_name := clean city in
  now <- Load.datetime_now h ;;
  let timestamp := match now with
                   | VDatetime t => strftime h t
                   | _ => ""
                   end in
  let filename := ("raw_data/" ++ data_type ++ "_" ++ city_name ++ "_"
                     ++ timestamp ++ ".json")%string in
  open_json_dump filename data ;;;
  St.logger (Info "Saved raw {data_type} data to {filename}" (VStr filename)) ;;;
  St.ret filename.

(** The loop of [extract_weather_data] over the cities; [current] and
    [forecast] are the two dicts of [results]. *)
Fixpoint extract_loop (cities : list string) (api_key : string)
  (current forecast : list (string * value)) : M value :=
  match cities with
  | [] => St.ret (VDict [("current", VDict current);
                         ("forecast", VDict forecast)])
  | city :: rest =>
      current_data <- get_current_weather city api_key ;;
      current <- (if Py.truthy current_data then
                    file_path <- save_raw_data current_data "current" city ;;
                    St.ret (assoc_set city (VStr file_path) current)
                  else St.ret current) ;;
      forecast_data <- get_forecast city api_key ;;
      forecast <- (if Py.truthy forecast_data then
                     file_path <- save_raw_data forecast_data "forecast" city ;;
                     St.ret (assoc_set city (VStr file_path) forecast)
                   else St.ret forecast) ;;
      extract_loop rest api_key current forecast
  end.

Definition extract_weather_data (cities : list string) : M value :=
  api_key <- load_api_key ;;
  extract_loop cities api_key [] [].

End WithHost.
End Extract.

(* ================================================================= *)
(** ** config.py and main.py *)

Module Config.

Definition CITIES : list string :=
  ["London,uk"; "New York,us"; "Tokyo,jp"; "Sydney,au"; "Paris,fr"].

End Config.

Module Main.
Section WithHost.

Variable h : host.

Local Open Scope st_scope.

(** [run_pipeline], for the cities of the configuration.  The charts of
    step 4 are drawn from the derived tables and write nothing back. *)
Definition run_pipeline (cities : list string) : M unit :=
  St.logger (Info "Starting weather data pipeline" VNone) ;;;
  St.try_except
    (Load.init_database ;;;
     St.logger (Info "Step 1: Extracting weather data" VNone) ;;;
     results <- Extract.extract_weather_data h cities ;;
     St.logger (Info "Step 2: Loading data into database" VNone) ;;;
     Load.load_data_files h results ;;;
     St.logger (Info "Step 3: Data transformation" VNone) ;;;
     Transform.run_transformations ;;;
     St.logger (Info "Pipeline completed successfully" VNone))
    (fun e =>
       St.logger (Error "Pipeline failed: {e}" VNone e) ;;;
       St.raise e).

End WithHost.
End Main.
(* ================================================================= *)
(** ** Vocabulary of the specification *)

(** A numeric cell strictly below, or strictly above, a threshold. *)
Definition below (v : sqlval) (q : Q) : Prop :=
  exists x, num v = Some x /\ (x < q)%Q.

Definition above (v : sqlval) (q : Q) : Prop :=
  exists x, num v = Some x /\ (q < x)%Q.


(** The five predicates of the specification, in its order. *)
Inductive predicate : Type := Cold | Heat | Wind | Rain | Snow.

Definition predicates : list predicate := [Cold; Heat; Wind; Rain; Snow].

Definition measured (p : predicate) : string :=
  match p with
  | Cold | Heat => "temperature"
  | Wind => "wind_speed"
  | Rain => "rain_3h"
  | Snow => "snow_3h"
  end.

Definition matches (r : row) (p : predicate) : bool :=
  match p with
  | Cold => lt_num (col r "temperature") (-10 # 1)
  | Heat => gt_num (col r "temperature") (40 # 1)
  | Wind => gt_num (col r "wind_speed") (20 # 1)
  | Rain => gt_num (col r "rain_3h") (10 # 1)
  | Snow => gt_num (col r "snow_3h") (10 # 1)
  end.

Definition label (p : predicate) : string :=
  match p with
  | Cold => "Extreme cold"
  | Heat => "Extreme heat"
  | Wind => "Strong winds"
  | Rain => "Heavy rain"
  | Snow => "Heavy snow"
  end.

Definition unit_of (p : predicate) : string :=
  match p with
  | Cold | Heat => "°C"
  | Wind => " m/s"
  | Rain | Snow => " mm/3h"
  end.

(** ["<label>: <value><unit>"]. *)
Definition clause (r : row) (p : predicate) : string :=
  (label p ++ ": " ++ format_cell_1f (col r (measured p)) ++ unit_of p)%string.

(** The description of a record: its clauses, joined by "; ". *)
Definition description (r : row) : string :=
  String.concat "; " (map (clause r) (filter (matches r) predicates)).

(** The columns the five predicates read. *)
Definition measured_columns : list string :=
  ["temperature"; "wind_speed"; "rain_3h"; "snow_3h"].

(** A cell the loop over a frame can compare with a number: not [None]. *)
Definition readable (df : list row) (r : row) (c : string) : bool :=
  match item df r c with
  | CNone => false
  | _ => true
  end.

(** Every measured column holds a number; some record passes a threshold. *)
Definition complete_columns (rows : list row) : bool :=
  forallb (fun c => holds_number c rows) measured_columns.

Definition any_extreme (rows : list row) : bool :=
  existsb Transform.extreme_conditions rows.

(** The cells of the measured columns are numbers or NULL, as the loader
    stores the numbers of the provider. *)
Definition numeric_cells (rows : list row) : Prop :=
  forall r c, In r rows -> In c measured_columns ->
              col r c = SNull \/ exists q, col r c = SNum q.



(** The world after [sqlite3.connect]: the database file exists. *)
Definition opened (w : world) : world :=
  mkWorld (api_key_env w) (files w) (Some (tables w)) (clock w) (log w) (trace w).

(** What [store_transformed_data] leaves in the database. *)
Definition store (name : string) (df : list row) (d : database) : database :=
  match assoc name d with
  | None => d ++ [(name, df)]
  | Some rows => assoc_set name (rows ++ df) d
  end.

Definition existing (name : string) (d : database) : table :=
  match assoc name d with
  | Some rows => rows
  | None => []
  end.

Definition op_table (o : sql_op) : string :=
  match o with
  | CreateTable name => name
  | InsertRows name _ => name
  end.

(** The frame [calculate_temperature_anomalies] returns for a forecast table. *)
Definition anomaly_frame (rows : list row) : list row :=
  let forecast_df := order_by ["city_name"; "forecast_time"] rows in
  map (project ["city_name"; "country"; "forecast_time";
                "temperature"; "city_avg_temp"; "temp_anomaly"])
      (map (fun r => assoc_set "temp_anomaly"
                       (minus (col r "temperature") (col r "city_avg_temp")) r)
           (Transform.merge_on_city_name forecast_df
              (Transform.city_avg_temp forecast_df))).

Definition daily_frame (rows : list row) : list row :=
  order_by ["city_name"; "date"]
           (map Transform.daily_row (Transform.group_by Transform.daily_key rows)).














Definition group_on (city date : sqlval) (g : list sqlval * list row) : bool :=
  same (nth 0 (fst g) SNull) city && same (nth 2 (fst g) SNull) date.

(** The row an INSERT adds to a table that holds [n] rows. *)
Definition inserted (n : nat) (columns : list string) (cells : list sqlval) : row :=
  ("id", SNum (inject_Z (Z.of_nat (S n)))) :: combine columns cells.

(** A payload in which the optional block is absent, or present without
    the sub-field. *)
Definition lacks (data : list (string * value)) (block key : string) : Prop :=
  assoc block data = None
  \/ exists b, assoc block data = Some (VDict b) /\ assoc key b = None.

Definition lacksb (data : list (string * value)) (block key : string) : bool :=
  match assoc block data with
  | None => true
  | Some (VDict b) => match assoc key b with None => true | Some _ => false end
  | Some _ => false
  end.

(** The two precipitation blocks, and the column a block fills: [rain_1h]
    and [snow_1h] of an observation, [rain_3h] and [snow_3h] of a forecast. *)
Definition precipitation (block : string) : Prop :=
  block = "rain" \/ block = "snow".

Definition precipitation_column (block period : string) : string :=
  (block ++ "_" ++ period)%string.

(** The same payload with an explicit zero in the block. *)
Definition zero_block (key : string) : value := VDict [(key, VInt 0)].

Definition with_zero (block key : string) (data : list (string * value))
  : list (string * value) :=
  assoc_set block (zero_block key) data.

(** The same forecast entry, with an explicit zero if it lacks the block. *)
Definition fill_zero (block key : string) (e : value) : value :=
  match e with
  | VDict d => if lacksb d block key then VDict (with_zero block key d) else e
  | _ => e
  end.

(** The two endpoints of the provider. *)
Definition weather_url : string := "https://api.openweathermap.org/data/2.5/weather".
Definition forecast_url : string := "https://api.openweathermap.org/data/2.5/forecast".

(** A fetch fails at the transport level: no connection, an HTTP error
    status, or a body that is not JSON. *)
Definition fails (h : host) (url city key : string) : bool :=
  match http_get h url city key with
  | ConnectionFailed => true
  | Response status body =>
      ((400 <=? status) && (status <? 600))
      || match body with BodyNotJson => true | BodyJson _ => false end
  end.

(** A fetch succeeds with a JSON object, as the provider documents. *)
Definition delivers (h : host) (url city key : string) : Prop :=
  exists status payload,
    http_get h url city key = Response status (BodyJson (VDict payload))
    /\ (400 <=? status) && (status <? 600) = false.

Definition file_exists (p : string) (w : world) : Prop :=
  assoc p (files w) <> None.

(** Every recorded artifact path is a string naming a persisted file. *)
Definition recorded (paths : list (string * value)) (w : world) : Prop :=
  forall city v, assoc city paths = Some v ->
                 exists p, v = VStr p /\ file_exists p w.


(* ================================================================= *)
(** ** Sample runs *)

(** [str.lower] on ASCII text. *)
Definition ascii_lower_char (c : ascii) : ascii :=
  let n := nat_of_ascii c in
  if (Nat.leb 65 n && Nat.leb n 90)%bool then ascii_of_nat (n + 32) else c.

Fixpoint ascii_lower (s : string) : string :=
  match s with
  | EmptyString => EmptyString
  | String c rest => String (ascii_lower_char c) (ascii_lower rest)
  end.

(** A file system in which [raw_data/] has no sub-directory: a name with a
    further "/" lies in a directory that does not exist. *)
Definition has_slash (s : string) : bool :=
  existsb (fun c => Ascii.eqb c "/") (list_ascii_of_string s).

Definition flat_open_w (path : string) : option exn :=
  if has_slash (substring 9 (String.length path - 9) path)
  then Some FileNotFoundError else None.

(** A host in UTC whose provider cannot be reached for "Atlantis" and
    answers every other city with a small JSON object. *)
Definition utc_host : host :=
  mkHost (fun _ => 0)
         (fun n => 1700000000000000 + Z.of_nat n * 1000000)
         (fun _ => "2023-11-14T22:13:20")
         (fun _ => "20231114_221320")
         (fun _ city _ =>
            if String.eqb city "Atlantis" then ConnectionFailed
            else Response 200 (BodyJson (VDict [("name", VStr city)])))
         true ascii_lower (fun _ => None) flat_open_w.

Definition empty_database : database :=
  [("current_weather", []); ("forecast", []); ("raw_data_files", [])].

Definition forecast_row (id : Z) (city country : string) (time : Z)
  (temperature wind_speed : Q) : row :=
  [("id", SNum (inject_Z id)); ("city_name", SText city); ("country", SText country);
   ("forecast_time", STime time); ("temperature", SNum temperature);
   ("humidity", SNum 50); ("wind_speed", SNum wind_speed);
   ("rain_3h", SNum 0); ("snow_3h", SNum 0)].

Definition cold_row : row := forecast_row 1 "Testville" "TV" 0 (-101 # 10) 5.
Definition edge_row : row := forecast_row 2 "Testville" "TV" 10800000000 (-10 # 1) 5.
Definition hot_row : row := forecast_row 3 "Testville" "XX" 21600000000 (45 # 1) 25.

Definition sample_forecast : table := [cold_row; edge_row; hot_row].

Definition sample_world : world :=
  mkWorld (Some "key") [] (Some [("forecast", sample_forecast)]) 0 [] [].




(** An observation without rain and snow blocks, and a forecast with one
    entry of the same kind. *)
Definition dry_observation : list (string * value) :=
  [("name", VStr "Testville"); ("dt", VInt 1700000000);
   ("main", VDict [("temp", VFloat (41 # 2))])].

Definition dry_forecast : value :=
  VDict [("city", VDict [("name", VStr "Testville")]);
         ("list", VList [VDict [("dt", VInt 1700000000);
                                ("main", VDict [("temp", VFloat (41 # 2))])]])].

Definition dry_world : world :=
  mkWorld (Some "key")
          [("raw_data/current_testville.json", Json (VDict dry_observation));
           ("raw_data/forecast_testville.json", Json dry_forecast)]
          (Some empty_database) 0 [] [].

Definition dry_vals : list value :=
  match Load.current_weather_values utc_host (VDict dry_observation) with
  | Ok vals => vals
  | Raise _ => []
  end.

Definition dry_cells : list sqlval :=
  match (vals <- Load.current_weather_values utc_host (VDict dry_observation) ;;
         adapt_all vals)%py with
  | Ok cells => cells
  | Raise _ => []
  end.




(** A forecast artifact whose only entry lies above 40 degrees and has no
    wind block, loaded into an empty store. *)
Definition windless_forecast : value :=
  VDict [("city", VDict [("name", VStr "Testville"); ("country", VStr "TV")]);
         ("list", VList [VDict [("dt", VInt 1700000000);
                                ("main", VDict [("temp", VFloat (45 # 1))])]])].

Definition windless_world : world :=
  snd (Load.load_forecast_data utc_host (VStr "raw_data/forecast_w.json")
         (mkWorld (Some "key")
                  [("raw_data/forecast_w.json", Json windless_forecast)]
                  (Some empty_database) 0 [] [])).

Definition windless_rows : table := existing "forecast" (tables windless_world).




(** An observation with a rain block and no snow block, and a forecast
    whose first entry has rain and no snow. *)
Definition rainy_observation : list (string * value) :=
  [("name", VStr "Testville"); ("dt", VInt 1700000000);
   ("main", VDict [("temp", VFloat (41 # 2))]);
   ("rain", VDict [("1h", VFloat (5 # 2))])].

Definition rainy_entry : value :=
  VDict [("dt", VInt 1700000000); ("main", VDict [("temp", VFloat (41 # 2))]);
         ("rain", VDict [("3h", VFloat (6 # 5))])].

Definition dry_entry : value :=
  VDict [("dt", VInt 1700010800); ("main", VDict [("temp", VFloat (41 # 2))])].

Definition rainy_forecast : value :=
  VDict [("city", VDict [("name", VStr "Testville")]);
         ("list", VList [rainy_entry; dry_entry])].

Definition rainy_world : world :=
  mkWorld (Some "key")
          [("raw_data/current_testville.json", Json (VDict rainy_observation));
           ("raw_data/forecast_testville.json", Json rainy_forecast)]
          (Some empty_database) 0 [] [].

Definition rainy_loaded : world :=
  snd (Load.load_current_weather utc_host (VStr "raw_data/current_testville.json")
         rainy_world).

Definition rainy_forecast_loaded : world :=
  snd (Load.load_forecast_data utc_host (VStr "raw_data/forecast_testville.json")
         rainy_world).

(** A provider that cannot be reached for "Atlantis", answers "Listville"
    with a JSON list and every other city with a small JSON object. *)
Definition mixed_host : host :=
  mkHost (fun _ => 0)
         (fun n => 1700000000000000 + Z.of_nat n * 1000000)
         (fun _ => "2023-11-14T22:13:20")
         (fun _ => "20231114_221320")
         (fun _ city _ =>
            if String.eqb city "Atlantis" then ConnectionFailed
            else if String.eqb city "Listville"
                 then Response 200 (BodyJson (VList []))
                 else Response 200 (BodyJson (VDict [("name", VStr city)])))
         true ascii_lower (fun _ => None) flat_open_w.

(** A batch whose first artifact was cut short before it was complete. *)
Definition truncated_world : world :=
  mkWorld (Some "key")
          [("raw_data/current_a.json", NotJson);
           ("raw_data/current_b.json", Json (VDict dry_observation));
           ("raw_data/forecast_a.json", NotJson)]
          (Some empty_database) 0 [] [].

Definition truncated_batch : value :=
  VDict [("current", VDict [("A", VStr "raw_data/current_a.json");
                            ("B", VStr "raw_data/current_b.json")]);
         ("forecast", VDict [])].

Definition sound_batch : value :=
  VDict [("current", VDict [("B", VStr "raw_data/current_b.json")]);
         ("forecast", VDict [])].

(** The provider of the end-to-end scenario: one forecast slot for
    "Testville,tv" at 45 degrees and wind 5, and no current observation. *)
Definition testville_host : host :=
  mkHost (fun _ => 0)
         (fun n => 1700000000000000 + Z.of_nat n * 1000000)
         (fun _ => "2023-11-14T22:13:20")
         (fun _ => "20231114_221320")
         (fun url city _ =>
            if String.eqb url forecast_url && String.eqb city "Testville,tv"
            then Response 200
                   (BodyJson
                      (VDict [("city", VDict [("name", VStr "Testville");
                                              ("country", VStr "TV")]);
                              ("list",
                               VList [VDict [("dt", VInt 1700000000);
                                             ("main", VDict [("temp", VFloat (45 # 1))]);
                                             ("wind", VDict [("speed", VInt 5)]);
                                             ("rain", VDict [("3h", VInt 0)]);
                                             ("snow", VDict [("3h", VInt 0)])]])]))
            else Response 404 BodyNotJson)
         true ascii_lower (fun _ => None) flat_open_w.

Definition blank_world : world := mkWorld (Some "key") [] None 0 [] [].

Definition testville_world : world :=
  snd (Main.run_pipeline testville_host ["Testville,tv"] blank_world).





From Stdlib Require Import Sorted.

(* ================================================================= *)
(** ** Further vocabulary *)

Definition base_tables : list string :=
  ["current_weather"; "forecast"; "raw_data_files"].

(** The artifact cannot be read as JSON: it is missing, or its text is not
    a JSON document. *)
Definition unreadable (p : string) (w : world) : Prop :=
  assoc p (files w) = None \/ assoc p (files w) = Some NotJson.

Definition read_error (p : string) (w : world) : exn :=
  match assoc p (files w) with
  | None => FileNotFoundError
  | Some _ => JSONDecodeError
  end.

Definition is_dict (v : value) : bool :=
  match v with
  | VDict _ => true
  | _ => false
  end.

(** The blocks [load_current_weather] reads a sub-field of. *)
Definition observation_blocks : list string :=
  ["sys"; "coord"; "main"; "wind"; "clouds"; "rain"; "snow"].

Definition is_error (e : log_entry) : bool :=
  match e with
  | Error _ _ _ => true
  | _ => false
  end.

(** Every artifact of a dict of paths is a file that holds a JSON document. *)
Definition all_parse (items : list (string * value)) (w : world) : Prop :=
  forall city v, In (city, v) items ->
                 exists p doc, v = VStr p /\ assoc p (files w) = Some (Json doc).

(** [get_current_weather_data] of transform.py: the observations, ordered
    by city name and timestamp. *)
Definition get_current_weather_data : M (list row) :=
  (conn <- sqlite3_connect ;;
   rows <- St.lift (Transform.select_all "current_weather" conn) ;;
   close ;;;
   St.ret (order_by ["city_name"; "timestamp"] rows))%st.

(** [a] does not come after [b] in the order of [ORDER BY by_cols]. *)
Definition row_le (by_cols : list string) (a b : row) : Prop :=
  row_compare by_cols a b <> Gt.

(** The frame [find_extreme_weather_events] returns for a forecast table. *)
Definition event_frame (rows : list row) : list row :=
  map (fun r => assoc_set "event_description" (SText (description r)) r)
      (filter Transform.extreme_conditions
              (order_by ["city_name"; "forecast_time"] rows)).

(** What one pass of [run_transformations] makes of the database. *)
Definition store_events (events : list row) (d : database) : database :=
  match events with
  | [] => d
  | _ => store "extreme_weather_events" events d
  end.

Definition transformed (rows : list row) (d : database) : database :=
  store_events (event_frame rows)
    (store "temperature_anomalies" (anomaly_frame rows)
       (store "daily_aggregates" (daily_frame rows) d)).

Definition derived_tables : list string :=
  ["daily_aggregates"; "temperature_anomalies"; "extreme_weather_events"].

Definition derived_frame (rows : list row) (name : string) : list row :=
  if String.eqb name "daily_aggregates" then daily_frame rows
  else if String.eqb name "temperature_anomalies" then anomaly_frame rows
  else if String.eqb name "extreme_weather_events" then event_frame rows
  else [].

(** The measurements the transformations compare and average are numbers. *)
Definition measured_numbers (rows : list row) : Prop :=
  forall r c, In r rows ->
              In c ["temperature"; "wind_speed"; "rain_3h"; "snow_3h"] ->
              exists q, col r c = SNum q.

(** The name [save_raw_data] gives the artifact of a city at a clock reading. *)
Definition artifact_path (h : host) (data_type city : string) (t : Z) : string :=
  ("raw_data/" ++ data_type ++ "_" ++ Extract.clean h city
     ++ "_" ++ strftime h t ++ ".json")%string.

(** The world after the import of python-dotenv in [load_api_key]: the
    warning is logged when the package is missing. *)
Definition after_dotenv (h : host) (w : world) : world :=
  if dotenv_installed h then w
  else mkWorld (api_key_env w) (files w) (db w) (clock w)
         (log w ++ [Warning "python-dotenv not installed. Assuming API key is set in environment variables."])
         (trace w).

(** The file system lets the artifacts of a city be created, whenever the
    clock is read. *)
Definition writable (h : host) (city : string) : Prop :=
  makedirs h "raw_data" = None
  /\ forall data_type t,
       In data_type ["current"; "forecast"] ->
       open_w h (artifact_path h data_type city t) = None.

Definition has_space (s : string) : bool :=
  existsb (fun c => Ascii.eqb c " ") (list_ascii_of_string s).

(** The world after the clock was read, and after an artifact was saved. *)
Definition ticked (w : world) : world :=
  mkWorld (api_key_env w) (files w) (db w) (S (clock w)) (log w) (trace w).

Definition saved (path : string) (data : value) (w : world) : world :=
  mkWorld (api_key_env w) (assoc_set path (Json data) (files w)) (db w)
          (S (clock w))
          (log w ++ [Info "Saved raw {data_type} data to {filename}" (VStr path)])
          (trace w).

(** Files that hold JSON keep holding JSON. *)
Definition json_kept (w w1 : world) : Prop :=
  forall p doc, assoc p (files w) = Some (Json doc) ->
                exists doc', assoc p (files w1) = Some (Json doc').

(* ================================================================= *)
(** ** Further sample runs *)

Definition observation_path : string := "raw_data/current_testville.json".
Definition forecast_path : string := "raw_data/forecast_testville.json".

(** The database file exists but holds no table. *)
Definition bare_world : world :=
  mkWorld (Some "key")
          [(observation_path, Json (VDict dry_observation));
           (forecast_path, Json dry_forecast)]
          (Some []) 0 [] [].

Definition full_batch : value :=
  VDict [("current", VDict [("Testville", VStr observation_path)]);
         ("forecast", VDict [("Testville", VStr forecast_path)])].

(** An observation whose rain block is an explicit null. *)
Definition null_rain_observation : list (string * value) :=
  ("rain", VNone) :: dry_observation.

Definition null_rain_world : world :=
  mkWorld (Some "key") [(observation_path, Json (VDict null_rain_observation))]
          (Some empty_database) 0 [] [].

(** An observation without a [dt] field. *)
Definition undated_observation : list (string * value) :=
  [("name", VStr "Testville"); ("main", VDict [("temp", VFloat (41 # 2))])].

Definition undated_world : world :=
  mkWorld (Some "key") [(observation_path, Json (VDict undated_observation))]
          (Some empty_database) 0 [] [].

Definition undated_loaded : world :=
  snd (Load.load_current_weather utc_host (VStr observation_path) undated_world).

Definition keyless_world : world := mkWorld None [] None 0 [] [].

(** A provider that answers every request with a JSON list. *)
Definition list_host : host :=
  mkHost (fun _ => 0)
         (fun n => 1700000000000000 + Z.of_nat n * 1000000)
         (fun _ => "2023-11-14T22:13:20")
         (fun _ => "20231114_221320")
         (fun _ _ _ => Response 200 (BodyJson (VList [])))
         true ascii_lower (fun _ => None) flat_open_w.

(** The same host as [utc_host], without python-dotenv. *)
Definition plain_host : host :=
  mkHost (utcoffset utc_host) (wall utc_host) (isoformat utc_host) (strftime utc_host)
         (http_get utc_host) false ascii_lower (fun _ => None) flat_open_w.

Definition sample_cities : list string := ["London,uk"; "Atlantis"; "Tokyo,jp"].

Definition sample_results : value :=
  match fst (Extract.extract_weather_data utc_host sample_cities sample_world) with
  | Ok results => results
  | Raise _ => VNone
  end.

Definition sample_extracted : world :=
  snd (Extract.extract_weather_data utc_host sample_cities sample_world).

(* ================================================================= *)
(** ** Generic facts *)

Lemma tables_opened w : tables (opened w) = tables w.
Proof. reflexivity. Qed.

Lemma sqlite3_connect_run w : sqlite3_connect w = (Ok (tables w), opened w).
Proof. reflexivity. Qed.



Lemma insert_sorted_perm by_cols r rows :
  Permutation (insert_sorted by_cols r rows) (r :: rows).
Proof.
  induction rows as [|x rest IH]; simpl; [reflexivity|].
  destruct (row_compare by_cols r x); try reflexivity;
    (etransitivity; [apply perm_skip, IH | apply perm_swap]).
Qed.

Lemma order_by_perm by_cols rows : Permutation (order_by by_cols rows) rows.
Proof.
  unfold order_by.
  assert (G : forall acc, Permutation
            (fold_left (fun acc r => insert_sorted by_cols r acc) rows acc)
            (acc ++ rows)).
  { induction rows as [|r rest IH]; intros acc; simpl.
    - now rewrite app_nil_r.
    - rewrite IH, insert_sorted_perm. simpl. apply Permutation_middle. }
  apply (G []).
Qed.


Lemma lt_num_spec v q : lt_num v q = true <-> below v q.
Proof.
  unfold lt_num, below. destruct (num v) as [x|].
  - rewrite negb_true_iff, <- not_true_iff_false, Qle_bool_iff. split.
    + intros H. exists x. split; [reflexivity | now apply Qnot_le_lt].
    + intros (y & Hy & Hlt). injection Hy as <-. now apply Qlt_not_le.
  - split; [discriminate | intros (y & Hy & _); discriminate].
Qed.

Lemma gt_num_spec v q : gt_num v q = true <-> above v q.
Proof.
  unfold gt_num, above. destruct (num v) as [x|].
  - rewrite negb_true_iff, <- not_true_iff_false, Qle_bool_iff. split.
    + intros H. exists x. split; [reflexivity | now apply Qnot_le_lt].
    + intros (y & Hy & Hlt). injection Hy as <-. now apply Qlt_not_le.
  - split; [discriminate | intros (y & Hy & _); discriminate].
Qed.

Lemma get_forecast_data_run w rows :
  assoc "forecast" (tables w) = Some rows ->
  Transform.get_forecast_data w
  = (Ok (order_by ["city_name"; "forecast_time"] rows), opened w).
Proof.
  intros H. unfold Transform.get_forecast_data, St.bind.
  rewrite sqlite3_connect_run. unfold St.lift, Transform.select_all.
  now rewrite H.
Qed.

Lemma extreme_conditions_spec r :
  Transform.extreme_conditions r = true <->
  below (col r "temperature") (-10 # 1) \/ above (col r "temperature") (40 # 1)
  \/ above (col r "wind_speed") (20 # 1) \/ above (col r "rain_3h") (10 # 1)
  \/ above (col r "snow_3h") (10 # 1).
Proof.
  unfold Transform.extreme_conditions.
  rewrite !orb_true_iff, lt_num_spec, !gt_num_spec. tauto.
Qed.





(** The rounded value is within one half of the number. *)
Lemma round_half_even_near q :
  (Qabs (q - inject_Z (round_half_even q)) <= 1 # 2)%Q.
Proof.
  unfold round_half_even.
  pose proof (Qfloor_le q) as Hlo. pose proof (Qlt_floor q) as Hhi.
  rewrite inject_Z_plus in Hhi. change (inject_Z 1) with 1%Q in Hhi.
  destruct (Qcompare (q - inject_Z (Qfloor q)) (1 # 2)) eqn:C.
  - apply Qeq_alt in C.
    assert (E : (q - inject_Z (if Z.even (Qfloor q) then Qfloor q else Qfloor q + 1)
                 == (if Z.even (Qfloor q) then 1 # 2 else - (1 # 2)))%Q).
    { destruct (Z.even (Qfloor q)); [exact C|].
      rewrite inject_Z_plus. change (inject_Z 1) with 1%Q. lra. }
    rewrite E. destruct (Z.even (Qfloor q)); apply Qabs_Qle_condition; split; lra.
  - apply Qlt_alt in C. apply Qabs_Qle_condition. split; lra.
  - apply Qgt_alt in C. rewrite inject_Z_plus. change (inject_Z 1) with 1%Q.
    apply Qabs_Qle_condition. split; lra.
Qed.







Lemma extreme_conditions_matches r :
  Transform.extreme_conditions r = existsb (matches r) predicates.
Proof.
  unfold Transform.extreme_conditions. simpl. now rewrite orb_false_r, !orb_assoc.
Qed.

(** *** The loop over the extreme rows *)

Lemma cell_lt_readable df r c q :
  readable df r c = true -> cell_lt (item df r c) q = Ok (lt_num (col r c) q).
Proof.
  unfold readable, item, lt_num.
  destruct (num (col r c)); [reflexivity|].
  destruct (holds_number c df); [reflexivity | discriminate].
Qed.

Lemma cell_gt_readable df r c q :
  readable df r c = true -> cell_gt (item df r c) q = Ok (gt_num (col r c) q).
Proof.
  unfold readable, item, gt_num.
  destruct (num (col r c)); [reflexivity|].
  destruct (holds_number c df); [reflexivity | discriminate].
Qed.

Lemma cell_lt_unreadable df r c q :
  readable df r c = false -> cell_lt (item df r c) q = Raise TypeError.
Proof. unfold readable. destruct (item df r c); [reflexivity | discriminate..]. Qed.

Lemma cell_gt_unreadable df r c q :
  readable df r c = false -> cell_gt (item df r c) q = Raise TypeError.
Proof. unfold readable. destruct (item df r c); [reflexivity | discriminate..]. Qed.

Lemma append_if_readable df r c b label unit ds :
  readable df r c = true ->
  Transform.append_if b label (item df r c) unit ds
  = Ok (if b then ds ++ [(label ++ ": " ++ format_cell_1f (col r c) ++ unit)%string]
        else ds).
Proof.
  unfold readable, item, Transform.append_if, format_cell_1f.
  destruct b; [|reflexivity].
  destruct (num (col r c)); [reflexivity|].
  destruct (holds_number c df); [reflexivity | discriminate].
Qed.

(** The loop body raises exactly when it meets [None]; otherwise it builds
    the clauses of the matching predicates, in their order. *)
Lemma event_descriptions_char df r :
  Transform.event_descriptions df r
  = if forallb (readable df r) measured_columns
    then Ok (map (clause r) (filter (matches r) predicates))
    else Raise TypeError.
Proof.
  unfold Transform.event_descriptions, measured_columns. cbn [forallb].
  destruct (readable df r "temperature") eqn:T.
  2:{ now rewrite (cell_lt_unreadable _ _ _ _ T). }
  rewrite (cell_lt_readable _ _ _ _ T). cbn [Py.bind].
  rewrite (append_if_readable _ _ _ _ _ _ _ T). cbn [Py.bind].
  rewrite (cell_gt_readable _ _ _ _ T). cbn [Py.bind].
  rewrite (append_if_readable _ _ _ _ _ _ _ T). cbn [Py.bind].
  destruct (readable df r "wind_speed") eqn:W.
  2:{ now rewrite (cell_gt_unreadable _ _ _ _ W). }
  rewrite (cell_gt_readable _ _ _ _ W). cbn [Py.bind].
  rewrite (append_if_readable _ _ _ _ _ _ _ W). cbn [Py.bind].
  destruct (readable df r "rain_3h") eqn:R.
  2:{ now rewrite (cell_gt_unreadable _ _ _ _ R). }
  rewrite (cell_gt_readable _ _ _ _ R). cbn [Py.bind].
  rewrite (append_if_readable _ _ _ _ _ _ _ R). cbn [Py.bind].
  destruct (readable df r "snow_3h") eqn:S.
  2:{ now rewrite (cell_gt_unreadable _ _ _ _ S). }
  rewrite (cell_gt_readable _ _ _ _ S). cbn [Py.bind].
  rewrite (append_if_readable _ _ _ _ _ _ _ S). cbn [andb].
  unfold predicates, clause. cbn [filter matches].
  destruct (lt_num (col r "temperature") (-10 # 1));
    destruct (gt_num (col r "temperature") (40 # 1));
    destruct (gt_num (col r "wind_speed") (20 # 1));
    destruct (gt_num (col r "rain_3h") (10 # 1));
    destruct (gt_num (col r "snow_3h") (10 # 1)); reflexivity.
Qed.

Lemma holds_number_In df r c q :
  In r df -> num (col r c) = Some q -> holds_number c df = true.
Proof.
  intros Hin Hq. unfold holds_number. apply existsb_exists.
  exists r. split; [exact Hin | now rewrite Hq].
Qed.

Lemma forallb_ext {A} (f g : A -> bool) l :
  (forall x, f x = g x) -> forallb f l = forallb g l.
Proof.
  intros H. induction l as [|x l IH]; simpl; [reflexivity | now rewrite H, IH].
Qed.

(** In a row of the frame a cell is [None] exactly when its column holds
    no number. *)
Lemma readable_In df r c : In r df -> readable df r c = holds_number c df.
Proof.
  intros Hin. unfold readable, item.
  destruct (num (col r c)) as [q|] eqn:E.
  - symmetry. eapply holds_number_In; eassumption.
  - now destruct (holds_number c df).
Qed.

Lemma conditions_run df events :
  (forall r, In r events -> In r df) ->
  Transform.conditions df events
  = if match events with [] => true | _ => false end || complete_columns df
    then Ok (map description events)
    else Raise TypeError.
Proof.
  induction events as [|r rest IH]; intros Hsub; [reflexivity|].
  cbn [Transform.conditions orb]. rewrite event_descriptions_char.
  rewrite (forallb_ext (readable df r) (fun c => holds_number c df) measured_columns)
    by (intros c; apply readable_In, Hsub; now left).
  fold (complete_columns df).
  destruct (complete_columns df) eqn:C; [|reflexivity].
  cbn [Py.bind]. rewrite IH by (intros x Hx; apply Hsub; now right).
  rewrite orb_true_r. reflexivity.
Qed.

Lemma existsb_perm {A} (f : A -> bool) l l' :
  Permutation l l' -> existsb f l = existsb f l'.
Proof.
  induction 1; simpl.
  - reflexivity.
  - now rewrite IHPermutation.
  - now rewrite !orb_assoc, (orb_comm (f y)).
  - congruence.
Qed.

Lemma complete_columns_perm l l' :
  Permutation l l' -> complete_columns l = complete_columns l'.
Proof.
  intros H. unfold complete_columns. apply forallb_ext. intros c.
  unfold holds_number. now apply existsb_perm.
Qed.

Lemma filter_nil_existsb {A} (f : A -> bool) l :
  match filter f l with [] => true | _ => false end = negb (existsb f l).
Proof.
  induction l as [|x l IH]; simpl; [reflexivity|].
  destruct (f x); [reflexivity | exact IH].
Qed.

Lemma described_combine (events : list row) :
  map (fun rc => assoc_set "event_description" (SText (snd rc)) (fst rc))
      (combine events (map description events))
  = map (fun r => assoc_set "event_description" (SText (description r)) r) events.
Proof. induction events as [|r rest IH]; simpl; [reflexivity | now rewrite IH]. Qed.

(** [find_extreme_weather_events] raises when a record is extreme while a
    measured column holds no number, and returns the described extreme
    records otherwise. *)
Lemma find_extreme_weather_events_run w rows :
  assoc "forecast" (tables w) = Some rows ->
  Transform.find_extreme_weather_events w
  = (if any_extreme rows && negb (complete_columns rows)
     then Raise TypeError else Ok (event_frame rows),
     opened w).
Proof.
  intros H. unfold Transform.find_extreme_weather_events, St.bind.
  rewrite (get_forecast_data_run _ H). unfold St.lift.
  rewrite conditions_run by (intros r Hr; now apply filter_In in Hr).
  rewrite filter_nil_existsb.
  rewrite (existsb_perm _ (order_by_perm ["city_name"; "forecast_time"] rows)).
  rewrite (complete_columns_perm (order_by_perm ["city_name"; "forecast_time"] rows)).
  fold (any_extreme rows). unfold event_frame.
  destruct (any_extreme rows), (complete_columns rows); cbn [negb orb andb St.ret];
    try (now rewrite described_combine); reflexivity.
Qed.

Lemma find_extreme_weather_events_returns w rows :
  assoc "forecast" (tables w) = Some rows ->
  any_extreme rows = false \/ complete_columns rows = true ->
  Transform.find_extreme_weather_events w = (Ok (event_frame rows), opened w).
Proof.
  intros H C. rewrite (find_extreme_weather_events_run _ H).
  destruct C as [-> | ->]; [reflexivity | now rewrite andb_false_r].
Qed.

Lemma any_extreme_In rows r :
  In r rows -> Transform.extreme_conditions r = true -> any_extreme rows = true.
Proof. intros Hin Hc. apply existsb_exists. now exists r. Qed.

Lemma empty_column_incomplete rows c :
  In c measured_columns ->
  (forall r, In r rows -> col r c = SNull) ->
  complete_columns rows = false.
Proof.
  intros Hc Hnull. apply not_true_is_false. intros Hall.
  unfold complete_columns in Hall. rewrite forallb_forall in Hall.
  specialize (Hall c Hc). apply existsb_exists in Hall as (r & Hr & Hn).
  now rewrite (Hnull r Hr) in Hn.
Qed.

(** C2: the claim fails on a record that passes a threshold in a table in
    which one of the measured columns holds no value at all (no entry of the
    loaded forecasts has a wind block, say).  The comparison of the columns
    selects the record, and the loop that describes it compares the [None]
    of the empty column with a number: [find_extreme_weather_events] raises
    [TypeError] and the record is not flagged. *)
Theorem extreme_record_with_empty_column_raises (w : world) (rows : list row)
  (r : row) (c : string) :
  assoc "forecast" (tables w) = Some rows ->
  In r rows ->
  below (col r "temperature") (-10 # 1)
  \/ above (col r "temperature") (40 # 1)
  \/ above (col r "wind_speed") (20 # 1)
  \/ above (col r "rain_3h") (10 # 1)
  \/ above (col r "snow_3h") (10 # 1) ->
  In c measured_columns ->
  (forall r', In r' rows -> col r' c = SNull) ->
  Transform.find_extreme_weather_events w = (Raise TypeError, opened w).
Proof.
  intros Hrows Hin Hext Hc Hnull.
  rewrite (find_extreme_weather_events_run _ Hrows).
  apply extreme_conditions_spec in Hext.
  rewrite (any_extreme_In _ _ Hin Hext), (empty_column_incomplete _ Hc Hnull).
  reflexivity.
Qed.



Lemma assoc_app {A} k (l1 l2 : list (string * A)) :
  assoc k (l1 ++ l2) = match assoc k l1 with Some v => Some v | None => assoc k l2 end.
Proof.
  induction l1 as [|[k' v'] l1 IH]; simpl; [reflexivity|].
  destruct (String.eqb k k'); [reflexivity | exact IH].
Qed.

Lemma assoc_set_same {A} k (v : A) l : assoc k (assoc_set k v l) = Some v.
Proof.
  induction l as [|[k' v'] l IH]; simpl.
  - now rewrite String.eqb_refl.
  - destruct (String.eqb k k') eqn:E; simpl; [now rewrite String.eqb_refl | now rewrite E].
Qed.

Lemma assoc_set_other {A} k (v : A) l c :
  c <> k -> assoc c (assoc_set k v l) = assoc c l.
Proof.
  intros Hc. apply String.eqb_neq in Hc.
  induction l as [|[k' v'] l IH]; simpl.
  - now rewrite Hc.
  - destruct (String.eqb k k') eqn:E; simpl.
    + apply String.eqb_eq in E; subst k'. now rewrite Hc.
    + destruct (String.eqb c k'); [reflexivity | exact IH].
Qed.

Lemma store_same name df d : assoc name (store name df d) = Some (existing name d ++ df).
Proof.
  unfold store, existing. destruct (assoc name d) eqn:E.
  - apply assoc_set_same.
  - rewrite assoc_app, E. simpl. now rewrite String.eqb_refl.
Qed.

Lemma store_other name df d c : c <> name -> assoc c (store name df d) = assoc c d.
Proof.
  intros Hc. unfold store. destruct (assoc name d) eqn:E.
  - now apply assoc_set_other.
  - rewrite assoc_app. destruct (assoc c d); [reflexivity|].
    simpl. apply String.eqb_neq in Hc. now rewrite Hc.
Qed.

Lemma store_transformed_data_run df name w :
  exists w',
    Transform.store_transformed_data df name w = (Ok tt, w') /\
    tables w' = store name df (tables w) /\
    (exists ops, trace w' = trace w ++ ops
                 /\ In (InsertRows name (List.length df)) ops
                 /\ forall o, In o ops -> op_table o = name).
Proof.
  unfold Transform.store_transformed_data, St.bind.
  rewrite sqlite3_connect_run. unfold store.
  destruct (assoc name (tables w)) eqn:E; unfold Transform.to_sql; rewrite E;
    unfold St.bind; simpl; eexists; (split; [reflexivity|]); simpl;
    (split; [reflexivity|]).
  - exists [InsertRows name (List.length df)].
    split; [reflexivity|]. split; [now left|]. intros o [<- | []]. reflexivity.
  - exists [CreateTable name; InsertRows name (List.length df)].
    split; [now rewrite <- app_assoc|].
    split; [right; now left|]. intros o [<- | [<- | []]]; reflexivity.
Qed.

Lemma bind_ok {A B} (m : M A) (f : A -> M B) w a w' :
  m w = (Ok a, w') -> St.bind m f w = f a w'.
Proof. intros H. unfold St.bind. now rewrite H. Qed.
Arguments bind_ok {A B m} f {w a w'} _.


Lemma calculate_daily_aggregates_run w rows :
  assoc "forecast" (tables w) = Some rows ->
  Transform.calculate_daily_aggregates w = (Ok (daily_frame rows), opened w).
Proof.
  intros H. unfold Transform.calculate_daily_aggregates, St.bind.
  rewrite sqlite3_connect_run. unfold St.lift, Transform.select_all.
  now rewrite H.
Qed.

Lemma calculate_temperature_anomalies_run w rows :
  assoc "forecast" (tables w) = Some rows ->
  Transform.calculate_temperature_anomalies w = (Ok (anomaly_frame rows), opened w).
Proof.
  intros H. unfold Transform.calculate_temperature_anomalies.
  now rewrite (bind_ok _ (get_forecast_data_run _ H)).
Qed.



(* ================================================================= *)
(** ** Temperature anomalies *)





















(* ================================================================= *)
(** ** Daily aggregates *)







Lemma group_by_members key rows g :
  In g (Transform.group_by key rows) ->
  snd g <> [] /\ forall r, In r (snd g) <-> In r rows /\ key r = fst g.
Proof.
  unfold Transform.group_by. intros Hg.
  apply in_map_iff in Hg as (k & <- & Hk). simpl.
  assert (Hmem : forall r, In r (filter (Transform.has_key key k) rows)
                           <-> In r rows /\ key r = k).
  { intros r. rewrite filter_In. unfold Transform.has_key.
    destruct (key_eq_dec (key r) k); split; intros [H1 H2]; split;
      congruence. }
  split; [|exact Hmem].
  apply nodup_In, in_map_iff in Hk as (r & Hr & Hin).
  intros Hnil. assert (Hr' : In r (filter (Transform.has_key key k) rows))
    by (apply Hmem; now split).
  rewrite Hnil in Hr'. exact Hr'.
Qed.










(** The mean times the number of values is their sum. *)
Lemma mean_sum cells :
  numbers cells <> [] ->
  exists m, mean cells = SNum m
            /\ (m * inject_Z (Z.of_nat (List.length (numbers cells)))
                == Qsum (numbers cells))%Q.
Proof.
  unfold mean. destruct (numbers cells) as [|x xs] eqn:E; [congruence|].
  intros _. eexists. split; [reflexivity|].
  rewrite Qred_correct. field.
  unfold Qeq. simpl. lia.
Qed.














(* ================================================================= *)
(** ** The loader *)

Lemma insert_into_inv name cols vals d d' :
  insert_into name cols vals d = Ok d' ->
  exists rows cells,
    assoc name d = Some rows /\ adapt_all vals = Ok cells /\
    d' = assoc_set name
           (rows ++ [("id", SNum (inject_Z (Z.of_nat (S (List.length rows)))))
                       :: combine cols cells]) d.
Proof.
  unfold insert_into. destruct (assoc name d) as [rows|]; [|discriminate].
  destruct (adapt_all vals) as [cells|]; simpl; [|discriminate].
  intros [= <-]. now exists rows, cells.
Qed.

Lemma insert_into_ok name cols vals d rows cells :
  assoc name d = Some rows -> adapt_all vals = Ok cells ->
  insert_into name cols vals d
  = Ok (assoc_set name
          (rows ++ [("id", SNum (inject_Z (Z.of_nat (S (List.length rows)))))
                      :: combine cols cells]) d).
Proof. intros H1 H2. unfold insert_into. now rewrite H1, H2. Qed.

Lemma adapt_all_nth vals cells i :
  adapt_all vals = Ok cells -> adapt (nth i vals VNone) = Ok (nth i cells SNull).
Proof.
  revert cells i. induction vals as [|v vals IH]; intros cells i; simpl.
  - intros [= <-]. now destruct i.
  - destruct (adapt v) as [x|] eqn:Ex; simpl; [|discriminate].
    destruct (adapt_all vals) as [xs|]; simpl; [|discriminate].
    intros [= <-]. destruct i; simpl; [exact Ex | now apply IH].
Qed.

(** Either the whole artifact is rolled back, with the error logged, or
    both INSERTs are committed. *)
Lemma load_current_weather_cases h p data w :
  assoc p (files w) = Some (Json data) ->
  exists w',
    Load.load_current_weather h (VStr p) w = (Ok tt, w') /\
    files w' = files w /\
    ((tables w' = tables w /\
      exists e, log w' = log w ++ [Error "Error loading data from {file_path}: {e}" (VStr p) e])
     \/
     (exists vals conn1 conn2,
        Load.current_weather_values h data = Ok vals /\
        insert_into "current_weather" Load.current_weather_columns vals (tables w)
        = Ok conn1 /\
        insert_into "raw_data_files" Load.raw_data_files_columns
          [VStr p; VStr "current"; nth 1 vals VNone; VDatetime (wall h (clock w))]
          conn1 = Ok conn2 /\
        tables w' = conn2 /\ clock w' = S (clock w))).
Proof.
  intros Hfile. unfold Load.load_current_weather.
  rewrite (bind_ok _ (w := w) (a := data) (w' := w))
    by (unfold open_json_load; now rewrite Hfile).
  rewrite (bind_ok _ (sqlite3_connect_run w)).
  unfold St.bind at 1. unfold St.try_except.
  unfold St.bind at 1. unfold St.lift at 1.
  destruct (Load.current_weather_values h data) as [vals|e] eqn:Evals.
  2:{ cbn. eexists. split; [reflexivity|]. split; [reflexivity|].
      left. split; [reflexivity | now exists e]. }
  unfold St.bind at 1. unfold St.lift at 1.
  change (tables (opened w)) with (tables w).
  destruct (insert_into "current_weather" _ vals (tables w)) as [conn1|e] eqn:E1.
  2:{ cbn. eexists. split; [reflexivity|]. split; [reflexivity|].
      left. split; [reflexivity | now exists e]. }
  cbn -[insert_into].
  destruct (insert_into "raw_data_files" _ _ conn1) as [conn2|e] eqn:E2.
  2:{ cbn. eexists. split; [reflexivity|]. split; [reflexivity|].
      left. split; [reflexivity | now exists e]. }
  cbn. eexists. split; [reflexivity|]. split; [reflexivity|].
  right. exists vals, conn1, conn2. cbn. auto.
Qed.

Lemma load_current_weather_commits h p data w cw raw vals cells :
  assoc p (files w) = Some (Json data) ->
  assoc "current_weather" (tables w) = Some cw ->
  assoc "raw_data_files" (tables w) = Some raw ->
  Load.current_weather_values h data = Ok vals ->
  adapt_all vals = Ok cells ->
  exists w',
    Load.load_current_weather h (VStr p) w = (Ok tt, w') /\
    files w' = files w /\
    assoc "current_weather" (tables w')
    = Some (cw ++ [inserted (List.length cw) Load.current_weather_columns cells]) /\
    assoc "raw_data_files" (tables w')
    = Some (raw ++ [inserted (List.length raw) Load.raw_data_files_columns
                      [SText p; SText "current"; nth 1 cells SNull;
                       STime (wall h (clock w))]]).
Proof.
  intros Hfile Hcw Hraw Hvals Hcells. unfold Load.load_current_weather.
  rewrite (bind_ok _ (w := w) (a := data) (w' := w))
    by (unfold open_json_load; now rewrite Hfile).
  rewrite (bind_ok _ (sqlite3_connect_run w)).
  unfold St.bind at 1. unfold St.try_except.
  unfold St.bind at 1. unfold St.lift at 1. rewrite Hvals.
  unfold St.bind at 1. unfold St.lift at 1.
  change (tables (opened w)) with (tables w).
  rewrite (@insert_into_ok _ Load.current_weather_columns _ _ _ _ Hcw Hcells).
  cbn -[insert_into].
  erewrite insert_into_ok.
  2:{ rewrite assoc_set_other by discriminate. exact Hraw. }
  2:{ simpl. rewrite (@adapt_all_nth _ _ 1 Hcells). reflexivity. }
  cbn. eexists. split; [reflexivity|]. split; [reflexivity|]. cbn.
  rewrite assoc_set_other, assoc_set_same by discriminate. split; [reflexivity|].
  now rewrite assoc_set_same.
Qed.

(** C9: loading the same observation artifact twice appends two rows with
    the same content to [current_weather], and two references to the
    artifact to [raw_data_files]: nothing is deduplicated. *)
Theorem same_artifact_loaded_twice h p data w cw raw vals cells :
  assoc p (files w) = Some (Json data) ->
  assoc "current_weather" (tables w) = Some cw ->
  assoc "raw_data_files" (tables w) = Some raw ->
  Load.current_weather_values h data = Ok vals ->
  adapt_all vals = Ok cells ->
  exists w1 w2,
    Load.load_current_weather h (VStr p) w = (Ok tt, w1) /\
    Load.load_current_weather h (VStr p) w1 = (Ok tt, w2) /\
    assoc "current_weather" (tables w2)
    = Some (cw ++ [inserted (List.length cw) Load.current_weather_columns cells;
                   inserted (S (List.length cw)) Load.current_weather_columns cells]) /\
    exists t1 t2,
      assoc "raw_data_files" (tables w2)
      = Some (raw ++ [inserted (List.length raw) Load.raw_data_files_columns
                        [SText p; SText "current"; nth 1 cells SNull; STime t1];
                      inserted (S (List.length raw)) Load.raw_data_files_columns
                        [SText p; SText "current"; nth 1 cells SNull; STime t2]]).
Proof.
  intros Hfile Hcw Hraw Hvals Hcells.
  destruct (@load_current_weather_commits h p _ w _ _ _ _ Hfile Hcw Hraw Hvals Hcells)
    as (w1 & Hrun1 & Hfiles1 & Hcw1 & Hraw1).
  assert (Hfile1 : assoc p (files w1) = Some (Json data)) by now rewrite Hfiles1.
  destruct (@load_current_weather_commits h p _ w1 _ _ _ _ Hfile1 Hcw1 Hraw1 Hvals Hcells)
    as (w2 & Hrun2 & _ & Hcw2 & Hraw2).
  exists w1, w2. split; [exact Hrun1|]. split; [exact Hrun2|].
  rewrite Hcw2, Hraw2, !length_app, <- !app_assoc. simpl.
  rewrite !Nat.add_1_r. split; [reflexivity|].
  now exists (wall h (clock w)), (wall h (clock w1)).
Qed.

(* ================================================================= *)
(** ** Optional precipitation blocks *)

Lemma lacksb_iff data block key : lacksb data block key = true <-> lacks data block key.
Proof.
  unfold lacksb, lacks. destruct (assoc block data) as [v|].
  - destruct v as [|?|?|?|?|?|kv|?];
      try (split; [discriminate | intros [H | (x & H & _)]; discriminate]).
    destruct (assoc key kv) eqn:E.
    + split; [discriminate|]. intros [H | (x & [= <-] & H)]; [discriminate | congruence].
    + split; [|reflexivity]. intros _. right. now exists kv.
  - split; [now left | reflexivity].
Qed.

Lemma get_in_lacks data block key default :
  lacks data block key ->
  Load.get_in (VDict data) block key default = Ok default.
Proof.
  unfold Load.get_in, Py.get. intros [H | (b & H & Hk)]; rewrite H; simpl.
  - reflexivity.
  - now rewrite Hk.
Qed.

Lemma get_with_zero block k data name default :
  name <> block ->
  Py.get (VDict (with_zero block k data)) name default = Py.get (VDict data) name default.
Proof.
  intros H. unfold Py.get, with_zero. now rewrite assoc_set_other by assumption.
Qed.

Lemma get_in_with_zero block k data b key default :
  b <> block ->
  Load.get_in (VDict (with_zero block k data)) b key default
  = Load.get_in (VDict data) b key default.
Proof. intros H. unfold Load.get_in. now rewrite get_with_zero. Qed.

Lemma weather0_with_zero block k data key :
  "weather" <> block ->
  Load.weather0 (VDict (with_zero block k data)) key = Load.weather0 (VDict data) key.
Proof. intros H. unfold Load.weather0. now rewrite get_with_zero. Qed.

Lemma get_in_zero block k data :
  Load.get_in (VDict (with_zero block k data)) block k (VInt 0) = Ok (VInt 0).
Proof.
  unfold Load.get_in, Py.get, with_zero. rewrite assoc_set_same. simpl.
  now rewrite String.eqb_refl.
Qed.

(** An absent block loads exactly as an explicit zero in that block does. *)
Lemma current_weather_values_with_zero h block data :
  precipitation block -> lacks data block "1h" ->
  Load.current_weather_values h (VDict data)
  = Load.current_weather_values h (VDict (with_zero block "1h" data)).
Proof.
  intros [-> | ->] Hl; unfold Load.current_weather_values;
    rewrite get_in_zero, (@get_in_lacks _ _ _ (VInt 0) Hl);
    rewrite !get_with_zero, !get_in_with_zero, !weather0_with_zero by discriminate;
    reflexivity.
Qed.

Lemma forecast_values_with_zero h block ra ci cn co d :
  precipitation block -> lacks d block "3h" ->
  Load.forecast_values h ra ci cn co (VDict d)
  = Load.forecast_values h ra ci cn co (VDict (with_zero block "3h" d)).
Proof.
  intros [-> | ->] Hl; unfold Load.forecast_values;
    rewrite get_in_zero, (@get_in_lacks _ _ _ (VInt 0) Hl);
    rewrite !get_with_zero, !get_in_with_zero, !weather0_with_zero by discriminate;
    reflexivity.
Qed.

Ltac invert_binds H :=
  repeat match type of H with
         | context [Py.bind ?m _] =>
             let E := fresh "E" in
             destruct m eqn:E; cbn [Py.bind] in H; [|discriminate H]
         end.

Lemma adapted_zero vals cells i :
  adapt_all vals = Ok cells -> nth i vals VNone = VInt 0 -> nth i cells SNull = SNum 0.
Proof.
  intros Ha Hn. pose proof (@adapt_all_nth _ _ i Ha) as H. rewrite Hn in H.
  simpl in H. now injection H as <-.
Qed.

(** The position of the precipitation values in the two INSERT statements. *)
Lemma current_weather_values_dry h block data vals :
  precipitation block -> lacks data block "1h" ->
  Load.current_weather_values h (VDict data) = Ok vals ->
  nth (if String.eqb block "rain" then 16 else 17) vals VNone = VInt 0.
Proof.
  intros [-> | ->] Hl H; unfold Load.current_weather_values in H;
    rewrite (@get_in_lacks _ _ _ (VInt 0) Hl) in H;
    invert_binds H; injection H as <-; reflexivity.
Qed.

Lemma forecast_values_dry h block ra ci cn co d vals :
  precipitation block -> lacks d block "3h" ->
  Load.forecast_values h ra ci cn co (VDict d) = Ok vals ->
  nth (if String.eqb block "rain" then 15 else 16) vals VNone = VInt 0.
Proof.
  intros [-> | ->] Hl H; unfold Load.forecast_values in H;
    rewrite (@get_in_lacks _ _ _ (VInt 0) Hl) in H;
    invert_binds H; injection H as <-; reflexivity.
Qed.

Lemma inserted_observation_precip n cells block :
  precipitation block ->
  nth (if String.eqb block "rain" then 16 else 17) cells SNull = SNum 0 ->
  col (inserted n Load.current_weather_columns cells) (precipitation_column block "1h")
  = SNum 0.
Proof.
  intros [-> | ->] H; cbn [String.eqb Ascii.eqb Bool.eqb] in H.
  - do 17 (destruct cells as [|? cells]; [simpl in *; discriminate|]).
    simpl in H. subst. reflexivity.
  - do 18 (destruct cells as [|? cells]; [simpl in *; discriminate|]).
    simpl in H. subst. reflexivity.
Qed.

Lemma inserted_forecast_precip n cells block :
  precipitation block ->
  nth (if String.eqb block "rain" then 15 else 16) cells SNull = SNum 0 ->
  col (inserted n Load.forecast_columns cells) (precipitation_column block "3h")
  = SNum 0.
Proof.
  intros [-> | ->] H; cbn [String.eqb Ascii.eqb Bool.eqb] in H.
  - do 16 (destruct cells as [|? cells]; [simpl in *; discriminate|]).
    simpl in H. subst. reflexivity.
  - do 17 (destruct cells as [|? cells]; [simpl in *; discriminate|]).
    simpl in H. subst. reflexivity.
Qed.

Lemma load_forecast_data_cases h p data w :
  assoc p (files w) = Some (Json data) ->
  exists w',
    Load.load_forecast_data h (VStr p) w = (Ok tt, w') /\
    files w' = files w /\
    ((tables w' = tables w /\
      exists e, log w' = log w ++ [Error "Error loading forecast data from {file_path}: {e}" (VStr p) e])
     \/
     (exists ra city_data ci cn co l entries conn1 conn2,
        Py.get data "retrieved_at" VNone = Ok ra /\
        Py.get data "city" (VDict []) = Ok city_data /\
        Py.get city_data "id" VNone = Ok ci /\
        Py.get city_data "name" VNone = Ok cn /\
        Py.get city_data "country" VNone = Ok co /\
        Py.get data "list" (VList []) = Ok l /\
        Py.iter l = Ok entries /\
        Load.insert_forecasts h ra ci cn co entries (tables w) = Ok conn1 /\
        insert_into "raw_data_files" Load.raw_data_files_columns
          [VStr p; VStr "forecast"; cn; VDatetime (wall h (clock w))] conn1
        = Ok conn2 /\
        tables w' = conn2 /\ clock w' = S (clock w))).
Proof.
  intros Hfile. unfold Load.load_forecast_data.
  rewrite (bind_ok _ (w := w) (a := data) (w' := w))
    by (unfold open_json_load; now rewrite Hfile).
  rewrite (bind_ok _ (sqlite3_connect_run w)).
  unfold St.bind at 1. unfold St.try_except.
  change (tables (opened w)) with (tables w).
  assert (Hfail : forall e,
            exists w',
              (let (r, w'0) :=
                 St.bind (St.logger (Error "Error loading forecast data from {file_path}: {e}" (VStr p) e))
                         (fun _ => rollback) (opened w) in
               match r with
               | Ok _ => St.bind close (fun _ => St.ret tt) w'0
               | Raise e0 => (Raise e0, w'0)
               end) = (Ok tt, w') /\
              files w' = files w /\
              ((tables w' = tables w /\
                exists e, log w' = log w ++ [Error "Error loading forecast data from {file_path}: {e}" (VStr p) e])
               \/ False)).
  { intros e. cbn. eexists. split; [reflexivity|]. split; [reflexivity|].
    left. split; [reflexivity | now exists e]. }
  unfold St.bind at 1. unfold St.lift at 1.
  destruct (Py.get data "retrieved_at" VNone) as [ra|e] eqn:E1.
  2:{ destruct (Hfail e) as (w' & H1 & H2 & [H3 | []]). exists w'. cbn in *. auto. }
  unfold St.bind at 1. unfold St.lift at 1.
  destruct (Py.get data "city" (VDict [])) as [city_data|e] eqn:E2.
  2:{ destruct (Hfail e) as (w' & H1 & H2 & [H3 | []]). exists w'. cbn in *. auto. }
  unfold St.bind at 1. unfold St.lift at 1.
  destruct (Py.get city_data "id" VNone) as [ci|e] eqn:E3.
  2:{ destruct (Hfail e) as (w' & H1 & H2 & [H3 | []]). exists w'. cbn in *. auto. }
  unfold St.bind at 1. unfold St.lift at 1.
  destruct (Py.get city_data "name" VNone) as [cn|e] eqn:E4.
  2:{ destruct (Hfail e) as (w' & H1 & H2 & [H3 | []]). exists w'. cbn in *. auto. }
  unfold St.bind at 1. unfold St.lift at 1.
  destruct (Py.get city_data "country" VNone) as [co|e] eqn:E5.
  2:{ destruct (Hfail e) as (w' & H1 & H2 & [H3 | []]). exists w'. cbn in *. auto. }
  unfold St.bind at 1. unfold St.lift at 1.
  destruct (Py.get data "list" (VList [])) as [l|e] eqn:E6; cbn [Py.bind].
  2:{ destruct (Hfail e) as (w' & H1 & H2 & [H3 | []]). exists w'. cbn in *. auto. }
  destruct (Py.iter l) as [entries|e] eqn:E7.
  2:{ destruct (Hfail e) as (w' & H1 & H2 & [H3 | []]). exists w'. cbn in *. auto. }
  unfold St.bind at 1. unfold St.lift at 1.
  destruct (Load.insert_forecasts h ra ci cn co entries (tables w)) as [conn1|e] eqn:E8.
  2:{ destruct (Hfail e) as (w' & H1 & H2 & [H3 | []]). exists w'. cbn in *. auto. }
  cbn -[insert_into].
  destruct (insert_into "raw_data_files" _ _ conn1) as [conn2|e] eqn:E9.
  - cbn. eexists. split; [reflexivity|]. split; [reflexivity|].
    right. exists ra, city_data, ci, cn, co, l, entries, conn1, conn2. cbn. auto 12.
  - cbn. eexists. split; [reflexivity|]. split; [reflexivity|].
    left. split; [reflexivity | now exists e].
Qed.

(** The rows the loop over the forecast list inserts: one per entry, and 0
    in the column of a block the entry lacks. *)
Lemma insert_forecasts_zero h block ra ci cn co entries :
  precipitation block ->
  forall conn conn' old,
    Load.insert_forecasts h ra ci cn co entries conn = Ok conn' ->
    assoc "forecast" conn = Some old ->
    exists new,
      assoc "forecast" conn' = Some (old ++ new) /\
      List.length new = List.length entries /\
      forall i d r,
        nth_error entries i = Some (VDict d) -> lacks d block "3h" ->
        nth_error new i = Some r ->
        col r (precipitation_column block "3h") = SNum 0.
Proof.
  intros Hb. induction entries as [|e entries IH]; intros conn conn' old Hrun Hold.
  - injection Hrun as <-. exists []. rewrite app_nil_r.
    split; [exact Hold|]. split; [reflexivity|]. intros [|i] d r H; discriminate.
  - simpl in Hrun.
    destruct (Load.forecast_values h ra ci cn co e) as [vals|] eqn:Ev;
      cbn [Py.bind] in Hrun; [|discriminate].
    destruct (insert_into "forecast" Load.forecast_columns vals conn) as [conn1|] eqn:Ei;
      cbn [Py.bind] in Hrun; [|discriminate].
    apply insert_into_inv in Ei as (rows & cells & Hrows & Hcells & ->).
    rewrite Hold in Hrows. injection Hrows as <-.
    destruct (IH _ _ _ Hrun (assoc_set_same _ _ _)) as (new & Hnew & Hlen & Hall).
    exists (inserted (List.length old) Load.forecast_columns cells :: new).
    split; [now rewrite Hnew, <- app_assoc|]. split; [simpl; now rewrite Hlen|].
    intros [|i] d r He Hl Hr; simpl in He, Hr.
    + injection He as ->. injection Hr as <-.
      apply (inserted_forecast_precip _ _ Hb).
      eapply adapted_zero; [eassumption|].
      eapply forecast_values_dry; eassumption.
    + eapply Hall; eassumption.
Qed.

Lemma insert_forecasts_fill_zero h block ra ci cn co entries :
  precipitation block ->
  forall conn,
    Load.insert_forecasts h ra ci cn co entries conn
    = Load.insert_forecasts h ra ci cn co (map (fill_zero block "3h") entries) conn.
Proof.
  intros Hb. induction entries as [|e entries IH]; intros conn; [reflexivity|].
  cbn [map Load.insert_forecasts].
  assert (Hv : Load.forecast_values h ra ci cn co (fill_zero block "3h" e)
               = Load.forecast_values h ra ci cn co e).
  { destruct e as [|?|?|?|?|?|kv|?]; try reflexivity. cbn [fill_zero].
    destruct (lacksb kv block "3h") eqn:L; [|reflexivity].
    apply lacksb_iff in L. symmetry. now apply forecast_values_with_zero. }
  rewrite Hv.
  destruct (Load.forecast_values h ra ci cn co e); [|reflexivity].
  cbn [Py.bind].
  destruct (insert_into "forecast" Load.forecast_columns a conn); [|reflexivity].
  cbn [Py.bind]. apply IH.
Qed.

Lemma app_eq_self {A} (l new : list A) : l = l ++ new -> new = [].
Proof.
  intros H. apply (app_inv_head l). now rewrite app_nil_r.
Qed.

(** C4: take either precipitation block, rain or snow, whatever the other
    holds.  An observation that lacks the block, or its 1h field, is loaded
    exactly as the observation with an explicit zero in it is, so the
    absence is never a failure: when the rest of the payload loads, the load
    commits, and the row it adds holds 0, not NULL, in the column of the
    block.  A forecast list loads exactly as the list in which every entry
    that lacks the block has an explicit zero, one row is stored per entry,
    and the row of an entry that lacks the block holds 0 in its column. *)
Theorem absent_precipitation_loads_as_zero (h : host) (block : string)
  (data : list (string * value)) (doc : value) (entries : list value) :
  precipitation block ->
  Py.get doc "list" (VList []) = Ok (VList entries) ->
  (lacks data block "1h" ->
   Load.current_weather_values h (VDict data)
   = Load.current_weather_values h (VDict (with_zero block "1h" data))
   /\
   (forall p w old raw vals cells,
      assoc p (files w) = Some (Json (VDict data)) ->
      assoc "current_weather" (tables w) = Some old ->
      assoc "raw_data_files" (tables w) = Some raw ->
      Load.current_weather_values h (VDict (with_zero block "1h" data)) = Ok vals ->
      adapt_all vals = Ok cells ->
      exists w',
        Load.load_current_weather h (VStr p) w = (Ok tt, w') /\
        assoc "current_weather" (tables w')
        = Some (old ++ [inserted (List.length old) Load.current_weather_columns cells]))
   /\
   forall p w w' old new,
     assoc p (files w) = Some (Json (VDict data)) ->
     Load.load_current_weather h (VStr p) w = (Ok tt, w') ->
     assoc "current_weather" (tables w) = Some old ->
     assoc "current_weather" (tables w') = Some (old ++ new) ->
     Forall (fun r => col r (precipitation_column block "1h") = SNum 0
                      /\ col r (precipitation_column block "1h") <> SNull) new)
  /\
  ((forall ra ci cn co conn,
      Load.insert_forecasts h ra ci cn co entries conn
      = Load.insert_forecasts h ra ci cn co (map (fill_zero block "3h") entries) conn)
   /\
   forall p w w' old new,
     assoc p (files w) = Some (Json doc) ->
     Load.load_forecast_data h (VStr p) w = (Ok tt, w') ->
     assoc "forecast" (tables w) = Some old ->
     assoc "forecast" (tables w') = Some (old ++ new) ->
     (new = [] \/ List.length new = List.length entries) /\
     forall i d r,
       nth_error entries i = Some (VDict d) -> lacks d block "3h" ->
       nth_error new i = Some r ->
       col r (precipitation_column block "3h") = SNum 0
       /\ col r (precipitation_column block "3h") <> SNull).
Proof.
  intros Hb Hlist. split; [intros Hl; split; [|split]|split].
  - now apply current_weather_values_with_zero.
  - intros p w old raw vals cells Hfile Hold Hraw Hvals Hcells.
    rewrite <- (current_weather_values_with_zero h Hb Hl) in Hvals.
    destruct (@load_current_weather_commits h p _ w _ _ _ _ Hfile Hold Hraw Hvals Hcells)
      as (w' & Hrun & _ & Hcw & _).
    now exists w'.
  - intros p w w' old new Hfile Hrun Hold Hnew.
    destruct (load_current_weather_cases h p w Hfile)
      as (w1 & Hrun1 & _ & [(Hsame & _) | (vals & c1 & c2 & Hv & H1 & H2 & Ht & _)]);
      rewrite Hrun in Hrun1; injection Hrun1 as <-.
    + rewrite Hsame, Hold in Hnew. injection Hnew as Hnew.
      apply app_eq_self in Hnew. subst new. constructor.
    + apply insert_into_inv in H1 as (rows & cells & Hrows & Hcells & ->).
      apply insert_into_inv in H2 as (raw & rcells & _ & _ & ->).
      rewrite Hold in Hrows. injection Hrows as <-.
      rewrite Ht, assoc_set_other, assoc_set_same in Hnew by discriminate.
      injection Hnew as Hnew. apply app_inv_head in Hnew. subst new.
      assert (Hzero : col (inserted (List.length old) Load.current_weather_columns cells)
                          (precipitation_column block "1h") = SNum 0).
      { apply (inserted_observation_precip _ _ Hb).
        eapply adapted_zero; [eassumption|].
        eapply current_weather_values_dry; eassumption. }
      constructor; [|constructor].
      change (let r := inserted (List.length old) Load.current_weather_columns cells in
              col r (precipitation_column block "1h") = SNum 0
              /\ col r (precipitation_column block "1h") <> SNull).
      cbv zeta. rewrite Hzero. split; [reflexivity | discriminate].
  - intros ra ci cn co conn. now apply insert_forecasts_fill_zero.
  - intros p w w' old new Hfile Hrun Hold Hnew.
    destruct (load_forecast_data_cases h p w Hfile)
      as (w1 & Hrun1 & _ & [(Hsame & _) | C]);
      rewrite Hrun in Hrun1; injection Hrun1 as <-.
    + rewrite Hsame, Hold in Hnew. injection Hnew as Hnew.
      apply app_eq_self in Hnew. subst new.
      split; [now left|]. intros [|i] d r _ _ Hr; discriminate.
    + destruct C as (ra & cd & ci & cn & co & l & es & c1 & c2
                     & _ & _ & _ & _ & _ & Hl & Hit & Hins & H2 & Ht & _).
      rewrite Hlist in Hl. injection Hl as <-. simpl in Hit. injection Hit as <-.
      destruct (insert_forecasts_zero h ra ci cn co entries Hb _ Hins Hold)
        as (added & Hadded & Hlen & Hall).
      apply insert_into_inv in H2 as (raw & rcells & _ & _ & ->).
      rewrite Ht, assoc_set_other, Hadded in Hnew by discriminate.
      injection Hnew as Hnew. apply app_inv_head in Hnew. subst new.
      split; [now right|]. intros i d r He Hlk Hr.
      rewrite (Hall i d r He Hlk Hr). split; [reflexivity | discriminate].
Qed.


(* ================================================================= *)
(** ** Extraction *)

Lemma assoc_set_not_none {A} k (v : A) l c :
  assoc c l <> None -> assoc c (assoc_set k v l) <> None.
Proof.
  intros H. destruct (string_dec c k) as [->|Hne].
  - rewrite assoc_set_same. discriminate.
  - now rewrite assoc_set_other.
Qed.

Lemma fetch_fails h url fetching msg city key w :
  fails h url city key = true ->
  exists w',
    Extract.fetch h url fetching msg city key w = (Ok VNone, w') /\ files w' = files w.
Proof.
  unfold fails, Extract.fetch. intros H.
  unfold St.bind at 1. cbn [St.logger].
  destruct (http_get h url city key) as [|status body].
  - cbn. eexists. split; reflexivity.
  - destruct ((400 <=? status) && (status <? 600)).
    + cbn. eexists. split; reflexivity.
    + destruct body; [|discriminate]. cbn. eexists. split; reflexivity.
Qed.

Lemma truthy_setitem kv key v : Py.truthy (VDict (assoc_set key v kv)) = true.
Proof.
  destruct kv as [|[k' v'] rest]; simpl; [reflexivity|].
  destruct (String.eqb key k'); reflexivity.
Qed.

Lemma fetch_delivers h url fetching msg city key w :
  delivers h url city key ->
  exists data w',
    Extract.fetch h url fetching msg city key w = (Ok data, w') /\ files w' = files w
    /\ Py.truthy data = true.
Proof.
  intros (status & payload & Hget & Hst). unfold Extract.fetch.
  unfold St.bind at 1. cbn [St.logger]. rewrite Hget, Hst.
  cbn -[assoc_set Py.truthy]. eexists. eexists.
  split; [reflexivity|]. split; [reflexivity|]. apply truthy_setitem.
Qed.

Lemma load_api_key_run h w key :
  api_key_env w = Some key -> key <> "" ->
  Extract.load_api_key h w = (Ok key, after_dotenv h w).
Proof.
  intros Hkey Hne. apply String.eqb_neq in Hne.
  unfold Extract.load_api_key, after_dotenv.
  destruct (dotenv_installed h); cbn; now rewrite Hkey, Hne.
Qed.

Lemma load_api_key_missing h w :
  api_key_env w = None \/ api_key_env w = Some "" ->
  Extract.load_api_key h w = (Raise ValueError, after_dotenv h w).
Proof.
  intros Hkey. unfold Extract.load_api_key, after_dotenv.
  destruct (dotenv_installed h); cbn; destruct Hkey as [-> | ->]; reflexivity.
Qed.

Lemma files_after_dotenv h w : files (after_dotenv h w) = files w.
Proof. unfold after_dotenv. now destruct (dotenv_installed h). Qed.

(** What one call of [save_raw_data] does. *)
Lemma save_raw_data_cases h data dtype city w :
  Extract.save_raw_data h data dtype city w
  = match makedirs h "raw_data" with
    | Some e => (Raise e, w)
    | None =>
        match open_w h (artifact_path h dtype city (wall h (clock w))) with
        | Some e => (Raise e, ticked w)
        | None =>
            (Ok (artifact_path h dtype city (wall h (clock w))),
             saved (artifact_path h dtype city (wall h (clock w))) data w)
        end
    end.
Proof.
  unfold Extract.save_raw_data.
  unfold St.bind at 1. unfold Extract.os_makedirs.
  destruct (makedirs h "raw_data"); [reflexivity|].
  unfold St.bind at 1. cbn [Load.datetime_now St.bind St.tick St.ret].
  unfold St.bind at 1. unfold Extract.open_json_dump at 1. cbn [clock files].
  fold (artifact_path h dtype city (wall h (clock w))).
  destruct (open_w h (artifact_path h dtype city (wall h (clock w)))); reflexivity.
Qed.

Lemma save_raw_data_ok h data dtype city w :
  makedirs h "raw_data" = None ->
  open_w h (artifact_path h dtype city (wall h (clock w))) = None ->
  exists w',
    Extract.save_raw_data h data dtype city w
    = (Ok (artifact_path h dtype city (wall h (clock w))), w')
    /\ files w' = assoc_set (artifact_path h dtype city (wall h (clock w)))
                            (Json data) (files w)
    /\ clock w' = S (clock w) /\ db w' = db w /\ api_key_env w' = api_key_env w.
Proof.
  intros Hdir Hopen. rewrite save_raw_data_cases, Hdir, Hopen.
  eexists. repeat split.
Qed.

Lemma save_raw_data_run h data dtype city w :
  writable h city -> In dtype ["current"; "forecast"] ->
  exists w',
    Extract.save_raw_data h data dtype city w
    = (Ok (artifact_path h dtype city (wall h (clock w))), w')
    /\ files w' = assoc_set (artifact_path h dtype city (wall h (clock w)))
                            (Json data) (files w)
    /\ clock w' = S (clock w) /\ db w' = db w /\ api_key_env w' = api_key_env w.
Proof.
  intros (Hdir & Hopen) Hkind. apply save_raw_data_ok; [exact Hdir | now apply Hopen].
Qed.

Lemma delivers_not_fails h url city key :
  delivers h url city key -> fails h url city key = false.
Proof.
  intros (status & payload & Hget & Hst). unfold fails. now rewrite Hget, Hst.
Qed.

(** One fetch-and-persist phase of the loop, for either kind. *)
Lemma phase_run h url fetching msg dtype city key acc (k : list (string * value) -> M value) w :
  fails h url city key = true \/ delivers h url city key ->
  writable h city -> In dtype ["current"; "forecast"] ->
  recorded acc w ->
  exists acc' w1,
    St.bind (Extract.fetch h url fetching msg city key)
      (fun data =>
         St.bind (if Py.truthy data
                  then St.bind (Extract.save_raw_data h data dtype city)
                         (fun file_path =>
                            St.ret (assoc_set city (VStr file_path) acc))
                  else St.ret acc) k) w
    = k acc' w1 /\
    recorded acc' w1 /\
    (forall p, file_exists p w -> file_exists p w1) /\
    (forall c, assoc c acc <> None -> assoc c acc' <> None) /\
    (fails h url city key = true -> acc' = acc) /\
    (fails h url city key = false -> assoc city acc' <> None) /\
    (forall c, c <> city -> assoc c acc' = assoc c acc).
Proof.
  intros [Hf | Hd] Hwr Hkind Hrec.
  - destruct (@fetch_fails h url fetching msg city key w Hf) as (w1 & Hrun & Hfiles).
    exists acc, w1. rewrite (bind_ok _ Hrun). cbn [Py.truthy].
    split; [reflexivity|].
    split. { intros c v Hc. destruct (Hrec c v Hc) as (p & -> & Hp).
             exists p. split; [reflexivity|]. unfold file_exists. now rewrite Hfiles. }
    split. { intros p. unfold file_exists. now rewrite Hfiles. }
    split; [auto|]. split; [auto|]. split; [congruence | auto].
  - destruct (@fetch_delivers h url fetching msg city key w Hd) as (data & w1 & Hrun & Hfiles & Ht).
    destruct (@save_raw_data_run h data dtype city w1 Hwr Hkind)
      as (w2 & Hsave & Hfiles2 & _).
    set (fp := artifact_path h dtype city (wall h (clock w1))) in *.
    exists (assoc_set city (VStr fp) acc), w2.
    rewrite (bind_ok _ Hrun), Ht.
    unfold St.bind at 1. rewrite (bind_ok _ Hsave). cbn [St.ret].
    split; [reflexivity|].
    assert (Hmono : forall p, file_exists p w -> file_exists p w2).
    { intros p. unfold file_exists. rewrite Hfiles2, Hfiles.
      apply assoc_set_not_none. }
    split.
    { intros c v Hc. destruct (string_dec c city) as [->|Hne].
      - rewrite assoc_set_same in Hc. injection Hc as <-.
        exists fp. split; [reflexivity|]. unfold file_exists.
        rewrite Hfiles2, assoc_set_same. discriminate.
      - rewrite assoc_set_other in Hc by assumption.
        destruct (Hrec c v Hc) as (p & -> & Hp). exists p. auto. }
    split; [exact Hmono|].
    split. { intros c. apply assoc_set_not_none. }
    split. { intros Hf. rewrite (@delivers_not_fails _ _ _ _ Hd) in Hf. discriminate. }
    split. { intros _. rewrite assoc_set_same. discriminate. }
    intros c Hc. now apply assoc_set_other.
Qed.

Lemma recorded_mono paths w w1 :
  (forall p, file_exists p w -> file_exists p w1) ->
  recorded paths w -> recorded paths w1.
Proof.
  intros Hmono Hrec c v Hc. destruct (Hrec c v Hc) as (p & -> & Hp).
  exists p. auto.
Qed.

Lemma extract_loop_run h key cities :
  forall cur fc w,
    (forall c, In c cities ->
       (fails h weather_url c key = true \/ delivers h weather_url c key) /\
       (fails h forecast_url c key = true \/ delivers h forecast_url c key)) ->
    (forall c, In c cities -> writable h c) ->
    recorded cur w -> recorded fc w ->
    exists cur' fc' w',
      Extract.extract_loop h cities key cur fc w
      = (Ok (VDict [("current", VDict cur'); ("forecast", VDict fc')]), w') /\
      recorded cur' w' /\ recorded fc' w' /\
      (forall c, fails h weather_url c key = true -> assoc c cur' = assoc c cur) /\
      (forall c, fails h forecast_url c key = true -> assoc c fc' = assoc c fc) /\
      (forall c, (In c cities /\ fails h weather_url c key = false)
                 \/ assoc c cur <> None -> assoc c cur' <> None) /\
      (forall c, (In c cities /\ fails h forecast_url c key = false)
                 \/ assoc c fc <> None -> assoc c fc' <> None).
Proof.
  induction cities as [|city rest IH]; intros cur fc w Hok Hwr Hcur Hfc.
  - exists cur, fc, w. simpl. split; [reflexivity|].
    repeat split; auto; intros c [[[] _] | H]; exact H.
  - destruct (Hok city (or_introl eq_refl)) as (Hw & Hf).
    pose proof (Hwr city (or_introl eq_refl)) as Hwc.
    simpl Extract.extract_loop. unfold Extract.get_current_weather.
    destruct (@phase_run h weather_url "Fetching current weather data for {city}"
                "Error fetching data for {city}: {e}" "current" city key cur
                (fun current =>
                   St.bind (Extract.get_forecast h city key)
                     (fun forecast_data =>
                        St.bind (if Py.truthy forecast_data
                                 then St.bind
                                        (Extract.save_raw_data h forecast_data
                                           "forecast" city)
                                        (fun file_path =>
                                           St.ret (assoc_set city (VStr file_path) fc))
                                 else St.ret fc)
                          (fun forecast =>
                             Extract.extract_loop h rest key current forecast)))
                w Hw Hwc (or_introl eq_refl) Hcur)
      as (cur1 & w1 & Hrun1 & Hrec1 & Hmono1 & Hkeep1 & Hfail1 & Hgot1 & Hoth1).
    unfold weather_url in Hrun1. rewrite Hrun1. clear Hrun1.
    unfold Extract.get_forecast.
    destruct (@phase_run h forecast_url "Fetching forecast data for {city}"
                "Error fetching forecast for {city}: {e}" "forecast" city key fc
                (fun forecast => Extract.extract_loop h rest key cur1 forecast)
                w1 Hf Hwc (or_intror (or_introl eq_refl)) (recorded_mono Hmono1 Hfc))
      as (fc1 & w2 & Hrun2 & Hrec2 & Hmono2 & Hkeep2 & Hfail2 & Hgot2 & Hoth2).
    unfold forecast_url in Hrun2. rewrite Hrun2. clear Hrun2.
    destruct (IH cur1 fc1 w2 (fun c Hc => Hok c (or_intror Hc))
                (fun c Hc => Hwr c (or_intror Hc))
                (recorded_mono Hmono2 Hrec1) Hrec2)
      as (cur' & fc' & w' & Hrun & Hrc & Hrf & Hcf & Hff & Hcg & Hfg).
    exists cur', fc', w'. split; [exact Hrun|].
    split; [exact Hrc|]. split; [exact Hrf|].
    split.
    { intros c Hc. rewrite (Hcf c Hc).
      destruct (string_dec c city) as [->|Hne];
        [now rewrite (Hfail1 Hc) | now apply Hoth1]. }
    split.
    { intros c Hc. rewrite (Hff c Hc).
      destruct (string_dec c city) as [->|Hne];
        [now rewrite (Hfail2 Hc) | now apply Hoth2]. }
    split.
    { intros c [[[<- | Hin] Hc] | Hc]; apply Hcg.
      - right. now apply Hgot1.
      - left. now split.
      - right. now apply Hkeep1. }
    intros c [[[<- | Hin] Hc] | Hc]; apply Hfg.
    + right. now apply Hgot2.
    + left. now split.
    + right. now apply Hkeep2.
Qed.

(** X24: when every fetch of the run either fails at the transport level or
    delivers a JSON object, and the file system lets the artifacts be
    created, [extract_weather_data] returns normally; a city whose fetch of
    a kind fails has no artifact path of that kind, and every city whose
    fetch succeeds has one, naming a persisted file. *)
Theorem failed_city_never_aborts_batch (h : host) (w : world)
  (cities : list string) (key : string) :
  api_key_env w = Some key -> key <> "" ->
  (forall c, In c cities ->
     (fails h weather_url c key = true \/ delivers h weather_url c key) /\
     (fails h forecast_url c key = true \/ delivers h forecast_url c key)) ->
  (forall c, In c cities -> writable h c) ->
  exists current forecast w',
    Extract.extract_weather_data h cities w
    = (Ok (VDict [("current", VDict current); ("forecast", VDict forecast)]), w') /\
    forall c, In c cities ->
      (fails h weather_url c key = true -> assoc c current = None) /\
      (fails h forecast_url c key = true -> assoc c forecast = None) /\
      (fails h weather_url c key = false ->
         exists p, assoc c current = Some (VStr p) /\ file_exists p w') /\
      (fails h forecast_url c key = false ->
         exists p, assoc c forecast = Some (VStr p) /\ file_exists p w').
Proof.
  intros Hkey Hne Hok Hwr.
  destruct (@extract_loop_run h key cities [] [] (after_dotenv h w) Hok Hwr)
    as (cur & fc & w' & Hrun & Hrc & Hrf & Hcf & Hff & Hcg & Hfg);
    try (intros c v Hc; discriminate Hc).
  exists cur, fc, w'. split.
  - unfold Extract.extract_weather_data.
    now rewrite (bind_ok _ (@load_api_key_run h w key Hkey Hne)).
  - intros c Hin. split; [intros Hc; now rewrite (Hcf c Hc)|].
    split; [intros Hc; now rewrite (Hff c Hc)|]. split; intros Hc.
    + destruct (assoc c cur) as [v|] eqn:E.
      * destruct (Hrc c v E) as (p & -> & Hp). now exists p.
      * exfalso. apply (Hcg c); [left; now split | exact E].
    + destruct (assoc c fc) as [v|] eqn:E.
      * destruct (Hrf c v E) as (p & -> & Hp). now exists p.
      * exfalso. apply (Hfg c); [left; now split | exact E].
Qed.

Lemma non_object_reply_raises h url fetching msg city key status body w :
  http_get h url city key = Response status (BodyJson body) ->
  (400 <=? status) && (status <? 600) = false ->
  is_dict body = false ->
  exists w',
    Extract.fetch h url fetching msg city key w = (Raise TypeError, w')
    /\ files w' = files w.
Proof.
  intros Hget Hst Hbody. unfold Extract.fetch.
  unfold St.bind at 1. cbn [St.logger]. rewrite Hget, Hst.
  destruct body; try discriminate; cbn; eexists; split; reflexivity.
Qed.

(** C7: the claim fails.  Only the errors of the request are caught, inside
    the two fetch functions.  After a city whose fetches failed at the
    transport level and were skipped, a city whose reply is JSON but not an
    object makes [extract_weather_data] raise [TypeError]: no artifact path
    is returned for any city, nothing is persisted and the cities after it
    are never fetched. *)
Theorem malformed_reply_aborts_batch (h : host) (w : world)
  (key failing other : string) (rest : list string) (status : Z) (body : value) :
  api_key_env w = Some key -> key <> "" ->
  fails h weather_url failing key = true ->
  fails h forecast_url failing key = true ->
  http_get h weather_url other key = Response status (BodyJson body) ->
  (400 <=? status) && (status <? 600) = false ->
  is_dict body = false ->
  exists w',
    Extract.extract_weather_data h (failing :: other :: rest) w = (Raise TypeError, w')
    /\ files w' = files w.
Proof.
  intros Hkey Hne Hfw Hff Hget Hst Hbody.
  unfold Extract.extract_weather_data.
  rewrite (bind_ok _ (@load_api_key_run h w key Hkey Hne)).
  cbn [Extract.extract_loop]. unfold Extract.get_current_weather, Extract.get_forecast.
  destruct (@fetch_fails h weather_url "Fetching current weather data for {city}"
              "Error fetching data for {city}: {e}" failing key (after_dotenv h w) Hfw)
    as (w1 & Hrun1 & Hfiles1).
  unfold weather_url in Hrun1. rewrite (bind_ok _ Hrun1). cbn [Py.truthy].
  unfold St.bind at 1. cbn [St.ret].
  destruct (@fetch_fails h forecast_url "Fetching forecast data for {city}"
              "Error fetching forecast for {city}: {e}" failing key w1 Hff)
    as (w2 & Hrun2 & Hfiles2).
  unfold forecast_url in Hrun2. rewrite (bind_ok _ Hrun2). cbn [Py.truthy].
  unfold St.bind at 1. cbn [St.ret].
  destruct (@non_object_reply_raises h weather_url
              "Fetching current weather data for {city}"
              "Error fetching data for {city}: {e}" other key status body w2
              Hget Hst Hbody) as (w3 & Hrun3 & Hfiles3).
  unfold weather_url in Hrun3. unfold St.bind at 1. rewrite Hrun3.
  exists w3. split; [reflexivity|].
  now rewrite Hfiles3, Hfiles2, Hfiles1, files_after_dotenv.
Qed.

(* ================================================================= *)
(** ** The claims on sample runs *)

(** C1: an artifact that is not valid JSON makes [load_current_weather] and
    [load_forecast_data] raise, since [json.load] runs before their [try];
    [load_data_files] passes the exception on and never reaches the next
    artifact, which on its own would load. *)
Theorem malformed_artifact_aborts_batch :
  Load.load_current_weather utc_host (VStr "raw_data/current_a.json") truncated_world
  = (Raise JSONDecodeError, truncated_world)
  /\ Load.load_forecast_data utc_host (VStr "raw_data/forecast_a.json") truncated_world
     = (Raise JSONDecodeError, truncated_world)
  /\ Load.load_data_files utc_host truncated_batch truncated_world
     = (Raise JSONDecodeError, truncated_world)
  /\ log truncated_world = []
  /\ existing "current_weather" (tables truncated_world) = []
  /\ exists w',
       Load.load_data_files utc_host sound_batch truncated_world = (Ok tt, w')
       /\ List.length (existing "current_weather" (tables w')) = 1%nat.
Proof.
  split; [reflexivity|]. split; [reflexivity|]. split; [reflexivity|].
  split; [reflexivity|]. split; [reflexivity|].
  eexists. split; reflexivity.
Qed.


Lemma extreme_record_with_empty_column_raises_witness :
  assoc "forecast" (tables windless_world) = Some windless_rows
  /\ In (nth 0 windless_rows []) windless_rows
  /\ above (col (nth 0 windless_rows []) "temperature") (40 # 1)
  /\ (forall r, In r windless_rows -> col r "wind_speed" = SNull)
  /\ Transform.find_extreme_weather_events windless_world
     = (Raise TypeError, opened windless_world).
Proof.
  assert (Hin : In (nth 0 windless_rows []) windless_rows)
    by (vm_compute; left; reflexivity).
  assert (Hhot : above (col (nth 0 windless_rows []) "temperature") (40 # 1)).
  { exists (45 # 1)%Q. split; vm_compute; reflexivity. }
  assert (Hnull : forall r, In r windless_rows -> col r "wind_speed" = SNull).
  { intros r Hr. vm_compute in Hr. destruct Hr as [<- | []]. reflexivity. }
  split; [reflexivity|]. split; [exact Hin|]. split; [exact Hhot|].
  split; [exact Hnull|].
  apply (@extreme_record_with_empty_column_raises windless_world windless_rows
           (nth 0 windless_rows []) "wind_speed" eq_refl Hin
           (or_intror (or_introl Hhot))).
  - right. now left.
  - exact Hnull.
Defined.







Lemma same_artifact_loaded_twice_witness :
  assoc "raw_data/current_testville.json" (files dry_world)
  = Some (Json (VDict dry_observation))
  /\ Load.current_weather_values utc_host (VDict dry_observation) = Ok dry_vals
  /\ adapt_all dry_vals = Ok dry_cells
  /\ exists w1 w2,
       Load.load_current_weather utc_host (VStr "raw_data/current_testville.json")
         dry_world = (Ok tt, w1)
       /\ Load.load_current_weather utc_host (VStr "raw_data/current_testville.json")
            w1 = (Ok tt, w2)
       /\ assoc "current_weather" (tables w2)
          = Some [inserted 0 Load.current_weather_columns dry_cells;
                  inserted 1 Load.current_weather_columns dry_cells].
Proof.
  split; [reflexivity|]. split; [reflexivity|]. split; [reflexivity|].
  destruct (@same_artifact_loaded_twice utc_host "raw_data/current_testville.json"
              (VDict dry_observation) dry_world [] [] dry_vals dry_cells
              eq_refl eq_refl eq_refl eq_refl eq_refl)
    as (w1 & w2 & H1 & H2 & Hcw & _).
  exists w1, w2. split; [exact H1|]. split; [exact H2 | exact Hcw].
Defined.

Lemma absent_precipitation_loads_as_zero_witness :
  lacks rainy_observation "snow" "1h"
  /\ ~ lacks rainy_observation "rain" "1h"
  /\ Forall (fun r => col r "snow_1h" = SNum 0 /\ col r "snow_1h" <> SNull)
            (existing "current_weather" (tables rainy_loaded))
  /\ map (fun r => col r "rain_1h") (existing "current_weather" (tables rainy_loaded))
     = [SNum (5 # 2)]
  /\ map (fun r => (col r "rain_3h", col r "snow_3h"))
         (existing "forecast" (tables rainy_forecast_loaded))
     = [(SNum (6 # 5), SNum 0); (SNum 0, SNum 0)].
Proof.
  assert (Hl : lacks rainy_observation "snow" "1h") by (now left).
  split; [exact Hl|]. split.
  { intros [H | (b & H & Hk)]; [discriminate H|].
    injection H as <-. discriminate Hk. }
  destruct (@absent_precipitation_loads_as_zero utc_host "snow" rainy_observation
              rainy_forecast [rainy_entry; dry_entry] (or_intror eq_refl) eq_refl)
    as (Hobs & _).
  destruct (Hobs Hl) as (_ & _ & Hstored).
  split; [|split; vm_compute; reflexivity].
  apply (Hstored "raw_data/current_testville.json" rainy_world rainy_loaded []);
    reflexivity.
Defined.

Lemma malformed_reply_aborts_batch_witness :
  api_key_env sample_world = Some "key"
  /\ fails mixed_host weather_url "Atlantis" "key" = true
  /\ fails mixed_host forecast_url "Atlantis" "key" = true
  /\ exists w',
       Extract.extract_weather_data mixed_host ["Atlantis"; "Listville"; "Tokyo,jp"]
         sample_world
       = (Raise TypeError, w')
       /\ files w' = files sample_world.
Proof.
  split; [reflexivity|]. split; [reflexivity|]. split; [reflexivity|].
  assert (Hkey : "key" <> "") by discriminate.
  exact (@malformed_reply_aborts_batch mixed_host sample_world "key" "Atlantis"
           "Listville" ["Tokyo,jp"] 200 (VList []) eq_refl Hkey eq_refl eq_refl
           eq_refl eq_refl eq_refl).
Defined.

Lemma failed_city_never_aborts_batch_witness :
  api_key_env sample_world = Some "key"
  /\ fails utc_host weather_url "Atlantis" "key" = true
  /\ (forall c, In c ["London,uk"; "Atlantis"; "Tokyo,jp"] -> writable utc_host c)
  /\ exists current forecast w',
       Extract.extract_weather_data utc_host ["London,uk"; "Atlantis"; "Tokyo,jp"]
         sample_world
       = (Ok (VDict [("current", VDict current); ("forecast", VDict forecast)]), w')
       /\ assoc "Atlantis" current = None
       /\ assoc "Atlantis" forecast = None
       /\ (exists p, assoc "London,uk" current = Some (VStr p) /\ file_exists p w')
       /\ (exists p, assoc "Tokyo,jp" forecast = Some (VStr p) /\ file_exists p w').
Proof.
  split; [reflexivity|]. split; [reflexivity|].
  assert (Hok : forall c, In c ["London,uk"; "Atlantis"; "Tokyo,jp"] ->
            (fails utc_host weather_url c "key" = true
             \/ delivers utc_host weather_url c "key") /\
            (fails utc_host forecast_url c "key" = true
             \/ delivers utc_host forecast_url c "key")).
  { intros c [<- | [<- | [<- | []]]]; split;
      first [ left; reflexivity
            | right; eexists; eexists; split; reflexivity ]. }
  assert (Hwr : forall c, In c ["London,uk"; "Atlantis"; "Tokyo,jp"] ->
            writable utc_host c).
  { intros c [<- | [<- | [<- | []]]]; (split; [reflexivity|]);
      intros k t [<- | [<- | []]]; reflexivity. }
  split; [exact Hwr|].
  assert (Hkey : "key" <> "") by discriminate.
  destruct (@failed_city_never_aborts_batch utc_host sample_world
              ["London,uk"; "Atlantis"; "Tokyo,jp"] "key" eq_refl Hkey Hok Hwr)
    as (current & forecast & w' & Hrun & Hall).
  exists current, forecast, w'. split; [exact Hrun|].
  destruct (Hall "Atlantis" (or_intror (or_introl eq_refl))) as (A1 & A2 & _ & _).
  destruct (Hall "London,uk" (or_introl eq_refl)) as (_ & _ & L & _).
  destruct (Hall "Tokyo,jp" (or_intror (or_intror (or_introl eq_refl))))
    as (_ & _ & _ & T).
  split; [exact (A1 eq_refl)|]. split; [exact (A2 eq_refl)|].
  split; [exact (L eq_refl) | exact (T eq_refl)].
Defined.


(** The end-to-end scenario of the specification: one forecast slot at 45
    degrees gives one forecast record, one daily aggregate with maximum 45
    and one event described as "Extreme heat: 45.0°C". *)
Example testville_end_to_end :
  fst (Main.run_pipeline testville_host ["Testville,tv"] blank_world) = Ok tt
  /\ List.length (existing "forecast" (tables testville_world)) = 1%nat
  /\ map (fun r => col r "max_temp") (existing "daily_aggregates" (tables testville_world))
     = [SNum 45]
  /\ map (fun r => col r "event_description")
         (existing "extreme_weather_events" (tables testville_world))
     = [SText "Extreme heat: 45.0°C"].
Proof. repeat split; vm_compute; reflexivity. Qed.

(* ================================================================= *)
(** ** More on the loader *)

Lemma create_table_keeps name d c rows :
  assoc c d = Some rows -> assoc c (create_table_if_not_exists name d) = Some rows.
Proof.
  intros H. unfold create_table_if_not_exists.
  destruct (assoc name d); [exact H|]. now rewrite assoc_app, H.
Qed.

Lemma create_table_exists name d :
  assoc name (create_table_if_not_exists name d) <> None.
Proof.
  unfold create_table_if_not_exists. destruct (assoc name d) eqn:E.
  - rewrite E. discriminate.
  - rewrite assoc_app, E. simpl. rewrite String.eqb_refl. discriminate.
Qed.

Lemma create_table_noop name d :
  assoc name d <> None -> create_table_if_not_exists name d = d.
Proof.
  unfold create_table_if_not_exists. destruct (assoc name d); [reflexivity | congruence].
Qed.

Lemma create_table_keeps_exists name d c :
  assoc c d <> None -> assoc c (create_table_if_not_exists name d) <> None.
Proof.
  destruct (assoc c d) as [rows|] eqn:E; [|congruence].
  intros _. rewrite (create_table_keeps name _ _ E). discriminate.
Qed.

Lemma init_database_run w :
  exists w',
    Load.init_database w = (Ok tt, w') /\
    files w' = files w /\
    tables w'
    = create_table_if_not_exists "raw_data_files"
        (create_table_if_not_exists "forecast"
           (create_table_if_not_exists "current_weather" (tables w))).
Proof.
  unfold Load.init_database. rewrite (bind_ok _ (sqlite3_connect_run w)).
  cbn. eexists. split; [reflexivity|]. split; reflexivity.
Qed.

(** X1: [init_database] creates the three base tables, keeps every table
    and row that is already there, and running it again changes nothing. *)
Theorem init_database_idempotent (w : world) :
  exists w1 w2,
    Load.init_database w = (Ok tt, w1) /\
    Load.init_database w1 = (Ok tt, w2) /\
    tables w2 = tables w1 /\
    (forall name, In name base_tables -> assoc name (tables w1) <> None) /\
    (forall name rows, assoc name (tables w) = Some rows ->
                       assoc name (tables w1) = Some rows).
Proof.
  destruct (init_database_run w) as (w1 & H1 & _ & T1).
  destruct (init_database_run w1) as (w2 & H2 & _ & T2).
  exists w1, w2. split; [exact H1|]. split; [exact H2|].
  assert (Hall : forall name, In name base_tables -> assoc name (tables w1) <> None).
  { intros name Hin. rewrite T1.
    destruct Hin as [<- | [<- | [<- | []]]].
    - apply create_table_keeps_exists, create_table_keeps_exists, create_table_exists.
    - apply create_table_keeps_exists, create_table_exists.
    - apply create_table_exists. }
  split.
  - rewrite T2.
    rewrite (@create_table_noop "current_weather") by (apply Hall; simpl; auto).
    rewrite (@create_table_noop "forecast") by (apply Hall; simpl; auto).
    apply create_table_noop. apply Hall. simpl. auto.
  - split; [exact Hall|]. intros name rows Hn. rewrite T1.
    now apply create_table_keeps, create_table_keeps, create_table_keeps.
Qed.

Lemma inserted_raw_columns n p kind city t :
  col (inserted n Load.raw_data_files_columns [SText p; SText kind; city; STime t])
      "file_path" = SText p
  /\ col (inserted n Load.raw_data_files_columns [SText p; SText kind; city; STime t])
         "data_type" = SText kind.
Proof. split; reflexivity. Qed.

Lemma adapt_raw_params p kind city t rcells :
  adapt_all [VStr p; VStr kind; city; VDatetime t] = Ok rcells ->
  exists c, rcells = [SText p; SText kind; c; STime t].
Proof.
  simpl. destruct (adapt city) as [c|]; simpl; [|discriminate].
  intros [= <-]. now exists c.
Qed.

(** X2: on an artifact that parses, [load_current_weather] never raises and
    never touches the files; either nothing is stored and the error is
    logged, or exactly one observation row and one reference to the
    artifact are stored, and no other table changes. *)
Theorem load_current_weather_all_or_nothing h p data w :
  assoc p (files w) = Some (Json data) ->
  exists w',
    Load.load_current_weather h (VStr p) w = (Ok tt, w') /\
    files w' = files w /\
    ((tables w' = tables w /\
      exists e, log w' = log w ++ [Error "Error loading data from {file_path}: {e}"
                                         (VStr p) e])
     \/
     (exists cw raw r a,
        assoc "current_weather" (tables w) = Some cw /\
        assoc "raw_data_files" (tables w) = Some raw /\
        assoc "current_weather" (tables w') = Some (cw ++ [r]) /\
        assoc "raw_data_files" (tables w') = Some (raw ++ [a]) /\
        col a "file_path" = SText p /\ col a "data_type" = SText "current" /\
        forall name, name <> "current_weather" -> name <> "raw_data_files" ->
                     assoc name (tables w') = assoc name (tables w))).
Proof.
  intros Hfile.
  destruct (load_current_weather_cases h p w Hfile)
    as (w' & Hrun & Hfiles & [Hback | (vals & c1 & c2 & Hv & H1 & H2 & Ht & _)]).
  - exists w'. auto.
  - exists w'. split; [exact Hrun|]. split; [exact Hfiles|]. right.
    apply insert_into_inv in H1 as (cw & cells & Hcw & Hcells & ->).
    apply insert_into_inv in H2 as (raw & rcells & Hraw & Hrcells & ->).
    rewrite assoc_set_other in Hraw by discriminate.
    destruct (adapt_raw_params _ _ _ _ Hrcells) as (c & ->).
    eexists cw, raw, _, _. split; [exact Hcw|]. split; [exact Hraw|].
    rewrite Ht. split.
    { rewrite assoc_set_other, assoc_set_same by discriminate. reflexivity. }
    split; [now rewrite assoc_set_same|].
    split; [reflexivity|]. split; [reflexivity|].
    intros name N1 N2. now rewrite !assoc_set_other.
Qed.

Lemma existing_assoc_set name rows d : existing name (assoc_set name rows d) = rows.
Proof. unfold existing. now rewrite assoc_set_same. Qed.

Lemma insert_forecasts_grows h ra ci cn co entries :
  forall conn conn',
    Load.insert_forecasts h ra ci cn co entries conn = Ok conn' ->
    exists new,
      existing "forecast" conn' = existing "forecast" conn ++ new /\
      List.length new = List.length entries /\
      forall name, name <> "forecast" -> assoc name conn' = assoc name conn.
Proof.
  induction entries as [|e entries IH]; intros conn conn' Hrun.
  - injection Hrun as <-. exists []. rewrite app_nil_r. auto.
  - simpl in Hrun.
    destruct (Load.forecast_values h ra ci cn co e) as [vals|];
      cbn [Py.bind] in Hrun; [|discriminate].
    destruct (insert_into "forecast" Load.forecast_columns vals conn) as [conn1|] eqn:Ei;
      cbn [Py.bind] in Hrun; [|discriminate].
    apply insert_into_inv in Ei as (rows & cells & Hrows & _ & ->).
    destruct (IH _ _ Hrun) as (new & Hnew & Hlen & Hother).
    rewrite existing_assoc_set in Hnew.
    exists (inserted (List.length rows) Load.forecast_columns cells :: new).
    split.
    { rewrite Hnew. unfold existing. rewrite Hrows, <- app_assoc. reflexivity. }
    split; [simpl; now rewrite Hlen|].
    intros name Hn. rewrite (Hother name Hn). now apply assoc_set_other.
Qed.

(** X3: on an artifact that parses, [load_forecast_data] never raises;
    either nothing at all is stored and the error is logged, or one row per
    entry of the forecast list and one reference to the artifact are stored:
    no part of a forecast list is ever stored alone. *)
Theorem load_forecast_data_all_or_nothing h p doc entries w :
  assoc p (files w) = Some (Json doc) ->
  Py.get doc "list" (VList []) = Ok (VList entries) ->
  exists w',
    Load.load_forecast_data h (VStr p) w = (Ok tt, w') /\
    files w' = files w /\
    ((tables w' = tables w /\
      exists e, log w' = log w ++ [Error "Error loading forecast data from {file_path}: {e}"
                                         (VStr p) e])
     \/
     (exists new raw a,
        existing "forecast" (tables w') = existing "forecast" (tables w) ++ new /\
        List.length new = List.length entries /\
        assoc "raw_data_files" (tables w) = Some raw /\
        assoc "raw_data_files" (tables w') = Some (raw ++ [a]) /\
        col a "file_path" = SText p /\ col a "data_type" = SText "forecast" /\
        assoc "current_weather" (tables w') = assoc "current_weather" (tables w))).
Proof.
  intros Hfile Hlist.
  destruct (load_forecast_data_cases h p w Hfile)
    as (w' & Hrun & Hfiles & [Hback | C]).
  - exists w'. auto.
  - exists w'. split; [exact Hrun|]. split; [exact Hfiles|]. right.
    destruct C as (ra & cd & ci & cn & co & l & es & c1 & c2
                   & _ & _ & _ & _ & _ & Hl & Hit & Hins & H2 & Ht & _).
    rewrite Hlist in Hl. injection Hl as <-. simpl in Hit. injection Hit as <-.
    destruct (insert_forecasts_grows _ _ _ _ _ _ _ Hins) as (new & Hnew & Hlen & Hother).
    apply insert_into_inv in H2 as (raw & rcells & Hraw & Hrcells & ->).
    destruct (adapt_raw_params _ _ _ _ Hrcells) as (c & ->).
    eexists new, raw, _. rewrite Ht.
    split. { unfold existing at 1. rewrite assoc_set_other by discriminate. exact Hnew. }
    split; [exact Hlen|].
    split. { rewrite <- (Hother "raw_data_files") by discriminate. exact Hraw. }
    split; [now rewrite assoc_set_same|].
    split; [reflexivity|]. split; [reflexivity|].
    rewrite assoc_set_other by discriminate. apply Hother. discriminate.
Qed.

(** X4: an artifact that is missing or is not JSON makes both loaders raise
    before anything is logged or stored, and [load_data_files] raises with
    them when it is the first artifact of the batch. *)
Theorem unreadable_artifact_raises h p w :
  unreadable p w ->
  Load.load_current_weather h (VStr p) w = (Raise (read_error p w), w)
  /\ Load.load_forecast_data h (VStr p) w = (Raise (read_error p w), w)
  /\ forall results city rest,
       db w <> None ->
       Py.get results "current" (VDict []) = Ok (VDict ((city, VStr p) :: rest)) ->
       Load.load_data_files h results w = (Raise (read_error p w), w).
Proof.
  intros Hbad.
  assert (Hopen : open_json_load (VStr p) w = (Raise (read_error p w), w)).
  { unfold open_json_load, read_error. destruct Hbad as [-> | ->]; reflexivity. }
  assert (H1 : Load.load_current_weather h (VStr p) w = (Raise (read_error p w), w)).
  { unfold Load.load_current_weather, St.bind at 1. now rewrite Hopen. }
  split; [exact H1|]. split.
  - unfold Load.load_forecast_data, St.bind at 1. now rewrite Hopen.
  - intros results city rest Hdb Hget. unfold Load.load_data_files.
    unfold St.bind at 1. unfold Load.os_path_exists_db.
    destruct (db w) as [d|] eqn:Ed; [|congruence].
    unfold St.bind at 1. cbn [St.ret].
    unfold St.bind at 1. unfold St.lift at 1. rewrite Hget. cbn [Py.bind Py.items].
    unfold St.bind at 1. cbn [St.for_each snd].
    unfold St.bind at 1. now rewrite H1.
Qed.

Lemma load_current_weather_without_tables h p data w :
  assoc p (files w) = Some (Json data) ->
  assoc "raw_data_files" (tables w) = None ->
  exists w' e,
    Load.load_current_weather h (VStr p) w = (Ok tt, w') /\
    files w' = files w /\ tables w' = tables w /\
    log w' = log w ++ [Error "Error loading data from {file_path}: {e}" (VStr p) e].
Proof.
  intros Hfile Hnone.
  destruct (load_current_weather_cases h p w Hfile)
    as (w' & Hrun & Hfiles & [(Hsame & e & Hlog) | (vals & c1 & c2 & _ & H1 & H2 & _)]).
  - now exists w', e.
  - exfalso. apply insert_into_inv in H1 as (cw & cells & _ & _ & ->).
    apply insert_into_inv in H2 as (raw & _ & Hraw & _).
    rewrite assoc_set_other in Hraw by discriminate. congruence.
Qed.

Lemma load_forecast_data_without_tables h p data w :
  assoc p (files w) = Some (Json data) ->
  assoc "raw_data_files" (tables w) = None ->
  exists w' e,
    Load.load_forecast_data h (VStr p) w = (Ok tt, w') /\
    files w' = files w /\ tables w' = tables w /\
    log w' = log w ++ [Error "Error loading forecast data from {file_path}: {e}"
                             (VStr p) e].
Proof.
  intros Hfile Hnone.
  destruct (load_forecast_data_cases h p w Hfile)
    as (w' & Hrun & Hfiles & [(Hsame & e & Hlog) | C]).
  - now exists w', e.
  - exfalso.
    destruct C as (ra & cd & ci & cn & co & l & es & c1 & c2
                   & _ & _ & _ & _ & _ & _ & _ & Hins & H2 & _).
    destruct (insert_forecasts_grows _ _ _ _ _ _ _ Hins) as (new & _ & _ & Hother).
    apply insert_into_inv in H2 as (raw & _ & Hraw & _).
    rewrite Hother in Hraw by discriminate. congruence.
Qed.

Lemma for_each_rolled_back (load : value -> M unit) (d : database)
  (fs : list (string * file)) (items : list (string * value)) :
  (forall w0 city v,
     In (city, v) items -> files w0 = fs -> tables w0 = d ->
     exists w1 e,
       load v w0 = (Ok tt, w1) /\ files w1 = fs /\ tables w1 = d /\
       log w1 = log w0 ++ [e] /\ is_error e = true) ->
  forall w,
    files w = fs -> tables w = d ->
    exists w' errors,
      St.for_each items (fun city_file => load (snd city_file)) w = (Ok tt, w') /\
      files w' = fs /\ tables w' = d /\
      log w' = log w ++ errors /\
      List.length errors = List.length items /\
      forallb is_error errors = true.
Proof.
  induction items as [|[city v] items IH]; intros Hstep w Hf Ht.
  - exists w, []. simpl. rewrite app_nil_r. repeat split; auto.
  - destruct (Hstep w city v (or_introl eq_refl) Hf Ht) as (w1 & e & Hrun & Hf1 & Ht1 & Hl1 & He).
    destruct (IH (fun w0 c x Hin => Hstep w0 c x (or_intror Hin)) w1 Hf1 Ht1)
      as (w' & errors & Hrest & Hf' & Ht' & Hl' & Hlen & Hall).
    exists w', (e :: errors). cbn [St.for_each snd].
    rewrite (bind_ok _ Hrun). split; [exact Hrest|].
    split; [exact Hf'|]. split; [exact Ht'|].
    split. { rewrite Hl', Hl1, <- app_assoc. reflexivity. }
    split; [simpl; now rewrite Hlen|]. simpl. now rewrite He, Hall.
Qed.

(** X5: [load_data_files] initialises the database only when the file is
    absent.  On a database file that exists without the tables, every
    artifact of the batch is rolled back with a logged error, nothing is
    stored, and the call still returns normally. *)
Theorem uninitialised_database_stores_nothing h w d results current forecast :
  db w = Some d ->
  assoc "raw_data_files" d = None ->
  Py.get results "current" (VDict []) = Ok (VDict current) ->
  Py.get results "forecast" (VDict []) = Ok (VDict forecast) ->
  all_parse (current ++ forecast) w ->
  exists w' errors,
    Load.load_data_files h results w = (Ok tt, w') /\
    tables w' = d /\
    log w' = log w ++ errors /\
    List.length errors = (List.length current + List.length forecast)%nat /\
    forallb is_error errors = true.
Proof.
  intros Hdb Hraw Hcur Hfc Hparse.
  assert (Ht : tables w = d) by (unfold tables; now rewrite Hdb).
  destruct (@for_each_rolled_back (Load.load_current_weather h) d (files w) current)
    with (w := w) as (w1 & e1 & Hrun1 & Hf1 & Ht1 & Hl1 & Hn1 & Ha1); auto.
  { intros w0 city v Hin Hf0 Ht0.
    destruct (Hparse city v (in_or_app _ _ _ (or_introl Hin))) as (p & doc & -> & Hp).
    rewrite <- Hf0 in Hp. rewrite <- Ht0 in Hraw.
    destruct (load_current_weather_without_tables h p w0 Hp Hraw)
      as (w1 & e & Hrun & Hf & Htab & Hlog).
    exists w1, (Error "Error loading data from {file_path}: {e}" (VStr p) e).
    rewrite Hf, Htab. auto. }
  destruct (@for_each_rolled_back (Load.load_forecast_data h) d (files w) forecast)
    with (w := w1) as (w2 & e2 & Hrun2 & Hf2 & Ht2 & Hl2 & Hn2 & Ha2); auto.
  { intros w0 city v Hin Hf0 Ht0.
    destruct (Hparse city v (in_or_app _ _ _ (or_intror Hin))) as (p & doc & -> & Hp).
    rewrite <- Hf0 in Hp. rewrite <- Ht0 in Hraw.
    destruct (load_forecast_data_without_tables h p w0 Hp Hraw)
      as (w3 & e & Hrun & Hf & Htab & Hlog).
    exists w3, (Error "Error loading forecast data from {file_path}: {e}" (VStr p) e).
    rewrite Hf, Htab. auto. }
  exists w2, (e1 ++ e2). split.
  - unfold Load.load_data_files.
    unfold St.bind at 1. unfold Load.os_path_exists_db. rewrite Hdb.
    unfold St.bind at 1. cbn [St.ret].
    unfold St.bind at 1. unfold St.lift at 1. rewrite Hcur. cbn [Py.bind Py.items].
    rewrite (bind_ok _ Hrun1).
    unfold St.bind at 1. unfold St.lift at 1. rewrite Hfc. cbn [Py.bind Py.items].
    exact Hrun2.
  - split; [exact Ht2|]. split; [now rewrite Hl2, Hl1, app_assoc|].
    split; [rewrite length_app; now rewrite Hn1, Hn2|].
    rewrite forallb_app. now rewrite Ha1, Ha2.
Qed.

Lemma get_in_not_dict data block v key default :
  assoc block data = Some v -> is_dict v = false ->
  Load.get_in (VDict data) block key default = Raise AttributeError.
Proof.
  intros Hb Hv. unfold Load.get_in, Py.get. rewrite Hb. cbn [Py.bind].
  destruct v; try reflexivity. discriminate.
Qed.

Lemma current_weather_values_bad_block h data block v :
  In block observation_blocks ->
  assoc block data = Some v -> is_dict v = false ->
  exists e, Load.current_weather_values h (VDict data) = Raise e.
Proof.
  intros Hin Hb Hv.
  destruct (Load.current_weather_values h (VDict data)) as [vals|e] eqn:H;
    [exfalso | now exists e].
  unfold Load.current_weather_values in H.
  pose proof (fun key default => @get_in_not_dict data block v key default Hb Hv) as L.
  destruct Hin as [<- | [<- | [<- | [<- | [<- | [<- | [<- | []]]]]]]];
    rewrite !L in H; invert_binds H;
    match goal with
    | E : Raise _ = Ok _ |- _ => discriminate E
    end.
Qed.

(** X6: the defaults of [load_current_weather] apply to absent keys only.
    A block that is present but is not an object (an explicit null, say)
    makes the artifact fail: nothing is stored and the error is logged. *)
Theorem non_object_block_is_rolled_back h p data block v w :
  assoc p (files w) = Some (Json (VDict data)) ->
  In block observation_blocks ->
  assoc block data = Some v -> is_dict v = false ->
  exists w' e,
    Load.load_current_weather h (VStr p) w = (Ok tt, w') /\
    tables w' = tables w /\
    log w' = log w ++ [Error "Error loading data from {file_path}: {e}" (VStr p) e].
Proof.
  intros Hfile Hin Hb Hv.
  destruct (current_weather_values_bad_block h data Hin Hb Hv) as (e0 & He0).
  destruct (load_current_weather_cases h p w Hfile)
    as (w' & Hrun & _ & [(Hsame & e & Hlog) | (vals & c1 & c2 & Hvals & _)]).
  - now exists w', e.
  - congruence.
Qed.

Lemma fromtimestamp_zero h t :
  Load.fromtimestamp h (VInt 0) = Ok t -> t = VDatetime (1000000 * utcoffset h 0).
Proof.
  unfold Load.fromtimestamp. cbn [Load.posix_micros].
  change (0 * 1000000) with 0. change (0 / 1000000) with 0. rewrite Z.add_0_l.
  destruct (_ && _); [now intros [= <-] | discriminate].
Qed.

Lemma current_weather_values_no_dt h data vals :
  assoc "dt" data = None ->
  Load.current_weather_values h (VDict data) = Ok vals ->
  nth 18 vals VNone = VDatetime (1000000 * utcoffset h 0).
Proof.
  intros Hdt H. unfold Load.current_weather_values in H.
  assert (G : Py.get (VDict data) "dt" (VInt 0) = Ok (VInt 0))
    by (unfold Py.get; now rewrite Hdt).
  rewrite G in H. invert_binds H. injection H as <-.
  cbn [nth].
  match goal with
  | E : Load.fromtimestamp h (VInt 0) = Ok ?t |- ?t = _ =>
      exact (fromtimestamp_zero h E)
  end.
Qed.

Lemma inserted_observation_timestamp n cells t :
  nth 18 cells SNull = STime t ->
  col (inserted n Load.current_weather_columns cells) "timestamp" = STime t.
Proof.
  intros H18.
  do 19 (destruct cells as [|? cells]; [simpl in *; discriminate|]).
  simpl in H18. subst. reflexivity.
Qed.

(** X7: an observation without the [dt] field is not rejected and its
    timestamp is not NULL: the row it adds is stamped with the epoch
    (1970-01-01 00:00:00 UTC, in local time). *)
Theorem missing_dt_is_stored_as_epoch h p data w w' old new :
  assoc p (files w) = Some (Json (VDict data)) ->
  assoc "dt" data = None ->
  Load.load_current_weather h (VStr p) w = (Ok tt, w') ->
  assoc "current_weather" (tables w) = Some old ->
  assoc "current_weather" (tables w') = Some (old ++ new) ->
  Forall (fun r => col r "timestamp" = STime (1000000 * utcoffset h 0)) new.
Proof.
  intros Hfile Hdt Hrun Hold Hnew.
  destruct (load_current_weather_cases h p w Hfile)
    as (w1 & Hrun1 & _ & [(Hsame & _) | (vals & c1 & c2 & Hv & H1 & H2 & Ht & _)]);
    rewrite Hrun in Hrun1; injection Hrun1 as <-.
  - rewrite Hsame, Hold in Hnew. injection Hnew as Hnew.
    apply app_eq_self in Hnew. subst new. constructor.
  - apply insert_into_inv in H1 as (rows & cells & Hrows & Hcells & ->).
    apply insert_into_inv in H2 as (raw & rcells & _ & _ & ->).
    rewrite Hold in Hrows. injection Hrows as <-.
    rewrite Ht, assoc_set_other, assoc_set_same in Hnew by discriminate.
    injection Hnew as Hnew. apply app_inv_head in Hnew. subst new.
    constructor; [|constructor].
    apply (@inserted_observation_timestamp (List.length old)).
    pose proof (@adapt_all_nth _ _ 18 Hcells) as H18.
    rewrite (current_weather_values_no_dt h data Hdt Hv) in H18.
    simpl in H18. now injection H18 as <-.
Qed.

(* ================================================================= *)
(** ** More on the transformations *)

Lemma sql_compare_antisym a b : sql_compare b a = CompOpp (sql_compare a b).
Proof.
  destruct a, b; simpl; try reflexivity.
  - symmetry. apply Qcompare_antisym.
  - apply String.compare_antisym.
  - apply Z.compare_antisym.
Qed.

Lemma row_compare_antisym by_cols a b :
  row_compare by_cols b a = CompOpp (row_compare by_cols a b).
Proof.
  induction by_cols as [|c cs IH]; simpl; [reflexivity|].
  rewrite (sql_compare_antisym (col a c) (col b c)).
  destruct (sql_compare (col a c) (col b c)); simpl; [exact IH | reflexivity | reflexivity].
Qed.

Lemma insert_sorted_HdRel by_cols x r rows :
  row_le by_cols x r -> HdRel (row_le by_cols) x rows ->
  HdRel (row_le by_cols) x (insert_sorted by_cols r rows).
Proof.
  intros Hxr Hhd. destruct rows as [|y rest]; simpl.
  - now constructor.
  - inversion Hhd; subst. destruct (row_compare by_cols r y); now constructor.
Qed.

Lemma insert_sorted_Sorted by_cols r rows :
  Sorted (row_le by_cols) rows -> Sorted (row_le by_cols) (insert_sorted by_cols r rows).
Proof.
  induction 1 as [|x rest Hs IH Hhd]; simpl.
  - repeat constructor.
  - assert (Hopp := row_compare_antisym by_cols r x).
    destruct (row_compare by_cols r x) eqn:E.
    + constructor; [exact IH|]. apply insert_sorted_HdRel; [|exact Hhd].
      unfold row_le. rewrite Hopp. discriminate.
    + constructor; [now constructor|]. constructor. unfold row_le. rewrite E. discriminate.
    + constructor; [exact IH|]. apply insert_sorted_HdRel; [|exact Hhd].
      unfold row_le. rewrite Hopp. discriminate.
Qed.

Lemma order_by_Sorted by_cols rows : Sorted (row_le by_cols) (order_by by_cols rows).
Proof.
  unfold order_by.
  assert (G : forall acc, Sorted (row_le by_cols) acc ->
                          Sorted (row_le by_cols)
                            (fold_left (fun acc r => insert_sorted by_cols r acc) rows acc)).
  { induction rows as [|r rest IH]; intros acc Hacc; simpl; [exact Hacc|].
    apply IH. now apply insert_sorted_Sorted. }
  apply G. constructor.
Qed.

(** X8: [get_forecast_data] returns every row of the forecast table
    exactly once, ordered by city name and then forecast time, and does
    not change the database; without the table it raises. *)
Theorem get_forecast_data_is_ordered_table (w : world) :
  match assoc "forecast" (tables w) with
  | Some rows =>
      exists df w',
        Transform.get_forecast_data w = (Ok df, w') /\
        Permutation df rows /\
        Sorted (row_le ["city_name"; "forecast_time"]) df /\
        tables w' = tables w
  | None =>
      exists w', Transform.get_forecast_data w = (Raise DatabaseError, w')
                 /\ tables w' = tables w
  end.
Proof.
  destruct (assoc "forecast" (tables w)) as [rows|] eqn:E.
  - exists (order_by ["city_name"; "forecast_time"] rows), (opened w).
    split; [now apply get_forecast_data_run|].
    split; [apply order_by_perm|]. split; [apply order_by_Sorted | reflexivity].
  - exists (opened w). split; [|reflexivity].
    unfold Transform.get_forecast_data, St.bind.
    rewrite sqlite3_connect_run. unfold St.lift, Transform.select_all.
    change (tables (opened w)) with (tables w). now rewrite E.
Qed.

(** X9: [get_current_weather_data] returns every observation exactly once,
    ordered by city name and then timestamp, and does not change the
    database; without the table it raises. *)
Theorem get_current_weather_data_is_ordered_table (w : world) :
  match assoc "current_weather" (tables w) with
  | Some rows =>
      exists df w',
        get_current_weather_data w = (Ok df, w') /\
        Permutation df rows /\
        Sorted (row_le ["city_name"; "timestamp"]) df /\
        tables w' = tables w
  | None =>
      exists w', get_current_weather_data w = (Raise DatabaseError, w')
                 /\ tables w' = tables w
  end.
Proof.
  destruct (assoc "current_weather" (tables w)) as [rows|] eqn:E.
  - exists (order_by ["city_name"; "timestamp"] rows), (opened w).
    split.
    { unfold get_current_weather_data, St.bind.
      rewrite sqlite3_connect_run. unfold St.lift, Transform.select_all.
      change (tables (opened w)) with (tables w). now rewrite E. }
    split; [apply order_by_perm|]. split; [apply order_by_Sorted | reflexivity].
  - exists (opened w). split; [|reflexivity].
    unfold get_current_weather_data, St.bind.
    rewrite sqlite3_connect_run. unfold St.lift, Transform.select_all.
    change (tables (opened w)) with (tables w). now rewrite E.
Qed.

(** X10: [store_transformed_data] never raises; afterwards the table holds
    what it held before followed by the frame (it is created when absent),
    and no other table has changed. *)
Theorem store_transformed_data_appends (df : list row) (name : string) (w : world) :
  exists w',
    Transform.store_transformed_data df name w = (Ok tt, w') /\
    Transform.select_all name (tables w') = Ok (existing name (tables w) ++ df) /\
    forall other, other <> name -> assoc other (tables w') = assoc other (tables w).
Proof.
  destruct (store_transformed_data_run df name w) as (w' & Hrun & Ht & _).
  exists w'. split; [exact Hrun|]. rewrite Ht. split.
  - unfold Transform.select_all. now rewrite store_same.
  - intros other Hne. now apply store_other.
Qed.

Lemma store_events_other events d c :
  c <> "extreme_weather_events" -> assoc c (store_events events d) = assoc c d.
Proof.
  intros Hc. destruct events; [reflexivity|]. now apply store_other.
Qed.

Lemma existing_store_same name df d : existing name (store name df d) = existing name d ++ df.
Proof. unfold existing at 1. now rewrite store_same. Qed.

Lemma existing_store_other name df d c :
  c <> name -> existing c (store name df d) = existing c d.
Proof. intros Hc. unfold existing. now rewrite store_other. Qed.

Lemma existing_store_events events d :
  existing "extreme_weather_events" (store_events events d)
  = existing "extreme_weather_events" d ++ events.
Proof.
  destruct events as [|e events]; simpl; [now rewrite app_nil_r|].
  apply existing_store_same.
Qed.

Lemma existing_store_events_other events d c :
  c <> "extreme_weather_events" -> existing c (store_events events d) = existing c d.
Proof. intros Hc. unfold existing. now rewrite store_events_other. Qed.

Lemma measured_numbers_returns rows :
  measured_numbers rows -> any_extreme rows = false \/ complete_columns rows = true.
Proof.
  intros H. destruct rows as [|r rows]; [now left|]. right.
  unfold complete_columns. apply forallb_forall. intros c Hc.
  destruct (H r c (or_introl eq_refl) Hc) as (q & Hq).
  apply (@holds_number_In _ r c q); [now left | now rewrite Hq].
Qed.

(** One pass over an existing forecast table, when the loop over the
    extreme records meets no empty column. *)
Lemma run_transformations_run w rows :
  assoc "forecast" (tables w) = Some rows ->
  any_extreme rows = false \/ complete_columns rows = true ->
  exists w',
    Transform.run_transformations w = (Ok tt, w') /\
    tables w' = transformed rows (tables w).
Proof.
  intros Hrows Hret.
  set (w0 := mkWorld (api_key_env w) (files w) (db w) (clock w)
               (log w ++ [Info "Starting data transformations" VNone]) (trace w)).
  assert (H0 : assoc "forecast" (tables w0) = Some rows) by exact Hrows.
  destruct (store_transformed_data_run (daily_frame rows) "daily_aggregates" (opened w0))
    as (w1 & Hs1 & Ht1 & _).
  change (tables (opened w0)) with (tables w) in Ht1.
  assert (H1 : assoc "forecast" (tables w1) = Some rows).
  { rewrite Ht1, store_other by discriminate. exact Hrows. }
  destruct (store_transformed_data_run (anomaly_frame rows) "temperature_anomalies"
              (opened w1)) as (w2 & Hs2 & Ht2 & _).
  change (tables (opened w1)) with (tables w1) in Ht2.
  assert (H2 : assoc "forecast" (tables w2) = Some rows).
  { rewrite Ht2, store_other by discriminate. exact H1. }
  pose proof (find_extreme_weather_events_returns _ H2 Hret) as Hev.
  unfold transformed. rewrite <- Ht1, <- Ht2.
  destruct (event_frame rows) as [|ev evs] eqn:Eev.
  - eexists. split.
    + unfold Transform.run_transformations.
      rewrite (bind_ok _ (w := w) (w' := w0) (a := tt)) by reflexivity.
      unfold St.try_except.
      rewrite (bind_ok _ (calculate_daily_aggregates_run _ H0)).
      rewrite (bind_ok _ Hs1).
      rewrite (bind_ok _ (calculate_temperature_anomalies_run _ H1)).
      rewrite (bind_ok _ Hs2).
      rewrite (bind_ok _ Hev). cbn. reflexivity.
    + reflexivity.
  - destruct (store_transformed_data_run (ev :: evs) "extreme_weather_events" (opened w2))
      as (w3 & Hs3 & Ht3 & _).
    change (tables (opened w2)) with (tables w2) in Ht3.
    eexists. split.
    + unfold Transform.run_transformations.
      rewrite (bind_ok _ (w := w) (w' := w0) (a := tt)) by reflexivity.
      unfold St.try_except.
      rewrite (bind_ok _ (calculate_daily_aggregates_run _ H0)).
      rewrite (bind_ok _ Hs1).
      rewrite (bind_ok _ (calculate_temperature_anomalies_run _ H1)).
      rewrite (bind_ok _ Hs2).
      rewrite (bind_ok _ Hev).
      rewrite (bind_ok _ Hs3). cbn. reflexivity.
    + cbn. exact Ht3.
Qed.

Lemma transformed_forecast rows d :
  assoc "forecast" (transformed rows d) = assoc "forecast" d.
Proof.
  unfold transformed.
  now rewrite store_events_other, !store_other by discriminate.
Qed.

Lemma existing_transformed rows d name :
  In name derived_tables ->
  existing name (transformed rows d) = existing name d ++ derived_frame rows name.
Proof.
  unfold transformed. intros [<- | [<- | [<- | []]]].
  - change (derived_frame rows "daily_aggregates") with (daily_frame rows).
    rewrite existing_store_events_other, existing_store_other by discriminate.
    apply existing_store_same.
  - change (derived_frame rows "temperature_anomalies") with (anomaly_frame rows).
    rewrite existing_store_events_other by discriminate.
    rewrite existing_store_same. now rewrite existing_store_other by discriminate.
  - change (derived_frame rows "extreme_weather_events") with (event_frame rows).
    rewrite existing_store_events, !existing_store_other by discriminate. reflexivity.
Qed.

(** X11: the derived tables are appended to, never replaced: a second pass
    over an unchanged forecast table stores every derived row a second
    time.  (Stated for tables whose measurements are numbers, on which
    pandas computes without an error.) *)
Theorem second_pass_duplicates_derived_rows (w : world) (rows : list row) :
  assoc "forecast" (tables w) = Some rows ->
  measured_numbers rows ->
  exists w1 w2,
    Transform.run_transformations w = (Ok tt, w1) /\
    Transform.run_transformations w1 = (Ok tt, w2) /\
    assoc "forecast" (tables w2) = Some rows /\
    forall name, In name derived_tables ->
      existing name (tables w2)
      = existing name (tables w) ++ derived_frame rows name ++ derived_frame rows name.
Proof.
  intros Hrows Hnum. apply measured_numbers_returns in Hnum.
  destruct (run_transformations_run w Hrows Hnum) as (w1 & Hrun1 & Ht1).
  assert (Hrows1 : assoc "forecast" (tables w1) = Some rows)
    by (rewrite Ht1, transformed_forecast; exact Hrows).
  destruct (run_transformations_run w1 Hrows1 Hnum) as (w2 & Hrun2 & Ht2).
  exists w1, w2. split; [exact Hrun1|]. split; [exact Hrun2|].
  split. { rewrite Ht2, transformed_forecast. exact Hrows1. }
  intros name Hin.
  rewrite Ht2, (existing_transformed _ _ Hin), Ht1, (existing_transformed _ _ Hin).
  now rewrite <- app_assoc.
Qed.

(** X12: without a forecast table [run_transformations] logs the failure of
    the first derivation and raises it again; no derived table is created
    or written. *)
Theorem missing_forecast_table_aborts_transformations (w : world) :
  assoc "forecast" (tables w) = None ->
  exists w',
    Transform.run_transformations w = (Raise DatabaseError, w') /\
    tables w' = tables w /\ trace w' = trace w /\
    log w' = log w ++ [Info "Starting data transformations" VNone;
                       Error "Error during data transformations: {e}" VNone
                             DatabaseError].
Proof.
  intros Hnone. eexists. split.
  - unfold Transform.run_transformations.
    unfold St.bind at 1. cbn [St.logger]. unfold St.try_except.
    unfold St.bind at 1.
    unfold Transform.calculate_daily_aggregates, St.bind at 1.
    rewrite sqlite3_connect_run. unfold St.bind at 1.
    unfold St.lift, Transform.select_all.
    change (tables (opened ?x)) with (tables x).
    unfold tables at 1. cbn [db]. fold (tables w). rewrite Hnone.
    cbn. reflexivity.
  - cbn. split; [reflexivity|]. split; [reflexivity|].
    now rewrite <- app_assoc.
Qed.

(* ================================================================= *)
(** ** More on the extraction *)

Lemma replace_spaces_no_space s : has_space (Extract.replace_spaces s) = false.
Proof.
  unfold has_space. induction s as [|c s IH]; [reflexivity|].
  cbn [Extract.replace_spaces list_ascii_of_string existsb]. rewrite IH, orb_false_r.
  destruct (Ascii.eqb c " ") eqn:E; [reflexivity | exact E].
Qed.

(** X13: [save_raw_data] either raises what [os.makedirs] or [open] raises,
    leaving the files and the log as they were, or writes exactly the file
    it names, raw_data/<kind>_<city>_<time>.json, where <city> is the
    lower-cased text before the first comma with its spaces replaced, and
    holds no space; no other file and no table changes. *)
Theorem artifact_name_is_sanitised h data data_type city w :
  exists r w',
    Extract.save_raw_data h data data_type city w = (r, w') /\
    db w' = db w /\
    has_space (Extract.clean h city) = false /\
    match r with
    | Ok path =>
        path = ("raw_data/" ++ data_type ++ "_" ++ Extract.clean h city
                  ++ "_" ++ strftime h (wall h (clock w)) ++ ".json")%string
        /\ makedirs h "raw_data" = None /\ open_w h path = None
        /\ assoc path (files w') = Some (Json data)
        /\ forall p, p <> path -> assoc p (files w') = assoc p (files w)
    | Raise e =>
        files w' = files w /\ log w' = log w
        /\ (makedirs h "raw_data" = Some e \/ exists path, open_w h path = Some e)
    end.
Proof.
  rewrite save_raw_data_cases.
  destruct (makedirs h "raw_data") as [e|] eqn:Edir.
  { eexists. eexists. split; [reflexivity|]. split; [reflexivity|].
    split; [apply replace_spaces_no_space|]. cbn. auto. }
  destruct (open_w h (artifact_path h data_type city (wall h (clock w)))) as [e|] eqn:Eopen.
  { eexists. eexists. split; [reflexivity|]. split; [reflexivity|].
    split; [apply replace_spaces_no_space|]. cbn. repeat split. right. eauto. }
  eexists. eexists. split; [reflexivity|]. split; [reflexivity|].
  split; [apply replace_spaces_no_space|].
  split; [reflexivity|]. split; [reflexivity|]. split; [exact Eopen|]. cbn [files saved].
  split; [apply assoc_set_same|]. intros p Hp. now apply assoc_set_other.
Qed.

(** X15: artifact names are not unique.  Two cities that are alike up to
    case, spaces and the country suffix, saved for the same kind within the
    same second, get the same path, and the second artifact replaces the
    first (the file system letting the artifact be created). *)
Theorem same_second_artifacts_collide h data1 data2 data_type city1 city2 w :
  Extract.clean h city1 = Extract.clean h city2 ->
  strftime h (wall h (clock w)) = strftime h (wall h (S (clock w))) ->
  makedirs h "raw_data" = None ->
  open_w h (artifact_path h data_type city1 (wall h (clock w))) = None ->
  exists path w1 w2,
    Extract.save_raw_data h data1 data_type city1 w = (Ok path, w1)
    /\ Extract.save_raw_data h data2 data_type city2 w1 = (Ok path, w2)
    /\ assoc path (files w2) = Some (Json data2).
Proof.
  intros Hcity Hsec Hdir Hopen.
  destruct (save_raw_data_ok h data1 data_type city1 w Hdir Hopen)
    as (w1 & H1 & _ & Hc1 & _).
  assert (Hsame : artifact_path h data_type city2 (wall h (clock w1))
                  = artifact_path h data_type city1 (wall h (clock w))).
  { unfold artifact_path. now rewrite Hc1, <- Hsec, Hcity. }
  assert (Hopen2 : open_w h (artifact_path h data_type city2 (wall h (clock w1))) = None)
    by now rewrite Hsame.
  destruct (save_raw_data_ok h data2 data_type city2 w1 Hdir Hopen2)
    as (w2 & H2 & Hf2 & _).
  exists (artifact_path h data_type city1 (wall h (clock w))), w1, w2.
  split; [exact H1|].
  rewrite Hsame in H2, Hf2. split; [exact H2|].
  now rewrite Hf2, assoc_set_same.
Qed.

(** X16: with the variable OPENWEATHERMAP_API_KEY unset or empty,
    [extract_weather_data] raises [ValueError] before it fetches or writes
    anything: the files, the database and the clock are as they were, and
    the only log entry is the warning of [load_api_key] when python-dotenv
    is not installed. *)
Theorem missing_api_key_raises h cities w :
  api_key_env w = None \/ api_key_env w = Some "" ->
  exists w',
    Extract.extract_weather_data h cities w = (Raise ValueError, w') /\
    files w' = files w /\ db w' = db w /\ clock w' = clock w /\
    log w'
    = log w
      ++ (if dotenv_installed h then []
          else [Warning "python-dotenv not installed. Assuming API key is set in environment variables."]).
Proof.
  intros Hkey. exists (after_dotenv h w). split.
  - unfold Extract.extract_weather_data, St.bind.
    now rewrite (@load_api_key_missing h w Hkey).
  - unfold after_dotenv. destruct (dotenv_installed h); cbn;
      repeat split; now rewrite ?app_nil_r.
Qed.

(** X17: only request errors are caught.  A successful response whose JSON
    body is not an object makes [get_current_weather] raise a TypeError,
    which [extract_weather_data] passes on: no artifact is written for this
    city or for any city after it. *)
Theorem non_object_body_aborts_extraction h w key city rest status body :
  api_key_env w = Some key -> key <> "" ->
  http_get h weather_url city key = Response status (BodyJson body) ->
  (400 <=? status) && (status <? 600) = false ->
  is_dict body = false ->
  exists w1 w2,
    Extract.get_current_weather h city key w = (Raise TypeError, w1)
    /\ Extract.extract_weather_data h (city :: rest) w = (Raise TypeError, w2)
    /\ files w2 = files w.
Proof.
  intros Hkey Hne Hget Hst Hbody.
  destruct (@non_object_reply_raises h weather_url
              "Fetching current weather data for {city}"
              "Error fetching data for {city}: {e}" city key status body w
              Hget Hst Hbody) as (w1 & Hf1 & _).
  destruct (@non_object_reply_raises h weather_url
              "Fetching current weather data for {city}"
              "Error fetching data for {city}: {e}" city key status body
              (after_dotenv h w) Hget Hst Hbody) as (w2 & Hf2 & Hfiles2).
  exists w1, w2. split; [exact Hf1|]. split.
  - unfold Extract.extract_weather_data.
    rewrite (bind_ok _ (@load_api_key_run h w key Hkey Hne)).
    cbn [Extract.extract_loop]. unfold St.bind at 1.
    unfold Extract.get_current_weather. unfold weather_url in Hf2. now rewrite Hf2.
  - now rewrite Hfiles2, files_after_dotenv.
Qed.

(** X25: a file the file system refuses to create ends the extraction as well:
    the error of [open] is not a request error.  With a flat [raw_data/],
    that is the case of every city with a "/" in its name. *)
Theorem unwritable_artifact_aborts_extraction h w key city rest e :
  api_key_env w = Some key -> key <> "" ->
  delivers h weather_url city key ->
  makedirs h "raw_data" = None ->
  (forall t, open_w h (artifact_path h "current" city t) = Some e) ->
  exists w',
    Extract.extract_weather_data h (city :: rest) w = (Raise e, w')
    /\ files w' = files w.
Proof.
  intros Hkey Hne Hd Hdir Hopen.
  destruct (@fetch_delivers h weather_url "Fetching current weather data for {city}"
              "Error fetching data for {city}: {e}" city key (after_dotenv h w) Hd)
    as (data & w1 & Hrun & Hfiles & Ht).
  unfold Extract.extract_weather_data.
  rewrite (bind_ok _ (@load_api_key_run h w key Hkey Hne)).
  cbn [Extract.extract_loop]. unfold Extract.get_current_weather.
  unfold weather_url in Hrun. rewrite (bind_ok _ Hrun), Ht.
  unfold St.bind at 1. unfold St.bind at 1.
  rewrite save_raw_data_cases, Hdir, Hopen.
  exists (ticked w1). split; [reflexivity|].
  cbn [files ticked]. now rewrite Hfiles, files_after_dotenv.
Qed.

Lemma bind_inv_ok {A B} (m : M A) (f : A -> M B) w b w' :
  St.bind m f w = (Ok b, w') ->
  exists a w1, m w = (Ok a, w1) /\ f a w1 = (Ok b, w').
Proof.
  unfold St.bind. destruct (m w) as [[a|e] w1]; [|discriminate].
  intros H. now exists a, w1.
Qed.

Lemma assoc_set_In {A} k (v : A) l x :
  In x (assoc_set k v l) -> x = (k, v) \/ In x l.
Proof.
  induction l as [|[k' v'] l IH]; simpl.
  - intros [<- | []]. now left.
  - destruct (String.eqb k k'); simpl.
    + intros [<- | H]; [now left | right; now right].
    + intros [<- | H]; [right; now left|]. destruct (IH H); [now left | right; now right].
Qed.

Lemma assoc_In {A} k (l : list (string * A)) v : assoc k l = Some v -> In (k, v) l.
Proof.
  induction l as [|[k' v'] l IH]; simpl; [discriminate|].
  destruct (String.eqb k k') eqn:E.
  - apply String.eqb_eq in E. subst k'. intros [= <-]. now left.
  - intros H. right. now apply IH.
Qed.

Lemma In_assoc_some {A} k (v : A) l : In (k, v) l -> assoc k l <> None.
Proof.
  induction l as [|[k' v'] l IH]; simpl; [contradiction|].
  intros [[= -> ->] | H].
  - rewrite String.eqb_refl. discriminate.
  - destruct (String.eqb k k'); [discriminate | now apply IH].
Qed.

(** One phase of the loop, whatever the provider answers. *)
Lemma phase_keys h url fetching msg dtype city key acc
  (k : list (string * value) -> M value) w r w' :
  St.bind (Extract.fetch h url fetching msg city key)
    (fun data =>
       St.bind (if Py.truthy data
                then St.bind (Extract.save_raw_data h data dtype city)
                       (fun file_path =>
                          St.ret (assoc_set city (VStr file_path) acc))
                else St.ret acc) k) w
  = (Ok r, w') ->
  exists acc' w1,
    k acc' w1 = (Ok r, w') /\
    forall c v, In (c, v) acc' -> In (c, v) acc \/ c = city.
Proof.
  intros H.
  apply bind_inv_ok in H as (data & w1 & _ & H).
  apply bind_inv_ok in H as (acc' & w2 & Hacc & H).
  exists acc', w2. split; [exact H|].
  destruct (Py.truthy data).
  - apply bind_inv_ok in Hacc as (fp & w3 & _ & Hret).
    cbn in Hret. injection Hret as <- _.
    intros c v Hin. apply assoc_set_In in Hin as [[= -> _] | Hin]; auto.
  - cbn in Hacc. injection Hacc as <- _. auto.
Qed.

Lemma extract_loop_keys h key cities :
  forall cur fc w r w',
    Extract.extract_loop h cities key cur fc w = (Ok r, w') ->
    exists cur' fc',
      r = VDict [("current", VDict cur'); ("forecast", VDict fc')] /\
      (forall c v, In (c, v) cur' -> In (c, v) cur \/ In c cities) /\
      (forall c v, In (c, v) fc' -> In (c, v) fc \/ In c cities).
Proof.
  induction cities as [|city rest IH]; intros cur fc w r w' H.
  - cbn in H. injection H as <- _. exists cur, fc. auto.
  - cbn [Extract.extract_loop] in H.
    unfold Extract.get_current_weather in H.
    apply phase_keys in H as (cur1 & w1 & H & Hc1).
    unfold Extract.get_forecast in H.
    apply phase_keys in H as (fc1 & w2 & H & Hf1).
    destruct (IH _ _ _ _ _ H) as (cur' & fc' & -> & Hc & Hf).
    exists cur', fc'. split; [reflexivity|]. split.
    + intros c v Hin. destruct (Hc c v Hin) as [Hin1 | Hin1]; [|right; now right].
      destruct (Hc1 c v Hin1) as [? | ->]; [now left | right; now left].
    + intros c v Hin. destruct (Hf c v Hin) as [Hin1 | Hin1]; [|right; now right].
      destruct (Hf1 c v Hin1) as [? | ->]; [now left | right; now left].
Qed.

(** X18: whatever the provider answers, when [extract_weather_data]
    returns, its result is a dict of the two kinds, and every city it has
    recorded a path for is one of the cities it was asked for. *)
Theorem recorded_cities_were_requested h cities w results w' :
  Extract.extract_weather_data h cities w = (Ok results, w') ->
  exists current forecast,
    results = VDict [("current", VDict current); ("forecast", VDict forecast)] /\
    (forall city, assoc city current <> None -> In city cities) /\
    (forall city, assoc city forecast <> None -> In city cities).
Proof.
  intros H. unfold Extract.extract_weather_data in H.
  apply bind_inv_ok in H as (key & w1 & _ & H).
  destruct (extract_loop_keys _ _ _ _ _ _ H) as (cur & fc & -> & Hc & Hf).
  exists cur, fc. split; [reflexivity|]. split; intros city Hcity.
  - destruct (assoc city cur) as [v|] eqn:E; [|congruence].
    destruct (Hc city v (assoc_In _ _ E)) as [[] | Hin]. exact Hin.
  - destruct (assoc city fc) as [v|] eqn:E; [|congruence].
    destruct (Hf city v (assoc_In _ _ E)) as [[] | Hin]. exact Hin.
Qed.

Lemma json_kept_refl w w1 : files w1 = files w -> json_kept w w1.
Proof. intros H p doc Hp. exists doc. now rewrite H. Qed.

Lemma json_kept_trans w w1 w2 : json_kept w w1 -> json_kept w1 w2 -> json_kept w w2.
Proof.
  intros H1 H2 p doc Hp. destruct (H1 p doc Hp) as (d1 & Hd1). exact (H2 p d1 Hd1).
Qed.

Lemma json_kept_write w w1 path data :
  files w1 = assoc_set path (Json data) (files w) -> json_kept w w1.
Proof.
  intros H p doc Hp. rewrite H. destruct (string_dec p path) as [->|Hne].
  - exists data. apply assoc_set_same.
  - exists doc. now rewrite assoc_set_other.
Qed.

Lemma all_parse_kept items w w1 : json_kept w w1 -> all_parse items w -> all_parse items w1.
Proof.
  intros Hk Hall city v Hin. destruct (Hall city v Hin) as (p & doc & -> & Hp).
  destruct (Hk p doc Hp) as (doc' & Hp'). now exists p, doc'.
Qed.

Lemma phase_parse h url fetching msg dtype city key acc
  (k : list (string * value) -> M value) w :
  fails h url city key = true \/ delivers h url city key ->
  writable h city -> In dtype ["current"; "forecast"] ->
  all_parse acc w ->
  exists acc' w1,
    St.bind (Extract.fetch h url fetching msg city key)
      (fun data =>
         St.bind (if Py.truthy data
                  then St.bind (Extract.save_raw_data h data dtype city)
                         (fun file_path =>
                            St.ret (assoc_set city (VStr file_path) acc))
                  else St.ret acc) k) w
    = k acc' w1 /\
    all_parse acc' w1 /\ json_kept w w1.
Proof.
  intros [Hf | Hd] Hwr Hkind Hall.
  - destruct (@fetch_fails h url fetching msg city key w Hf) as (w1 & Hrun & Hfiles).
    exists acc, w1. rewrite (bind_ok _ Hrun). cbn [Py.truthy].
    split; [reflexivity|].
    pose proof (json_kept_refl w w1 Hfiles) as Hk.
    split; [exact (all_parse_kept Hk Hall) | exact Hk].
  - destruct (@fetch_delivers h url fetching msg city key w Hd)
      as (data & w1 & Hrun & Hfiles & Ht).
    destruct (@save_raw_data_run h data dtype city w1 Hwr Hkind) as (w2 & Hsave & Hfiles2 & _).
    eexists (assoc_set city (VStr _) acc), w2.
    rewrite (bind_ok _ Hrun), Ht.
    unfold St.bind at 1. rewrite (bind_ok _ Hsave). cbn [St.ret].
    split; [reflexivity|].
    assert (Hk : json_kept w w2).
    { apply (json_kept_trans (json_kept_refl w w1 Hfiles)).
      exact (@json_kept_write _ _ _ _ Hfiles2). }
    split; [|exact Hk].
    intros c v Hin. apply assoc_set_In in Hin as [Heq | Hin].
    + injection Heq as -> ->.
      eexists. exists data. split; [reflexivity|]. rewrite Hfiles2. apply assoc_set_same.
    + exact (all_parse_kept Hk Hall c v Hin).
Qed.

Lemma extract_loop_parse h key cities :
  forall cur fc w,
    (forall c, In c cities ->
       (fails h weather_url c key = true \/ delivers h weather_url c key) /\
       (fails h forecast_url c key = true \/ delivers h forecast_url c key)) ->
    (forall c, In c cities -> writable h c) ->
    all_parse cur w -> all_parse fc w ->
    exists cur' fc' w',
      Extract.extract_loop h cities key cur fc w
      = (Ok (VDict [("current", VDict cur'); ("forecast", VDict fc')]), w') /\
      all_parse cur' w' /\ all_parse fc' w'.
Proof.
  induction cities as [|city rest IH]; intros cur fc w Hok Hwr Hcur Hfc.
  - exists cur, fc, w. simpl. auto.
  - destruct (Hok city (or_introl eq_refl)) as (Hw & Hf).
    pose proof (Hwr city (or_introl eq_refl)) as Hwc.
    cbn [Extract.extract_loop]. unfold Extract.get_current_weather.
    destruct (@phase_parse h weather_url "Fetching current weather data for {city}"
                "Error fetching data for {city}: {e}" "current" city key cur
                (fun current =>
                   St.bind (Extract.get_forecast h city key)
                     (fun forecast_data =>
                        St.bind (if Py.truthy forecast_data
                                 then St.bind
                                        (Extract.save_raw_data h forecast_data
                                           "forecast" city)
                                        (fun file_path =>
                                           St.ret (assoc_set city (VStr file_path) fc))
                                 else St.ret fc)
                          (fun forecast =>
                             Extract.extract_loop h rest key current forecast)))
                w Hw Hwc (or_introl eq_refl) Hcur)
      as (cur1 & w1 & Hrun1 & Hall1 & Hk1).
    unfold weather_url in Hrun1. rewrite Hrun1. clear Hrun1.
    unfold Extract.get_forecast.
    destruct (@phase_parse h forecast_url "Fetching forecast data for {city}"
                "Error fetching forecast for {city}: {e}" "forecast" city key fc
                (fun forecast => Extract.extract_loop h rest key cur1 forecast)
                w1 Hf Hwc (or_intror (or_introl eq_refl)) (all_parse_kept Hk1 Hfc))
      as (fc1 & w2 & Hrun2 & Hall2 & Hk2).
    unfold forecast_url in Hrun2. rewrite Hrun2. clear Hrun2.
    exact (IH cur1 fc1 w2 (fun c Hc => Hok c (or_intror Hc))
              (fun c Hc => Hwr c (or_intror Hc))
              (all_parse_kept Hk2 Hall1) Hall2).
Qed.

Lemma for_each_parsed (load : value -> M unit) (items : list (string * value)) :
  (forall w0 p doc,
     assoc p (files w0) = Some (Json doc) ->
     exists w1, load (VStr p) w0 = (Ok tt, w1) /\ files w1 = files w0) ->
  forall w,
    all_parse items w ->
    exists w', St.for_each items (fun city_file => load (snd city_file)) w = (Ok tt, w')
               /\ files w' = files w.
Proof.
  intros Hload. induction items as [|[city v] items IH]; intros w Hall.
  - exists w. split; reflexivity.
  - destruct (Hall city v (or_introl eq_refl)) as (p & doc & -> & Hp).
    destruct (Hload w p doc Hp) as (w1 & Hrun & Hfiles).
    destruct (IH w1) as (w' & Hrest & Hfiles').
    { apply (all_parse_kept (json_kept_refl w w1 Hfiles)).
      intros c x Hin. apply (Hall c x). now right. }
    exists w'. cbn [St.for_each snd]. rewrite (bind_ok _ Hrun).
    split; [exact Hrest | congruence].
Qed.

Lemma load_data_files_parsed h results current forecast w :
  Py.get results "current" (VDict []) = Ok (VDict current) ->
  Py.get results "forecast" (VDict []) = Ok (VDict forecast) ->
  all_parse current w -> all_parse forecast w ->
  exists w', Load.load_data_files h results w = (Ok tt, w') /\ files w' = files w.
Proof.
  intros Hcur Hfc Hac Haf.
  assert (Hinit : exists w0,
             St.bind Load.os_path_exists_db
               (fun present => if present then St.ret tt else Load.init_database) w
             = (Ok tt, w0) /\ files w0 = files w).
  { unfold St.bind at 1, Load.os_path_exists_db.
    destruct (db w).
    - exists w. split; reflexivity.
    - destruct (init_database_run w) as (w0 & Hrun & Hfiles & _). now exists w0. }
  destruct Hinit as (w0 & Hinit & Hf0).
  pose proof (json_kept_refl w w0 Hf0) as Hk0.
  destruct (@for_each_parsed (Load.load_current_weather h) current) with (w := w0)
    as (w1 & Hrun1 & Hf1).
  { intros wa p doc Hp.
    destruct (load_current_weather_cases h p wa Hp) as (wb & Hrun & Hfiles & _).
    now exists wb. }
  { exact (all_parse_kept Hk0 Hac). }
  destruct (@for_each_parsed (Load.load_forecast_data h) forecast) with (w := w1)
    as (w2 & Hrun2 & Hf2).
  { intros wa p doc Hp.
    destruct (load_forecast_data_cases h p wa Hp) as (wb & Hrun & Hfiles & _).
    now exists wb. }
  { apply (all_parse_kept (json_kept_refl w0 w1 Hf1)).
    exact (all_parse_kept Hk0 Haf). }
  exists w2. split; [|congruence].
  unfold Load.load_data_files.
  assert (Hshape : forall (k : M unit),
            St.bind Load.os_path_exists_db
              (fun present =>
                 St.bind (if present then St.ret tt else Load.init_database)
                         (fun _ => k)) w
            = k w0).
  { intros k. revert Hinit. unfold St.bind, Load.os_path_exists_db.
    destruct (db w); cbn [St.ret].
    - now intros [= ->].
    - destruct (Load.init_database w) as [[[]|e] wx]; [now intros [= ->] | discriminate]. }
  rewrite Hshape.
  unfold St.bind at 1. unfold St.lift at 1. rewrite Hcur. cbn [Py.bind Py.items].
  rewrite (bind_ok _ Hrun1).
  unfold St.bind at 1. unfold St.lift at 1. rewrite Hfc. cbn [Py.bind Py.items].
  exact Hrun2.
Qed.

(** X19: the artifacts of a run can always be loaded.  With an API key,
    every fetch either failing at the transport level or delivering a JSON
    object, and a file system that lets the artifacts of the cities be
    created, [load_data_files] on the result of [extract_weather_data]
    returns normally: every recorded path names a file that parses. *)
Theorem extracted_artifacts_always_load (h : host) (w : world)
  (cities : list string) (key : string) :
  api_key_env w = Some key -> key <> "" ->
  (forall c, In c cities ->
     (fails h weather_url c key = true \/ delivers h weather_url c key) /\
     (fails h forecast_url c key = true \/ delivers h forecast_url c key)) ->
  (forall c, In c cities -> writable h c) ->
  exists results w1 w2,
    Extract.extract_weather_data h cities w = (Ok results, w1) /\
    Load.load_data_files h results w1 = (Ok tt, w2) /\
    files w2 = files w1.
Proof.
  intros Hkey Hne Hok Hwr.
  destruct (@extract_loop_parse h key cities [] [] (after_dotenv h w) Hok Hwr)
    as (cur & fc & w1 & Hrun & Hac & Haf);
    try (intros c v []).
  destruct (@load_data_files_parsed h
              (VDict [("current", VDict cur); ("forecast", VDict fc)]) cur fc w1
              eq_refl eq_refl Hac Haf) as (w2 & Hload & Hfiles).
  exists (VDict [("current", VDict cur); ("forecast", VDict fc)]), w1, w2.
  split; [|split; [exact Hload | exact Hfiles]].
  unfold Extract.extract_weather_data.
  now rewrite (bind_ok _ (@load_api_key_run h w key Hkey Hne)).
Qed.

(* ================================================================= *)
(** ** The driver and the descriptions *)

(** X20: without an API key [run_pipeline] initialises the database, then
    fails in the extract step: the exception is logged as the failure of
    the pipeline and raised again, nothing is fetched or written, and the
    tables that existed keep their rows. *)
Theorem pipeline_without_api_key h cities w :
  api_key_env w = None \/ api_key_env w = Some "" ->
  exists w' entries,
    Main.run_pipeline h cities w = (Raise ValueError, w') /\
    files w' = files w /\
    log w' = log w ++ entries ++ [Error "Pipeline failed: {e}" VNone ValueError] /\
    (forall name, In name base_tables -> assoc name (tables w') <> None) /\
    (forall name rows, assoc name (tables w) = Some rows ->
                       assoc name (tables w') = Some rows) /\
    (forall name, ~ In name base_tables -> assoc name (tables w') = assoc name (tables w)).
Proof.
  intros Hkey.
  assert (Hrun : exists w',
             Main.run_pipeline h cities w = (Raise ValueError, w')
             /\ files w' = files w
             /\ log w' = log w ++ ([Info "Starting weather data pipeline" VNone;
                                    Info "Database initialized at {db_path}" VNone;
                                    Info "Step 1: Extracting weather data" VNone]
                                     ++ (if dotenv_installed h then []
                                         else [Warning "python-dotenv not installed. Assuming API key is set in environment variables."]))
                               ++ [Error "Pipeline failed: {e}" VNone ValueError]
             /\ tables w'
                = create_table_if_not_exists "raw_data_files"
                    (create_table_if_not_exists "forecast"
                       (create_table_if_not_exists "current_weather" (tables w)))).
  { unfold Main.run_pipeline, St.try_except, Extract.extract_weather_data,
      Extract.load_api_key, Load.init_database.
    destruct (dotenv_installed h); destruct Hkey as [Hk | Hk]; cbn; rewrite Hk; cbn;
      (eexists; split; [reflexivity|]); cbn;
      (split; [reflexivity|]); (split; [|reflexivity]);
      rewrite <- !app_assoc; reflexivity. }
  destruct Hrun as (w' & Hrun & Hfiles & Hlog & Ht).
  exists w'. eexists. split; [exact Hrun|]. split; [exact Hfiles|].
  split; [exact Hlog|]. rewrite Ht. split; [|split].
  - intros name [<- | [<- | [<- | []]]].
    + apply create_table_keeps_exists, create_table_keeps_exists, create_table_exists.
    + apply create_table_keeps_exists, create_table_exists.
    + apply create_table_exists.
  - intros name rows Hn.
    now apply create_table_keeps, create_table_keeps, create_table_keeps.
  - intros name Hn.
    assert (Hother : forall t d, name <> t ->
              assoc name (create_table_if_not_exists t d) = assoc name d).
    { intros t d Hne. unfold create_table_if_not_exists.
      destruct (assoc t d); [reflexivity|]. rewrite assoc_app.
      destruct (assoc name d); [reflexivity|]. simpl.
      apply String.eqb_neq in Hne. now rewrite Hne. }
    rewrite !Hother; [reflexivity | | |]; intros ->; apply Hn; simpl; auto.
Qed.

Lemma cold_excludes_heat v :
  lt_num v (-10 # 1) = true -> gt_num v (40 # 1) = false.
Proof.
  unfold lt_num, gt_num. destruct (num v) as [x|]; [|discriminate].
  rewrite negb_true_iff, negb_false_iff. intros H.
  apply Qle_bool_iff. apply not_true_iff_false in H.
  rewrite Qle_bool_iff in H. apply Qnot_le_lt in H.
  apply Qlt_le_weak, (Qlt_trans _ _ _ H). reflexivity.
Qed.

(** X21: for a row of a frame whose measured cells are numbers or NULL,
    when the loop body describes the row, that is when it meets no [None],
    the description has at most four clauses, since no record is both
    extremely cold and extremely hot, and it is empty exactly for a row
    that the comparison of the columns does not select. *)
Theorem description_has_at_most_four_clauses (df : list row) (r : row)
  (ds : list string) :
  numeric_cells df ->
  In r df ->
  Transform.event_descriptions df r = Ok ds ->
  (matches r Cold = true -> matches r Heat = false)
  /\ (List.length ds <= 4)%nat
  /\ (ds = [] <-> Transform.extreme_conditions r = false).
Proof.
  intros _ _ Hds. rewrite event_descriptions_char in Hds.
  destruct (forallb (readable df r) measured_columns); [|discriminate].
  injection Hds as <-.
  split; [apply cold_excludes_heat|]. split.
  - rewrite length_map. unfold predicates. cbn [filter].
    pose proof (@cold_excludes_heat (col r "temperature")) as Hx. cbn [matches].
    destruct (lt_num (col r "temperature") (-10 # 1)).
    + rewrite (Hx eq_refl).
      destruct (gt_num (col r "wind_speed") (20 # 1)),
               (gt_num (col r "rain_3h") (10 # 1)),
               (gt_num (col r "snow_3h") (10 # 1)); simpl; lia.
    + destruct (gt_num (col r "temperature") (40 # 1)),
               (gt_num (col r "wind_speed") (20 # 1)),
               (gt_num (col r "rain_3h") (10 # 1)),
               (gt_num (col r "snow_3h") (10 # 1)); simpl; lia.
  - rewrite extreme_conditions_matches.
    unfold predicates. cbn [filter existsb matches].
    destruct (lt_num (col r "temperature") (-10 # 1)),
             (gt_num (col r "temperature") (40 # 1)),
             (gt_num (col r "wind_speed") (20 # 1)),
             (gt_num (col r "rain_3h") (10 # 1)),
             (gt_num (col r "snow_3h") (10 # 1)); simpl; split; congruence.
Qed.

(* ================================================================= *)
(** ** The further properties on sample runs *)

Lemma load_current_weather_all_or_nothing_witness :
  assoc observation_path (files dry_world) = Some (Json (VDict dry_observation))
  /\ exists w',
       Load.load_current_weather utc_host (VStr observation_path) dry_world = (Ok tt, w')
       /\ files w' = files dry_world.
Proof.
  split; [reflexivity|].
  destruct (@load_current_weather_all_or_nothing utc_host observation_path
              (VDict dry_observation) dry_world eq_refl) as (w' & Hrun & Hfiles & _).
  exists w'. split; [exact Hrun | exact Hfiles].
Defined.

Lemma load_forecast_data_all_or_nothing_witness :
  assoc forecast_path (files dry_world) = Some (Json dry_forecast)
  /\ exists w',
       Load.load_forecast_data utc_host (VStr forecast_path) dry_world = (Ok tt, w')
       /\ files w' = files dry_world.
Proof.
  split; [reflexivity|].
  destruct (@load_forecast_data_all_or_nothing utc_host forecast_path dry_forecast
              [VDict [("dt", VInt 1700000000); ("main", VDict [("temp", VFloat (41 # 2))])]]
              dry_world eq_refl eq_refl) as (w' & Hrun & Hfiles & _).
  exists w'. split; [exact Hrun | exact Hfiles].
Defined.

Lemma unreadable_artifact_raises_witness :
  unreadable "raw_data/current_a.json" truncated_world
  /\ Load.load_current_weather utc_host (VStr "raw_data/current_a.json") truncated_world
     = (Raise JSONDecodeError, truncated_world).
Proof.
  assert (H : unreadable "raw_data/current_a.json" truncated_world) by (right; reflexivity).
  split; [exact H|].
  exact (proj1 (@unreadable_artifact_raises utc_host "raw_data/current_a.json"
                  truncated_world H)).
Defined.

Lemma uninitialised_database_stores_nothing_witness :
  db bare_world = Some []
  /\ all_parse ([("Testville", VStr observation_path)]
                  ++ [("Testville", VStr forecast_path)]) bare_world
  /\ exists w' errors,
       Load.load_data_files utc_host full_batch bare_world = (Ok tt, w')
       /\ tables w' = [] /\ List.length errors = 2%nat
       /\ log w' = log bare_world ++ errors.
Proof.
  assert (Hall : all_parse ([("Testville", VStr observation_path)]
                              ++ [("Testville", VStr forecast_path)]) bare_world).
  { intros city v [[= <- <-] | [[= <- <-] | []]];
      eexists; eexists; split; reflexivity. }
  split; [reflexivity|]. split; [exact Hall|].
  destruct (@uninitialised_database_stores_nothing utc_host bare_world [] full_batch
              [("Testville", VStr observation_path)]
              [("Testville", VStr forecast_path)]
              eq_refl eq_refl eq_refl eq_refl Hall)
    as (w' & errors & Hrun & Ht & Hlog & Hlen & _).
  exists w', errors. split; [exact Hrun|]. split; [exact Ht|].
  split; [exact Hlen | exact Hlog].
Defined.

Lemma non_object_block_is_rolled_back_witness :
  assoc observation_path (files null_rain_world)
  = Some (Json (VDict null_rain_observation))
  /\ assoc "rain" null_rain_observation = Some VNone
  /\ exists w' e,
       Load.load_current_weather utc_host (VStr observation_path) null_rain_world
       = (Ok tt, w')
       /\ tables w' = tables null_rain_world
       /\ log w' = log null_rain_world
                   ++ [Error "Error loading data from {file_path}: {e}"
                             (VStr observation_path) e].
Proof.
  split; [reflexivity|]. split; [reflexivity|].
  assert (Hin : In "rain" observation_blocks) by (simpl; auto 10).
  exact (@non_object_block_is_rolled_back utc_host observation_path
           null_rain_observation "rain" VNone null_rain_world
           eq_refl Hin eq_refl eq_refl).
Defined.

Lemma missing_dt_is_stored_as_epoch_witness :
  assoc "dt" undated_observation = None
  /\ Load.load_current_weather utc_host (VStr observation_path) undated_world
     = (Ok tt, undated_loaded)
  /\ Forall (fun r => col r "timestamp" = STime (1000000 * utcoffset utc_host 0))
            (existing "current_weather" (tables undated_loaded)).
Proof.
  assert (Hrun : Load.load_current_weather utc_host (VStr observation_path) undated_world
                 = (Ok tt, undated_loaded)) by (vm_compute; reflexivity).
  assert (Hnew : assoc "current_weather" (tables undated_loaded)
                 = Some ([] ++ existing "current_weather" (tables undated_loaded)))
    by (vm_compute; reflexivity).
  split; [reflexivity|]. split; [exact Hrun|].
  exact (@missing_dt_is_stored_as_epoch utc_host observation_path undated_observation
           undated_world undated_loaded [] _ eq_refl eq_refl Hrun eq_refl Hnew).
Defined.

Lemma second_pass_duplicates_derived_rows_witness :
  assoc "forecast" (tables sample_world) = Some sample_forecast
  /\ measured_numbers sample_forecast
  /\ exists w1 w2,
       Transform.run_transformations sample_world = (Ok tt, w1)
       /\ Transform.run_transformations w1 = (Ok tt, w2)
       /\ existing "daily_aggregates" (tables w2)
          = existing "daily_aggregates" (tables sample_world)
              ++ daily_frame sample_forecast ++ daily_frame sample_forecast.
Proof.
  assert (Hnum : measured_numbers sample_forecast).
  { intros r c [<- | [<- | [<- | []]]] [<- | [<- | [<- | [<- | []]]]];
      eexists; reflexivity. }
  split; [reflexivity|]. split; [exact Hnum|].
  destruct (@second_pass_duplicates_derived_rows sample_world sample_forecast
              eq_refl Hnum) as (w1 & w2 & H1 & H2 & _ & Hall).
  exists w1, w2. split; [exact H1|]. split; [exact H2|].
  exact (Hall "daily_aggregates" (or_introl eq_refl)).
Defined.

Lemma missing_forecast_table_aborts_transformations_witness :
  assoc "forecast" (tables blank_world) = None
  /\ exists w',
       Transform.run_transformations blank_world = (Raise DatabaseError, w')
       /\ tables w' = tables blank_world.
Proof.
  split; [reflexivity|].
  destruct (@missing_forecast_table_aborts_transformations blank_world eq_refl)
    as (w' & Hrun & Ht & _).
  exists w'. split; [exact Hrun | exact Ht].
Defined.

Lemma same_second_artifacts_collide_witness :
  Extract.clean utc_host "New York,us" = Extract.clean utc_host "new york,ca"
  /\ exists path w1 w2,
       Extract.save_raw_data utc_host (VDict []) "current" "New York,us" blank_world
       = (Ok path, w1)
       /\ Extract.save_raw_data utc_host (VDict [("id", VInt 2)]) "current"
            "new york,ca" w1 = (Ok path, w2)
       /\ assoc path (files w2) = Some (Json (VDict [("id", VInt 2)])).
Proof.
  split; [reflexivity|].
  exact (@same_second_artifacts_collide utc_host (VDict []) (VDict [("id", VInt 2)])
           "current" "New York,us" "new york,ca" blank_world eq_refl eq_refl
           eq_refl eq_refl).
Defined.

Lemma missing_api_key_raises_witness :
  api_key_env keyless_world = None
  /\ exists w',
       Extract.extract_weather_data plain_host sample_cities keyless_world
       = (Raise ValueError, w')
       /\ files w' = files keyless_world
       /\ log w' = [Warning "python-dotenv not installed. Assuming API key is set in environment variables."].
Proof.
  split; [reflexivity|].
  destruct (@missing_api_key_raises plain_host sample_cities keyless_world
              (or_introl eq_refl)) as (w' & Hrun & Hfiles & _ & _ & Hlog).
  exists w'. split; [exact Hrun|]. split; [exact Hfiles | exact Hlog].
Defined.

Lemma non_object_body_aborts_extraction_witness :
  http_get list_host weather_url "London,uk" "key" = Response 200 (BodyJson (VList []))
  /\ exists w1 w2,
       Extract.get_current_weather list_host "London,uk" "key" blank_world
       = (Raise TypeError, w1)
       /\ Extract.extract_weather_data list_host ("London,uk" :: ["Tokyo,jp"]) blank_world
          = (Raise TypeError, w2)
       /\ files w2 = files blank_world.
Proof.
  split; [reflexivity|].
  assert (Hkey : "key" <> "") by discriminate.
  exact (@non_object_body_aborts_extraction list_host blank_world "key" "London,uk"
           ["Tokyo,jp"] 200 (VList []) eq_refl Hkey eq_refl eq_refl eq_refl).
Defined.

Lemma recorded_cities_were_requested_witness :
  Extract.extract_weather_data utc_host sample_cities sample_world
  = (Ok sample_results, sample_extracted)
  /\ exists current forecast,
       sample_results = VDict [("current", VDict current); ("forecast", VDict forecast)]
       /\ (forall city, assoc city current <> None -> In city sample_cities)
       /\ (forall city, assoc city forecast <> None -> In city sample_cities).
Proof.
  assert (Hrun : Extract.extract_weather_data utc_host sample_cities sample_world
                 = (Ok sample_results, sample_extracted)) by (vm_compute; reflexivity).
  split; [exact Hrun|].
  exact (@recorded_cities_were_requested utc_host sample_cities sample_world
           sample_results sample_extracted Hrun).
Defined.

Lemma extracted_artifacts_always_load_witness :
  api_key_env sample_world = Some "key"
  /\ exists results w1 w2,
       Extract.extract_weather_data utc_host sample_cities sample_world = (Ok results, w1)
       /\ Load.load_data_files utc_host results w1 = (Ok tt, w2)
       /\ files w2 = files w1.
Proof.
  split; [reflexivity|].
  assert (Hok : forall c, In c sample_cities ->
            (fails utc_host weather_url c "key" = true
             \/ delivers utc_host weather_url c "key") /\
            (fails utc_host forecast_url c "key" = true
             \/ delivers utc_host forecast_url c "key")).
  { intros c [<- | [<- | [<- | []]]]; split;
      first [ left; reflexivity
            | right; eexists; eexists; split; reflexivity ]. }
  assert (Hwr : forall c, In c sample_cities -> writable utc_host c).
  { intros c [<- | [<- | [<- | []]]]; (split; [reflexivity|]);
      intros k t [<- | [<- | []]]; reflexivity. }
  assert (Hkey : "key" <> "") by discriminate.
  exact (@extracted_artifacts_always_load utc_host sample_world sample_cities "key"
           eq_refl Hkey Hok Hwr).
Defined.

Lemma description_has_at_most_four_clauses_witness :
  numeric_cells sample_forecast
  /\ In hot_row sample_forecast
  /\ Transform.event_descriptions sample_forecast hot_row
     = Ok ["Extreme heat: 45.0°C"; "Strong winds: 25.0 m/s"]
  /\ (List.length ["Extreme heat: 45.0°C"; "Strong winds: 25.0 m/s"] <= 4)%nat.
Proof.
  assert (Hnum : numeric_cells sample_forecast).
  { intros r c [<- | [<- | [<- | []]]] [<- | [<- | [<- | [<- | []]]]];
      right; eexists; reflexivity. }
  assert (Hin : In hot_row sample_forecast) by (right; right; left; reflexivity).
  assert (Hds : Transform.event_descriptions sample_forecast hot_row
                = Ok ["Extreme heat: 45.0°C"; "Strong winds: 25.0 m/s"])
    by (vm_compute; reflexivity).
  split; [exact Hnum|]. split; [exact Hin|]. split; [exact Hds|].
  exact (proj1 (proj2 (@description_has_at_most_four_clauses sample_forecast hot_row
                         _ Hnum Hin Hds))).
Defined.

Lemma unwritable_artifact_aborts_extraction_witness :
  delivers utc_host weather_url "Biel/Bienne,ch" "key"
  /\ (forall t, open_w utc_host (artifact_path utc_host "current" "Biel/Bienne,ch" t)
                = Some FileNotFoundError)
  /\ exists w',
       Extract.extract_weather_data utc_host ["Biel/Bienne,ch"; "Tokyo,jp"] sample_world
       = (Raise FileNotFoundError, w')
       /\ files w' = files sample_world.
Proof.
  assert (Hd : delivers utc_host weather_url "Biel/Bienne,ch" "key")
    by (eexists; eexists; split; reflexivity).
  assert (Hopen : forall t,
            open_w utc_host (artifact_path utc_host "current" "Biel/Bienne,ch" t)
            = Some FileNotFoundError) by (intros t; reflexivity).
  split; [exact Hd|]. split; [exact Hopen|].
  assert (Hkey : "key" <> "") by discriminate.
  exact (@unwritable_artifact_aborts_extraction utc_host sample_world "key"
           "Biel/Bienne,ch" ["Tokyo,jp"] FileNotFoundError eq_refl Hkey Hd eq_refl Hopen).
Defined.

Lemma pipeline_without_api_key_witness :
  api_key_env keyless_world = None
  /\ exists w' entries,
       Main.run_pipeline utc_host sample_cities keyless_world = (Raise ValueError, w')
       /\ files w' = files keyless_world
       /\ log w' = log keyless_world ++ entries
                   ++ [Error "Pipeline failed: {e}" VNone ValueError].
Proof.
  split; [reflexivity|].
  destruct (@pipeline_without_api_key utc_host sample_cities keyless_world
              (or_introl eq_refl)) as (w' & entries & Hrun & Hfiles & Hlog & _).
  exists w', entries. split; [exact Hrun|]. split; [exact Hfiles | exact Hlog].
Defined.

Lemma lift_ok {A B} (r : result A) (f : A -> M B) w a :
  r = Ok a -> St.bind (St.lift r) f w = f a w.
Proof. intros ->. reflexivity. Qed.
Arguments lift_ok {A B r} f {w a} _.

(** X22: a forecast artifact without entries (no [list] key, or an empty
    list) and without a city block is not an error: no forecast row is
    stored, but the artifact is committed, and one reference to it, with a
    NULL city, is recorded. *)
Theorem forecast_without_entries_stores_reference_only h p items w raw :
  assoc p (files w) = Some (Json (VDict items)) ->
  assoc "list" items = None \/ assoc "list" items = Some (VList []) ->
  assoc "city" items = None ->
  assoc "raw_data_files" (tables w) = Some raw ->
  exists w' a,
    Load.load_forecast_data h (VStr p) w = (Ok tt, w') /\
    assoc "forecast" (tables w') = assoc "forecast" (tables w) /\
    assoc "raw_data_files" (tables w') = Some (raw ++ [a]) /\
    col a "file_path" = SText p /\ col a "data_type" = SText "forecast" /\
    col a "city" = SNull /\
    log w' = log w ++ [Info "Loaded forecast data for {city_name} into database" VNone].
Proof.
  intros Hfile Hlist Hcity Hraw.
  assert (Hl : Py.get (VDict items) "list" (VList []) = Ok (VList [])).
  { unfold Py.get. destruct Hlist as [-> | ->]; reflexivity. }
  assert (Hc : Py.get (VDict items) "city" (VDict []) = Ok (VDict [])).
  { unfold Py.get. now rewrite Hcity. }
  assert (Hr : exists ra, Py.get (VDict items) "retrieved_at" VNone = Ok ra).
  { unfold Py.get. destruct (assoc "retrieved_at" items); eexists; reflexivity. }
  destruct Hr as (ra & Hr).
  unfold Load.load_forecast_data.
  rewrite (bind_ok _ (w := w) (a := VDict items) (w' := w))
    by (unfold open_json_load; now rewrite Hfile).
  rewrite (bind_ok _ (sqlite3_connect_run w)).
  unfold St.bind at 1. unfold St.try_except.
  change (tables (opened w)) with (tables w).
  rewrite (lift_ok _ Hr), (lift_ok _ Hc).
  rewrite (lift_ok _ (a := VNone)) by reflexivity.
  rewrite (lift_ok _ (a := VNone)) by reflexivity.
  rewrite (lift_ok _ (a := VNone)) by reflexivity.
  rewrite (lift_ok _ (a := [])) by (rewrite Hl; reflexivity).
  rewrite (lift_ok _ (a := tables w)) by reflexivity.
  unfold St.bind at 1. cbn [Load.datetime_now St.bind St.tick St.ret].
  erewrite (@lift_ok _ _ (insert_into _ _ _ _)); [|erewrite insert_into_ok; [reflexivity|exact Hraw|reflexivity]].
  cbn. eexists. eexists. split; [reflexivity|]. cbn.
  split; [now rewrite assoc_set_other by discriminate|].
  split; [now rewrite assoc_set_same|].
  repeat split.
Qed.

Lemma forecast_without_entries_stores_reference_only_witness :
  assoc "list" [("retrieved_at", VStr "2023-11-14T22:13:20")] = None
  /\ exists w' a,
       Load.load_forecast_data utc_host (VStr forecast_path)
         (mkWorld (Some "key")
                  [(forecast_path, Json (VDict [("retrieved_at", VStr "2023-11-14T22:13:20")]))]
                  (Some empty_database) 0 [] [])
       = (Ok tt, w')
       /\ assoc "forecast" (tables w') = Some []
       /\ assoc "raw_data_files" (tables w') = Some ([] ++ [a])
       /\ col a "city" = SNull.
Proof.
  split; [reflexivity|].
  destruct (@forecast_without_entries_stores_reference_only utc_host forecast_path
              [("retrieved_at", VStr "2023-11-14T22:13:20")]
              (mkWorld (Some "key")
                 [(forecast_path,
                   Json (VDict [("retrieved_at", VStr "2023-11-14T22:13:20")]))]
                 (Some empty_database) 0 [] [])
              [] eq_refl (or_introl eq_refl) eq_refl eq_refl)
    as (w' & a & Hrun & Hfc & Hraw & _ & _ & Hcity & _).
  exists w', a. split; [exact Hrun|]. split; [exact Hfc|].
  split; [exact Hraw | exact Hcity].
Defined.
